(** * obs-ndi output: pixel conversion, frame queue, pacing and lifecycle

    A shallow embedding of [src/obs-ndi-output.cpp].

    - [Module CInt]: results of computations that may be undefined, and the
      fixed-width integer arithmetic of the C++ source (wrap-around of
      unsigned types, conversions between widths, checked signed arithmetic
      whose overflow is undefined behaviour).
    - [Module Converter]: the three planar-to-packed routines, as write logs
      over the destination buffer.
    - [Module Output]: the [ndi_output] object, its frame queue, counting
      signal, delivery thread and lifecycle entry points, as a state and
      error monad over a world made of the object, the two heaps, the trace
      of calls into the collaborators and the clock.
    - [Module CIntFacts], [Module ConverterFacts], [Module OutputFacts]:
      the properties, in that order.
    - [Module ConverterContents]: the bytes the routines store, in closed
      form, how row ranges compose, and the edges of the loops.
    - [Module OutputRuns]: the entry points and the lifecycle over whole
      runs: what a run keeps invariant, what drift correction leaves in
      the queue, delivery order, stop and restart.

    The entry points and the passes of the delivery thread are atomic
    steps of the model; interleavings inside a call are not represented. *)

From Stdlib Require Import ZArith List Bool Lia Permutation.
From Stdlib Require String.
Import ListNotations.
Open Scope Z_scope.

(* ================================================================== *)
(** * Fixed-width integers *)
(* ================================================================== *)

Module CInt.

(** Why a computation has no defined result. *)
Inductive error : Type :=
| DivisionByZero      (* integer division by zero *)
| SignedOverflow      (* overflow of a signed operation *)
| PopFromEmptyQueue   (* circlebuf_pop_front on an empty buffer *)
| InvalidFree         (* bfree or delete of a block that is not live *)
| InvalidJoin         (* pthread_join without a joinable thread *)
| Blocked             (* os_sem_wait with no unit to take *)
| OutOfClock          (* no clock reading left for os_gettime_ns *)
| OutOfFuel.          (* a loop ran past the bound given to it *)

Inductive result (A : Type) : Type :=
| Ok (a : A)
| Err (e : error).
Arguments Ok {A} a.
Arguments Err {A} e.

Definition rbind {A B} (r : result A) (k : A -> result B) : result B :=
  match r with
  | Ok a => k a
  | Err e => Err e
  end.

Definition two32 : Z := 4294967296.
Definition two64 : Z := 18446744073709551616.
Definition INT_MIN : Z := -2147483648.
Definition INT_MAX : Z := 2147483647.
Definition INT64_MIN : Z := -9223372036854775808.
Definition INT64_MAX : Z := 9223372036854775807.

(** Conversion to [uint32_t] and to [uint64_t] / [size_t]. *)
Definition to_uint32 (z : Z) : Z := z mod two32.
Definition to_uint64 (z : Z) : Z := z mod two64.

(** Conversion to [int] and to [int64_t] (two's complement). *)
Definition to_int (z : Z) : Z :=
  let u := z mod two32 in
  if u <? 2147483648 then u else u - two32.
Definition to_int64 (z : Z) : Z :=
  let u := z mod two64 in
  if u <? 9223372036854775808 then u else u - two64.

Definition in_int (z : Z) : bool := (INT_MIN <=? z) && (z <=? INT_MAX).
Definition in_int64 (z : Z) : bool := (INT64_MIN <=? z) && (z <=? INT64_MAX).

(** [int] arithmetic: a result out of range is undefined. *)
Definition int_checked (z : Z) : result Z :=
  if in_int z then Ok z else Err SignedOverflow.

Definition int_sub (a b : Z) : result Z := int_checked (a - b).
Definition int_mul (a b : Z) : result Z := int_checked (a * b).
Definition int_abs (a : Z) : result Z := int_checked (Z.abs a).

(** [a / b] on [int]: truncation toward zero. *)
Definition int_div (a b : Z) : result Z :=
  if b =? 0 then Err DivisionByZero else int_checked (Z.quot a b).

Definition int64_sub (a b : Z) : result Z :=
  if in_int64 (a - b) then Ok (a - b) else Err SignedOverflow.

(** [a / b] on [unsigned long long]. *)
Definition uint64_div (a b : Z) : result Z :=
  if b =? 0 then Err DivisionByZero else Ok (a / b).

Definition min_uint32 (a b : Z) : Z := if a <? b then a else b.
Definition min_int (a b : Z) : Z := if a <? b then a else b.

End CInt.
Export CInt.

(* ================================================================== *)
(** * Pixel converter *)
(* ================================================================== *)

Module Converter.

(** A plane is addressed by byte offset from its base pointer. *)
Definition plane : Type := Z -> Z.

(** One store through [_out]: byte offset from [output], and the byte. *)
Definition write : Type := (Z * Z)%type.

(** The four running pointers of a row, as offsets from [input[0]], from the
    plane [_U] points into, from the plane [_V] points into, and from
    [output]. *)
Record cursors : Type := {
  cY : Z;
  cU : Z;
  cV : Z;
  cOut : Z
}.

Definition obind {A B} (o : option A) (k : A -> option B) : option B :=
  match o with
  | Some a => k a
  | None => None
  end.

Definition input_plane (input : list plane) (i : nat) : plane :=
  nth i input (fun _ => 0).

Definition linesize (in_linesize : list Z) (i : nat) : Z :=
  nth i in_linesize 0.

(** [for (uint32_t x = 0; x < width; x += 2) body]: [x] is a [uint32_t], so
    [x += 2] wraps.  No fuel left stands for a loop that is still running. *)
Fixpoint for_pairs (fuel : nat) (x width : Z)
    (body : cursors -> list write * cursors) (c : cursors)
    : option (list write) :=
  match fuel with
  | O => None
  | S k =>
      if x <? width then
        let (ws, c') := body c in
        obind (for_pairs k (to_uint32 (x + 2)) width body c')
              (fun rest => Some (ws ++ rest))
      else Some []
  end.

(** [for (uint32_t y = start_y; y < end_y; y++) row]. *)
Fixpoint for_rows (fuel : nat) (y end_y : Z)
    (row : Z -> option (list write)) : option (list write) :=
  match fuel with
  | O => None
  | S k =>
      if y <? end_y then
        obind (row y) (fun ws =>
        obind (for_rows k (to_uint32 (y + 1)) end_y row)
              (fun rest => Some (ws ++ rest)))
      else Some []
  end.

(** Loop body of [convert_nv12_to_uyvy]: [_U] and [_V] both walk the
    interleaved chroma plane [input[1]], two bytes per pixel pair. *)
Definition nv12_pair (Yp UVp : plane) (c : cursors) : list write * cursors :=
  ([ (cOut c, UVp (cU c));
     (cOut c + 1, Yp (cY c));
     (cOut c + 2, UVp (cV c));
     (cOut c + 3, Yp (cY c + 1)) ],
   {| cY := cY c + 2; cU := cU c + 2; cV := cV c + 2; cOut := cOut c + 4 |}).

(** Loop body of [convert_i420_to_uyvy]: one chroma byte of each plane per
    pixel pair. *)
Definition i420_pair (Yp Up Vp : plane) (c : cursors) : list write * cursors :=
  ([ (cOut c, Up (cU c));
     (cOut c + 1, Yp (cY c));
     (cOut c + 2, Vp (cV c));
     (cOut c + 3, Yp (cY c + 1)) ],
   {| cY := cY c + 2; cU := cU c + 1; cV := cV c + 1; cOut := cOut c + 4 |}).

(** Loop body of [convert_i444_to_uyvy]: every other chroma sample of each
    plane is skipped. *)
Definition i444_pair (Yp Up Vp : plane) (c : cursors) : list write * cursors :=
  ([ (cOut c, Up (cU c));
     (cOut c + 1, Yp (cY c));
     (cOut c + 2, Vp (cV c));
     (cOut c + 3, Yp (cY c + 1)) ],
   {| cY := cY c + 2; cU := cU c + 2; cV := cV c + 2; cOut := cOut c + 4 |}).

Definition convert_nv12_to_uyvy (fuel : nat)
    (input : list plane) (in_linesize : list Z)
    (start_y end_y : Z) (out_linesize : Z) : option (list write) :=
  let width := min_uint32 (linesize in_linesize 0) out_linesize in
  for_rows fuel start_y end_y (fun y =>
    let _Y := to_uint32 (y * linesize in_linesize 0) in
    let _U := to_uint32 ((y / 2) * linesize in_linesize 1) in
    let _V := _U + 1 in
    let _out := to_uint32 (y * out_linesize) in
    for_pairs fuel 0 width
      (nv12_pair (input_plane input 0) (input_plane input 1))
      {| cY := _Y; cU := _U; cV := _V; cOut := _out |}).

Definition convert_i420_to_uyvy (fuel : nat)
    (input : list plane) (in_linesize : list Z)
    (start_y end_y : Z) (out_linesize : Z) : option (list write) :=
  let width := min_uint32 (linesize in_linesize 0) out_linesize in
  for_rows fuel start_y end_y (fun y =>
    let _Y := to_uint32 (y * linesize in_linesize 0) in
    let _U := to_uint32 ((y / 2) * linesize in_linesize 1) in
    let _V := to_uint32 ((y / 2) * linesize in_linesize 2) in
    let _out := to_uint32 (y * out_linesize) in
    for_pairs fuel 0 width
      (i420_pair (input_plane input 0) (input_plane input 1)
                 (input_plane input 2))
      {| cY := _Y; cU := _U; cV := _V; cOut := _out |}).

Definition convert_i444_to_uyvy (fuel : nat)
    (input : list plane) (in_linesize : list Z)
    (start_y end_y : Z) (out_linesize : Z) : option (list write) :=
  let width := min_uint32 (linesize in_linesize 0) out_linesize in
  for_rows fuel start_y end_y (fun y =>
    let _Y := to_uint32 (y * linesize in_linesize 0) in
    let _U := to_uint32 (y * linesize in_linesize 1) in
    let _V := to_uint32 (y * linesize in_linesize 2) in
    let _out := to_uint32 (y * out_linesize) in
    for_pairs fuel 0 width
      (i444_pair (input_plane input 0) (input_plane input 1)
                 (input_plane input 2))
      {| cY := _Y; cU := _U; cV := _V; cOut := _out |}).

(** The destination after a write log, starting from [buf]. *)
Definition store (buf : Z -> Z) (w : write) : Z -> Z :=
  fun off => if off =? fst w then snd w else buf off.

Definition apply_writes (buf : Z -> Z) (ws : list write) : Z -> Z :=
  fold_left store ws buf.

(** Vocabulary of the statements about the write log. *)

(** [n] consecutive offsets from [start]. *)
Fixpoint zseq (start : Z) (n : nat) : list Z :=
  match n with
  | O => []
  | S k => start :: zseq (start + 1) k
  end.

(** Iterations of the column loop: pixel pairs, a trailing odd pixel
    counting as a pair. *)
Definition pairs_of (width : Z) : nat := Z.to_nat ((width + 1) / 2).

Definition rows_of (start_y end_y : Z) : nat := Z.to_nat (end_y - start_y).

Definition offsets (ws : list write) : list Z := map fst ws.

(** Offsets written by rows [start_y .. end_y - 1], in order. *)
Definition expected_offsets (start_y end_y out_linesize width : Z) : list Z :=
  flat_map (fun y => zseq (to_uint32 (y * out_linesize)) (pairs_of width * 4))
           (zseq start_y (rows_of start_y end_y)).

(** A loop body stores four consecutive bytes and moves [_out] past them. *)
Definition four_bytes (body : cursors -> list write * cursors) : Prop :=
  forall c, offsets (fst (body c)) = zseq (cOut c) 4 /\
            cOut (snd (body c)) = cOut c + 4.

(** Every written offset lies in the destination rows
    [start_y .. end_y - 1]. *)
Definition within_rows (start_y end_y out_linesize : Z) (ws : list write)
    : Prop :=
  Forall (fun off => start_y * out_linesize <= off < end_y * out_linesize)
         (offsets ws).

(** Fixture planes: all-white luma, neutral chroma. *)
Definition white : plane := fun _ => 235.
Definition neutral : plane := fun _ => 128.

(** ** Closed form of the write log *)

(** The four stores of pixel pair [k] of a row whose pointers start at the
    cursors [c], the chroma pointers moving [step] bytes per pair. *)
Definition pair_writes (Yp Up Vp : plane) (step : Z) (c : cursors) (k : Z)
    : list write :=
  [ (cOut c + 4 * k, Up (cU c + step * k));
    (cOut c + 4 * k + 1, Yp (cY c + 2 * k));
    (cOut c + 4 * k + 2, Vp (cV c + step * k));
    (cOut c + 4 * k + 3, Yp (cY c + 2 * k + 1)) ].

Definition row_writes (Yp Up Vp : plane) (step : Z) (width : Z) (c : cursors)
    : list write :=
  flat_map (pair_writes Yp Up Vp step c) (zseq 0 (pairs_of width)).

(** Where the pointers of row [y] start, routine by routine. *)
Definition nv12_row_start (in_linesize : list Z) (out_linesize y : Z)
    : cursors :=
  {| cY := to_uint32 (y * linesize in_linesize 0);
     cU := to_uint32 ((y / 2) * linesize in_linesize 1);
     cV := to_uint32 ((y / 2) * linesize in_linesize 1) + 1;
     cOut := to_uint32 (y * out_linesize) |}.

Definition i420_row_start (in_linesize : list Z) (out_linesize y : Z)
    : cursors :=
  {| cY := to_uint32 (y * linesize in_linesize 0);
     cU := to_uint32 ((y / 2) * linesize in_linesize 1);
     cV := to_uint32 ((y / 2) * linesize in_linesize 2);
     cOut := to_uint32 (y * out_linesize) |}.

Definition i444_row_start (in_linesize : list Z) (out_linesize y : Z)
    : cursors :=
  {| cY := to_uint32 (y * linesize in_linesize 0);
     cU := to_uint32 (y * linesize in_linesize 1);
     cV := to_uint32 (y * linesize in_linesize 2);
     cOut := to_uint32 (y * out_linesize) |}.

(** The stores of rows [start_y .. end_y - 1], row after row, pair after
    pair. *)
Definition nv12_expected (input : list plane) (in_linesize : list Z)
    (start_y end_y out_linesize : Z) : list write :=
  flat_map (fun y =>
      row_writes (input_plane input 0) (input_plane input 1)
                 (input_plane input 1) 2
                 (min_uint32 (linesize in_linesize 0) out_linesize)
                 (nv12_row_start in_linesize out_linesize y))
    (zseq start_y (rows_of start_y end_y)).

Definition i420_expected (input : list plane) (in_linesize : list Z)
    (start_y end_y out_linesize : Z) : list write :=
  flat_map (fun y =>
      row_writes (input_plane input 0) (input_plane input 1)
                 (input_plane input 2) 1
                 (min_uint32 (linesize in_linesize 0) out_linesize)
                 (i420_row_start in_linesize out_linesize y))
    (zseq start_y (rows_of start_y end_y)).

Definition i444_expected (input : list plane) (in_linesize : list Z)
    (start_y end_y out_linesize : Z) : list write :=
  flat_map (fun y =>
      row_writes (input_plane input 0) (input_plane input 1)
                 (input_plane input 2) 2
                 (min_uint32 (linesize in_linesize 0) out_linesize)
                 (i444_row_start in_linesize out_linesize y))
    (zseq start_y (rows_of start_y end_y)).

(** A loop body is the pair [0] of [pair_writes] and moves the pointers by
    one pair. *)
Definition pair_body (Yp Up Vp : plane) (step : Z)
    (body : cursors -> list write * cursors) : Prop :=
  forall c,
    body c =
      (pair_writes Yp Up Vp step c 0,
       {| cY := cY c + 2; cU := cU c + step; cV := cV c + step;
          cOut := cOut c + 4 |}).

(** Fixture planes with distinct bytes: luma counts up from 16, the chroma
    planes from 100 and from 200. *)
Definition ramp (base : Z) : plane := fun off => base + off.

End Converter.

(* ================================================================== *)
(** * Output object, frame queue, delivery thread, lifecycle *)
(* ================================================================== *)

Module Output.

Definition MAX_BUFFERING_FRAMES : Z := 60.

Definition nullptr : Z := 0.

(** [enum video_format] of libobs. *)
Inductive video_format : Type :=
| VIDEO_FORMAT_NONE
| VIDEO_FORMAT_I420
| VIDEO_FORMAT_NV12
| VIDEO_FORMAT_YVYU
| VIDEO_FORMAT_YUY2
| VIDEO_FORMAT_UYVY
| VIDEO_FORMAT_RGBA
| VIDEO_FORMAT_BGRA
| VIDEO_FORMAT_BGRX
| VIDEO_FORMAT_Y800
| VIDEO_FORMAT_I444.

(** [NDIlib_FourCC_type_e]; [FourCC_type_unset] is the zero a freshly
    [bzalloc]ed object holds. *)
Inductive FourCC_type : Type :=
| FourCC_type_unset
| NDIlib_FourCC_type_UYVY
| NDIlib_FourCC_type_RGBA
| NDIlib_FourCC_type_BGRA
| NDIlib_FourCC_type_BGRX.

Definition is_UYVY (f : FourCC_type) : bool :=
  match f with
  | NDIlib_FourCC_type_UYVY => true
  | _ => false
  end.

(** The fields of [obs_video_info] and [obs_audio_info] the output reads
    (all [uint32_t], the speaker layout an enum used as a channel count). *)
Record obs_video_info : Type := {
  output_format : video_format;
  output_width : Z;
  output_height : Z;
  fps_num : Z;
  fps_den : Z
}.

Record obs_audio_info : Type := {
  samples_per_sec : Z;
  speakers : Z
}.

(** [NDIlib_video_frame_v2_t]: [xres], [yres], [frame_rate_N],
    [frame_rate_D] and [line_stride_in_bytes] are [int]; [p_data] is the
    pixel pointer.  The floating-point aspect ratio, the constant
    progressive frame type and the timecode (computed through a [double])
    are left out. *)
Record NDIlib_video_frame_v2_t : Type := {
  xres : Z;
  yres : Z;
  FourCC : FourCC_type;
  frame_rate_N : Z;
  frame_rate_D : Z;
  p_data : Z;
  line_stride_in_bytes : Z
}.

Definition with_p_data (f : NDIlib_video_frame_v2_t) (p : Z)
    : NDIlib_video_frame_v2_t :=
  {| xres := xres f; yres := yres f; FourCC := FourCC f;
     frame_rate_N := frame_rate_N f; frame_rate_D := frame_rate_D f;
     p_data := p; line_stride_in_bytes := line_stride_in_bytes f |}.

Definition with_line_stride (f : NDIlib_video_frame_v2_t) (s : Z)
    : NDIlib_video_frame_v2_t :=
  {| xres := xres f; yres := yres f; FourCC := FourCC f;
     frame_rate_N := frame_rate_N f; frame_rate_D := frame_rate_D f;
     p_data := p_data f; line_stride_in_bytes := s |}.

(** [struct video_data] and [struct audio_data] of libobs: plane pointers,
    plane strides ([uint32_t]) and the [uint64_t] timestamp; channel
    pointers, the number of audio frames ([uint32_t]) and the timestamp. *)
Record video_data : Type := {
  vd_data : list Z;
  vd_linesize : list Z;
  vd_timestamp : Z
}.

Record audio_data : Type := {
  ad_data : list Z;
  ad_frames : Z;
  ad_timestamp : Z
}.

Inductive thread_state : Type :=
| NoThread        (* never created *)
| ThreadRunning   (* inside the loop of ndi_videosend_thread *)
| ThreadExited.   (* returned and joined *)

(** [struct ndi_output].  [video_frames] is the circlebuf, as the sequence
    of records it holds, oldest first; [video_send_sem] is the count of the
    semaphore; [video_send_stop_event] tells whether the event is
    signalled. *)
Record ndi_output : Type := {
  ndi_name : String.string;
  async_sending : bool;
  video_info : obs_video_info;
  audio_info : obs_audio_info;
  started : bool;
  frame_format : FourCC_type;
  ndi_sender : Z;
  conv_buffer : Z;
  conv_linesize : Z;
  video_frames : list NDIlib_video_frame_v2_t;
  video_send_thread : thread_state;
  video_send_sem : Z;
  video_send_stop_event : bool;
  last_audio_timestamp : Z
}.

(** Calls into the collaborators, in program order. *)
Inductive event : Type :=
| EvConvert (source_f : video_format) (in_linesize : list Z)
            (start_y end_y out_linesize : Z)
| EvNew (p size : Z)
| EvDelete (p : Z)
| EvBmalloc (p size : Z)
| EvBfree (p : Z)
| EvMemcpy (dst src size : Z)
| EvSemPost
| EvSemWait
| EvEventSignal
| EvSendVideo (f : NDIlib_video_frame_v2_t)
| EvSendAudio (sample_rate no_channels no_samples : Z)
| EvSleepTo (t : Z)
| EvSendCreate (sender : Z)
| EvSendDestroy (sender : Z)
| EvBeginCapture (ok : bool)
| EvEndCapture
| EvThreadCreate
| EvLog (async : bool).

(** The object together with what it acts on: the blocks [bmalloc] and
    [new] have handed out and not yet taken back, the next fresh address,
    the calls made so far, and the readings [os_gettime_ns] will return. *)
Record world : Type := {
  obj : ndi_output;
  bm_live : list Z;
  cxx_live : list Z;
  next_ptr : Z;
  trace : list event;
  clock : list Z
}.

(** Field assignments [o->field = v]. *)

Definition set_ndi_name (v : String.string) (o : ndi_output) : ndi_output :=
  {| ndi_name := v; async_sending := async_sending o;
     video_info := video_info o; audio_info := audio_info o;
     started := started o; frame_format := frame_format o;
     ndi_sender := ndi_sender o; conv_buffer := conv_buffer o;
     conv_linesize := conv_linesize o; video_frames := video_frames o;
     video_send_thread := video_send_thread o;
     video_send_sem := video_send_sem o;
     video_send_stop_event := video_send_stop_event o;
     last_audio_timestamp := last_audio_timestamp o |}.

Definition set_async_sending (v : bool) (o : ndi_output) : ndi_output :=
  {| ndi_name := ndi_name o; async_sending := v; video_info := video_info o;
     audio_info := audio_info o; started := started o;
     frame_format := frame_format o; ndi_sender := ndi_sender o;
     conv_buffer := conv_buffer o; conv_linesize := conv_linesize o;
     video_frames := video_frames o;
     video_send_thread := video_send_thread o;
     video_send_sem := video_send_sem o;
     video_send_stop_event := video_send_stop_event o;
     last_audio_timestamp := last_audio_timestamp o |}.

Definition set_video_info (v : obs_video_info) (o : ndi_output) : ndi_output :=
  {| ndi_name := ndi_name o; async_sending := async_sending o;
     video_info := v; audio_info := audio_info o; started := started o;
     frame_format := frame_format o; ndi_sender := ndi_sender o;
     conv_buffer := conv_buffer o; conv_linesize := conv_linesize o;
     video_frames := video_frames o;
     video_send_thread := video_send_thread o;
     video_send_sem := video_send_sem o;
     video_send_stop_event := video_send_stop_event o;
     last_audio_timestamp := last_audio_timestamp o |}.

Definition set_audio_info (v : obs_audio_info) (o : ndi_output) : ndi_output :=
  {| ndi_name := ndi_name o; async_sending := async_sending o;
     video_info := video_info o; audio_info := v; started := started o;
     frame_format := frame_format o; ndi_sender := ndi_sender o;
     conv_buffer := conv_buffer o; conv_linesize := conv_linesize o;
     video_frames := video_frames o;
     video_send_thread := video_send_thread o;
     video_send_sem := video_send_sem o;
     video_send_stop_event := video_send_stop_event o;
     last_audio_timestamp := last_audio_timestamp o |}.

Definition set_started (v : bool) (o : ndi_output) : ndi_output :=
  {| ndi_name := ndi_name o; async_sending := async_sending o;
     video_info := video_info o; audio_info := audio_info o; started := v;
     frame_format := frame_format o; ndi_sender := ndi_sender o;
     conv_buffer := conv_buffer o; conv_linesize := conv_linesize o;
     video_frames := video_frames o;
     video_send_thread := video_send_thread o;
     video_send_sem := video_send_sem o;
     video_send_stop_event := video_send_stop_event o;
     last_audio_timestamp := last_audio_timestamp o |}.

Definition set_frame_format (v : FourCC_type) (o : ndi_output) : ndi_output :=
  {| ndi_name := ndi_name o; async_sending := async_sending o;
     video_info := video_info o; audio_info := audio_info o;
     started := started o; frame_format := v; ndi_sender := ndi_sender o;
     conv_buffer := conv_buffer o; conv_linesize := conv_linesize o;
     video_frames := video_frames o;
     video_send_thread := video_send_thread o;
     video_send_sem := video_send_sem o;
     video_send_stop_event := video_send_stop_event o;
     last_audio_timestamp := last_audio_timestamp o |}.

Definition set_ndi_sender (v : Z) (o : ndi_output) : ndi_output :=
  {| ndi_name := ndi_name o; async_sending := async_sending o;
     video_info := video_info o; audio_info := audio_info o;
     started := started o; frame_format := frame_format o; ndi_sender := v;
     conv_buffer := conv_buffer o; conv_linesize := conv_linesize o;
     video_frames := video_frames o;
     video_send_thread := video_send_thread o;
     video_send_sem := video_send_sem o;
     video_send_stop_event := video_send_stop_event o;
     last_audio_timestamp := last_audio_timestamp o |}.

Definition set_conv_buffer (v : Z) (o : ndi_output) : ndi_output :=
  {| ndi_name := ndi_name o; async_sending := async_sending o;
     video_info := video_info o; audio_info := audio_info o;
     started := started o; frame_format := frame_format o;
     ndi_sender := ndi_sender o; conv_buffer := v;
     conv_linesize := conv_linesize o; video_frames := video_frames o;
     video_send_thread := video_send_thread o;
     video_send_sem := video_send_sem o;
     video_send_stop_event := video_send_stop_event o;
     last_audio_timestamp := last_audio_timestamp o |}.

Definition set_conv_linesize (v : Z) (o : ndi_output) : ndi_output :=
  {| ndi_name := ndi_name o; async_sending := async_sending o;
     video_info := video_info o; audio_info := audio_info o;
     started := started o; frame_format := frame_format o;
     ndi_sender := ndi_sender o; conv_buffer := conv_buffer o;
     conv_linesize := v; video_frames := video_frames o;
     video_send_thread := video_send_thread o;
     video_send_sem := video_send_sem o;
     video_send_stop_event := video_send_stop_event o;
     last_audio_timestamp := last_audio_timestamp o |}.

Definition set_video_frames (v : list NDIlib_video_frame_v2_t) (o : ndi_output) : ndi_output :=
  {| ndi_name := ndi_name o; async_sending := async_sending o;
     video_info := video_info o; audio_info := audio_info o;
     started := started o; frame_format := frame_format o;
     ndi_sender := ndi_sender o; conv_buffer := conv_buffer o;
     conv_linesize := conv_linesize o; video_frames := v;
     video_send_thread := video_send_thread o;
     video_send_sem := video_send_sem o;
     video_send_stop_event := video_send_stop_event o;
     last_audio_timestamp := last_audio_timestamp o |}.

Definition set_video_send_thread (v : thread_state) (o : ndi_output) : ndi_output :=
  {| ndi_name := ndi_name o; async_sending := async_sending o;
     video_info := video_info o; audio_info := audio_info o;
     started := started o; frame_format := frame_format o;
     ndi_sender := ndi_sender o; conv_buffer := conv_buffer o;
     conv_linesize := conv_linesize o; video_frames := video_frames o;
     video_send_thread := v; video_send_sem := video_send_sem o;
     video_send_stop_event := video_send_stop_event o;
     last_audio_timestamp := last_audio_timestamp o |}.

Definition set_video_send_sem (v : Z) (o : ndi_output) : ndi_output :=
  {| ndi_name := ndi_name o; async_sending := async_sending o;
     video_info := video_info o; audio_info := audio_info o;
     started := started o; frame_format := frame_format o;
     ndi_sender := ndi_sender o; conv_buffer := conv_buffer o;
     conv_linesize := conv_linesize o; video_frames := video_frames o;
     video_send_thread := video_send_thread o; video_send_sem := v;
     video_send_stop_event := video_send_stop_event o;
     last_audio_timestamp := last_audio_timestamp o |}.

Definition set_video_send_stop_event (v : bool) (o : ndi_output) : ndi_output :=
  {| ndi_name := ndi_name o; async_sending := async_sending o;
     video_info := video_info o; audio_info := audio_info o;
     started := started o; frame_format := frame_format o;
     ndi_sender := ndi_sender o; conv_buffer := conv_buffer o;
     conv_linesize := conv_linesize o; video_frames := video_frames o;
     video_send_thread := video_send_thread o;
     video_send_sem := video_send_sem o; video_send_stop_event := v;
     last_audio_timestamp := last_audio_timestamp o |}.

Definition set_last_audio_timestamp (v : Z) (o : ndi_output) : ndi_output :=
  {| ndi_name := ndi_name o; async_sending := async_sending o;
     video_info := video_info o; audio_info := audio_info o;
     started := started o; frame_format := frame_format o;
     ndi_sender := ndi_sender o; conv_buffer := conv_buffer o;
     conv_linesize := conv_linesize o; video_frames := video_frames o;
     video_send_thread := video_send_thread o;
     video_send_sem := video_send_sem o;
     video_send_stop_event := video_send_stop_event o;
     last_audio_timestamp := v |}.

(** ** State and error monad over the world *)

Definition M (A : Type) : Type := world -> result (A * world).

Definition ret {A} (a : A) : M A := fun w => Ok (a, w).

Definition bind {A B} (m : M A) (k : A -> M B) : M B :=
  fun w =>
    match m w with
    | Ok (a, w') => k a w'
    | Err e => Err e
    end.

Definition fail {A} (e : error) : M A := fun _ => Err e.

Definition lift {A} (r : result A) : M A :=
  fun w =>
    match r with
    | Ok a => Ok (a, w)
    | Err e => Err e
    end.

Notation "x <- m ;; k" := (bind m (fun x => k))
  (at level 61, m at next level, right associativity).
Notation "m ;; k" := (bind m (fun _ => k))
  (at level 61, right associativity).

Definition get_obj : M ndi_output := fun w => Ok (obj w, w).

Definition modify_obj (f : ndi_output -> ndi_output) : M unit :=
  fun w =>
    Ok (tt, {| obj := f (obj w); bm_live := bm_live w;
               cxx_live := cxx_live w; next_ptr := next_ptr w;
               trace := trace w; clock := clock w |}).

Definition emit (e : event) : M unit :=
  fun w =>
    Ok (tt, {| obj := obj w; bm_live := bm_live w; cxx_live := cxx_live w;
               next_ptr := next_ptr w; trace := trace w ++ [e];
               clock := clock w |}).

Fixpoint repeatM (n : nat) (body : M unit) : M unit :=
  match n with
  | O => ret tt
  | S k => body ;; repeatM k body
  end.

(** ** Collaborator primitives *)

Definition mem (p : Z) (l : list Z) : bool := existsb (Z.eqb p) l.

(** [bmalloc]: a fresh block, never null. *)
Definition bmalloc (size : Z) : M Z :=
  fun w =>
    let p := next_ptr w in
    Ok (p, {| obj := obj w; bm_live := p :: bm_live w;
              cxx_live := cxx_live w; next_ptr := p + 1;
              trace := trace w ++ [EvBmalloc p size]; clock := clock w |}).

(** [bfree]: nothing on a null pointer; releasing a block that is not live
    is undefined. *)
Definition bfree (p : Z) : M unit :=
  fun w =>
    if p =? nullptr then Ok (tt, w)
    else if mem p (bm_live w) then
      Ok (tt, {| obj := obj w; bm_live := remove Z.eq_dec p (bm_live w);
                 cxx_live := cxx_live w; next_ptr := next_ptr w;
                 trace := trace w ++ [EvBfree p]; clock := clock w |})
    else Err InvalidFree.

(** [new uint8_t[size]()] and [delete]. *)
Definition cxx_new (size : Z) : M Z :=
  fun w =>
    let p := next_ptr w in
    Ok (p, {| obj := obj w; bm_live := bm_live w;
              cxx_live := p :: cxx_live w; next_ptr := p + 1;
              trace := trace w ++ [EvNew p size]; clock := clock w |}).

Definition cxx_delete (p : Z) : M unit :=
  fun w =>
    if p =? nullptr then Ok (tt, w)
    else if mem p (cxx_live w) then
      Ok (tt, {| obj := obj w; bm_live := bm_live w;
                 cxx_live := remove Z.eq_dec p (cxx_live w);
                 next_ptr := next_ptr w;
                 trace := trace w ++ [EvDelete p]; clock := clock w |})
    else Err InvalidFree.

(** [os_gettime_ns]: the next reading of the clock. *)
Definition os_gettime_ns : M Z :=
  fun w =>
    match clock w with
    | [] => Err OutOfClock
    | now :: rest =>
        Ok (now, {| obj := obj w; bm_live := bm_live w;
                    cxx_live := cxx_live w; next_ptr := next_ptr w;
                    trace := trace w; clock := rest |})
    end.

Definition os_sleepto_ns (t : Z) : M unit := emit (EvSleepTo t).

(** Counting signal: [os_sem_post] adds a unit; [os_sem_wait] takes one and
    blocks when there is none. *)
Definition os_sem_post : M unit :=
  modify_obj (fun o => set_video_send_sem (video_send_sem o + 1) o) ;;
  emit EvSemPost.

Definition os_sem_wait : M unit :=
  o <- get_obj ;;
  if 0 <? video_send_sem o then
    modify_obj (set_video_send_sem (video_send_sem o - 1)) ;;
    emit EvSemWait
  else fail Blocked.

(** Stop signal, an [OS_EVENT_TYPE_AUTO] event: [os_event_try] tells
    whether it was signalled (the call returned 0) and resets it. *)
Definition os_event_signal : M unit :=
  modify_obj (set_video_send_stop_event true) ;;
  emit EvEventSignal.

Definition os_event_try : M bool :=
  o <- get_obj ;;
  if video_send_stop_event o then
    modify_obj (set_video_send_stop_event false) ;; ret true
  else ret false.

(** ** Frame queue *)

(** [sizeof(NDIlib_video_frame_v2_t)] with the 64-bit layout of the SDK
    header; only its being positive matters. *)
Definition sizeof_video_frame : Z := 72.

(** [cb.size], in bytes. *)
Definition circlebuf_size (cb : list NDIlib_video_frame_v2_t) : Z :=
  sizeof_video_frame * Z.of_nat (length cb).

(** [o->video_frames.size / sizeof(NDIlib_video_frame_v2_t)]. *)
Definition frames_in_queue (o : ndi_output) : Z :=
  circlebuf_size (video_frames o) / sizeof_video_frame.

Definition circlebuf_push_back (f : NDIlib_video_frame_v2_t) : M unit :=
  modify_obj (fun o => set_video_frames (video_frames o ++ [f]) o).

Definition circlebuf_pop_front : M NDIlib_video_frame_v2_t :=
  o <- get_obj ;;
  match video_frames o with
  | [] => fail PopFromEmptyQueue
  | f :: rest => modify_obj (set_video_frames rest) ;; ret f
  end.

(** ** Pacing arithmetic *)

(** [1000000000ULL / (frame_rate_N / frame_rate_D)]: the quotient of the two
    [int]s is taken first, converted to [unsigned long long], and divides
    one second in nanoseconds.  The same expression gives [frame_duration]
    in the delivery thread and [frame_time] in the raw-video entry point. *)
Definition frame_duration (frame_rate_N frame_rate_D : Z) : result Z :=
  rbind (int_div frame_rate_N frame_rate_D) (fun fps =>
  uint64_div 1000000000 (to_uint64 fps)).

(** [(int64_t)frame->timestamp - (int64_t)o->last_audio_timestamp], set to
    0 when negative. *)
Definition audio_buffering (timestamp last_audio : Z) : result Z :=
  rbind (int64_sub (to_int64 timestamp) (to_int64 last_audio)) (fun d =>
  Ok (if d <? 0 then 0 else d)).

(** [(int)audio_buffering / (int)frame_time]. *)
Definition required_delay_frames (o : ndi_output) (frame : video_data)
    : result Z :=
  rbind (frame_duration (to_int (fps_num (video_info o)))
                        (to_int (fps_den (video_info o)))) (fun frame_time =>
  rbind (audio_buffering (vd_timestamp frame) (last_audio_timestamp o))
        (fun buffering =>
  int_div (to_int buffering) (to_int frame_time))).

(** ** Raw-video entry point *)

(** The descriptor after the conversion step, [p_data] still pointing at
    the source pixels. *)
Definition described_frame (o : ndi_output) (frame : video_data)
    : NDIlib_video_frame_v2_t :=
  let video_frame :=
    {| xres := to_int (output_width (video_info o));
       yres := to_int (output_height (video_info o));
       FourCC := frame_format o;
       frame_rate_N := to_int (fps_num (video_info o));
       frame_rate_D := to_int (fps_den (video_info o));
       p_data := nullptr;
       line_stride_in_bytes := 0 |} in
  if is_UYVY (FourCC video_frame) then
    with_line_stride (with_p_data video_frame (conv_buffer o))
                     (to_int (conv_linesize o))
  else
    with_line_stride (with_p_data video_frame (nth 0 (vd_data frame) nullptr))
                     (to_int (nth 0 (vd_linesize frame) 0)).

(** The call of a conversion routine on rows [0 .. height) into
    [conv_buffer], for the three planar formats.  The world does not hold
    pixel contents: the call is recorded with its geometry, and the bytes a
    routine writes are described in [Module Converter]. *)
Definition convert_frame (o : ndi_output) (frame : video_data) : M unit :=
  if is_UYVY (frame_format o) then
    match output_format (video_info o) with
    | VIDEO_FORMAT_NV12 =>
        emit (EvConvert VIDEO_FORMAT_NV12 (vd_linesize frame)
                0 (output_height (video_info o)) (conv_linesize o))
    | VIDEO_FORMAT_I420 =>
        emit (EvConvert VIDEO_FORMAT_I420 (vd_linesize frame)
                0 (output_height (video_info o)) (conv_linesize o))
    | VIDEO_FORMAT_I444 =>
        emit (EvConvert VIDEO_FORMAT_I444 (vd_linesize frame)
                0 (output_height (video_info o)) (conv_linesize o))
    | _ => ret tt
    end
  else ret tt.

(** [line_stride_in_bytes * yres], an [int] product. *)
Definition video_bytes (o : ndi_output) (frame : video_data) : result Z :=
  int_mul (line_stride_in_bytes (described_frame o frame))
          (yres (described_frame o frame)).

Definition drop_front : M unit :=
  popped_frame <- circlebuf_pop_front ;;
  os_sem_wait ;;
  bfree (p_data popped_frame).

Definition push_filler (video_frame : NDIlib_video_frame_v2_t) : M unit :=
  circlebuf_push_back (with_p_data video_frame nullptr) ;;
  os_sem_post.

Definition ndi_output_rawvideo (frame : video_data) : M unit :=
  o <- get_obj ;;
  if negb (started o) then ret tt
  else
    let frames_waiting := frames_in_queue o in
    if MAX_BUFFERING_FRAMES <=? frames_waiting then ret tt
    else
      convert_frame o frame ;;
      let video_frame := described_frame o frame in
      bytes <- lift (video_bytes o frame) ;;
      video_data <- bmalloc (to_uint64 bytes) ;;
      emit (EvMemcpy video_data (p_data video_frame) (to_uint64 bytes)) ;;
      let video_frame := with_p_data video_frame video_data in
      required <- lift (required_delay_frames o frame) ;;
      let current_delay_frames := frames_in_queue o in
      add_delay_frames <- lift (int_sub required (to_int current_delay_frames)) ;;
      (if add_delay_frames <? 0 then
         magnitude <- lift (int_abs add_delay_frames) ;;
         let frames_to_pop :=
           to_uint64 (min_int magnitude (to_int current_delay_frames)) in
         repeatM (Z.to_nat frames_to_pop) drop_front
       else if 0 <? add_delay_frames then
         repeatM (Z.to_nat (to_uint64 add_delay_frames))
                 (push_filler video_frame)
       else ret tt) ;;
      circlebuf_push_back video_frame ;;
      os_sem_post.

(** ** Raw-audio entry point *)

Fixpoint for_channels (n : nat) (i : Z) (body : Z -> M unit) : M unit :=
  match n with
  | O => ret tt
  | S k => body i ;; for_channels k (i + 1) body
  end.

Definition ndi_output_rawaudio (frame : audio_data) : M unit :=
  o <- get_obj ;;
  if negb (started o) then ret tt
  else
    let sample_rate := to_int (samples_per_sec (audio_info o)) in
    let no_channels := to_int (speakers (audio_info o)) in
    let no_samples := to_int (ad_frames frame) in
    let channel_stride_in_bytes := to_int (to_uint32 (ad_frames frame * 4)) in
    data_size <- lift (int_mul no_channels channel_stride_in_bytes) ;;
    audio_data <- bmalloc (to_uint64 data_size) ;;
    for_channels (Z.to_nat no_channels) 0 (fun i =>
      emit (EvMemcpy (audio_data + i * channel_stride_in_bytes)
                     (nth (Z.to_nat i) (ad_data frame) nullptr)
                     (to_uint64 channel_stride_in_bytes))) ;;
    emit (EvSendAudio sample_rate no_channels no_samples) ;;
    bfree audio_data ;;
    modify_obj (set_last_audio_timestamp (ad_timestamp frame)).

(** ** Delivery thread *)

(** One pass through the body of the first loop of [ndi_videosend_thread],
    from [os_sem_wait]; [false] when the loop is left. *)
Definition thread_iteration : M bool :=
  os_sem_wait ;;
  stop <- os_event_try ;;
  if stop then ret false
  else
    video_frame <- circlebuf_pop_front ;;
    duration <- lift (frame_duration (frame_rate_N video_frame)
                                     (frame_rate_D video_frame)) ;;
    now <- os_gettime_ns ;;
    let next_frame := to_uint64 (now + duration) in
    (if negb (p_data video_frame =? nullptr) then
       emit (EvSendVideo video_frame) ;;
       bfree (p_data video_frame)
     else ret tt) ;;
    os_sleepto_ns next_frame ;;
    ret true.

(** [while (o->video_frames.size > 0) { pop; bfree }]. *)
Fixpoint flush_frames (fuel : nat) : M unit :=
  o <- get_obj ;;
  if 0 <? circlebuf_size (video_frames o) then
    match fuel with
    | O => fail OutOfFuel
    | S k =>
        flushed_frame <- circlebuf_pop_front ;;
        bfree (p_data flushed_frame) ;;
        flush_frames k
    end
  else ret tt.

Definition flush_queue : M unit :=
  o <- get_obj ;;
  flush_frames (length (video_frames o)).

Fixpoint ndi_videosend_thread (fuel : nat) : M unit :=
  match fuel with
  | O => fail OutOfFuel
  | S k =>
      continue <- thread_iteration ;;
      if continue then ndi_videosend_thread k else flush_queue
  end.

Definition get_clock : M (list Z) := fun w => Ok (clock w, w).

Definition pthread_create : M unit :=
  modify_obj (set_video_send_thread ThreadRunning) ;;
  emit EvThreadCreate.

(** [pthread_join]: the thread, which is at its [os_sem_wait], runs until it
    returns.  Every pass that stays in the loop takes one clock reading. *)
Definition pthread_join : M unit :=
  o <- get_obj ;;
  match video_send_thread o with
  | ThreadRunning =>
      readings <- get_clock ;;
      ndi_videosend_thread (S (length readings)) ;;
      modify_obj (set_video_send_thread ThreadExited)
  | _ => fail InvalidJoin
  end.

(** ** Lifecycle *)

(** What the host and the sink answer during [start]: the negotiated video
    and audio information, the handle [NDIlib_send_create] returns (null on
    failure) and the result of [obs_output_begin_data_capture]. *)
Record host : Type := {
  host_video_info : obs_video_info;
  host_audio_info : obs_audio_info;
  send_create_result : Z;
  begin_data_capture_result : bool
}.

Record settings : Type := {
  setting_ndi_name : String.string;
  setting_ndi_async_sending : bool
}.

Definition select_format : M unit :=
  o <- get_obj ;;
  match output_format (video_info o) with
  | VIDEO_FORMAT_NV12 | VIDEO_FORMAT_I420 | VIDEO_FORMAT_I444 =>
      modify_obj (set_frame_format NDIlib_FourCC_type_UYVY) ;;
      let linesize := to_uint32 (output_width (video_info o) * 2) in
      modify_obj (set_conv_linesize linesize) ;;
      buffer <- cxx_new
        (to_uint32 (to_uint32 (output_height (video_info o) * linesize) * 2)) ;;
      modify_obj (set_conv_buffer buffer)
  | VIDEO_FORMAT_RGBA => modify_obj (set_frame_format NDIlib_FourCC_type_RGBA)
  | VIDEO_FORMAT_BGRA => modify_obj (set_frame_format NDIlib_FourCC_type_BGRA)
  | VIDEO_FORMAT_BGRX => modify_obj (set_frame_format NDIlib_FourCC_type_BGRX)
  | _ => ret tt
  end.

Definition ndi_output_start (h : host) : M bool :=
  o <- get_obj ;;
  emit (EvSendDestroy (ndi_sender o)) ;;
  cxx_delete (conv_buffer o) ;;
  modify_obj (set_video_info (host_video_info h)) ;;
  modify_obj (set_audio_info (host_audio_info h)) ;;
  select_format ;;
  emit (EvSendCreate (send_create_result h)) ;;
  modify_obj (set_ndi_sender (send_create_result h)) ;;
  (if negb (send_create_result h =? nullptr) then
     emit (EvBeginCapture (begin_data_capture_result h)) ;;
     modify_obj (set_started (begin_data_capture_result h)) ;;
     if begin_data_capture_result h then
       pthread_create ;;
       o <- get_obj ;;
       emit (EvLog (async_sending o))
     else ret tt
   else ret tt) ;;
  o <- get_obj ;;
  ret (started o).

Definition ndi_output_stop : M unit :=
  modify_obj (set_started false) ;;
  emit EvEndCapture ;;
  os_event_signal ;;
  os_sem_post ;;
  pthread_join ;;
  o <- get_obj ;;
  emit (EvSendDestroy (ndi_sender o)) ;;
  cxx_delete (conv_buffer o) ;;
  modify_obj (set_conv_buffer nullptr).

Definition ndi_output_update (s : settings) : M unit :=
  modify_obj (set_ndi_name (setting_ndi_name s)) ;;
  modify_obj (set_async_sending (setting_ndi_async_sending s)).

(** The object [ndi_output_create] returns: zeroed by [bzalloc], queue
    empty, counting signal at 0, stop signal not set, then [update]d. *)
Definition ndi_output_create (s : settings) : ndi_output :=
  {| ndi_name := setting_ndi_name s;
     async_sending := setting_ndi_async_sending s;
     video_info := {| output_format := VIDEO_FORMAT_NONE; output_width := 0;
                      output_height := 0; fps_num := 0; fps_den := 0 |};
     audio_info := {| samples_per_sec := 0; speakers := 0 |};
     started := false;
     frame_format := FourCC_type_unset;
     ndi_sender := nullptr;
     conv_buffer := nullptr;
     conv_linesize := 0;
     video_frames := [];
     video_send_thread := NoThread;
     video_send_sem := 0;
     video_send_stop_event := false;
     last_audio_timestamp := 0 |}.

(** The world right after [create], with the clock readings to come. *)
Definition created (s : settings) (readings : list Z) : world :=
  {| obj := ndi_output_create s; bm_live := []; cxx_live := [];
     next_ptr := 1; trace := []; clock := readings |}.

(** ** Runs of a started output *)

(** What happens to a started output between [start] and [stop]: the host
    calls an entry point, or the delivery thread makes one pass. *)
Inductive call : Type :=
| RawVideo (frame : video_data)
| RawAudio (frame : audio_data)
| ThreadPass.

Definition thread_pass : M unit :=
  o <- get_obj ;;
  match video_send_thread o with
  | ThreadRunning =>
      continue <- thread_iteration ;;
      if continue then ret tt
      else flush_queue ;; modify_obj (set_video_send_thread ThreadExited)
  | _ => ret tt
  end.

Definition perform (c : call) : M unit :=
  match c with
  | RawVideo frame => ndi_output_rawvideo frame
  | RawAudio frame => ndi_output_rawaudio frame
  | ThreadPass => thread_pass
  end.

Fixpoint run (cs : list call) : M unit :=
  match cs with
  | [] => ret tt
  | c :: rest => perform c ;; run rest
  end.

(** ** Vocabulary of the statements *)

(** Pixel buffers referenced by the queued descriptors, fillers left out. *)
Definition queued_buffers (q : list NDIlib_video_frame_v2_t) : list Z :=
  filter (fun p => negb (p =? nullptr)) (map p_data q).

Definition is_send_video (e : event) : bool :=
  match e with EvSendVideo _ => true | _ => false end.

Definition is_sem_post (e : event) : bool :=
  match e with EvSemPost => true | _ => false end.

Definition is_sem_wait (e : event) : bool :=
  match e with EvSemWait => true | _ => false end.

Definition is_thread_create (e : event) : bool :=
  match e with EvThreadCreate => true | _ => false end.

Definition freed (es : list event) : list Z :=
  flat_map (fun e => match e with EvBfree p => [p] | _ => [] end) es.

Definition allocated (es : list event) : list Z :=
  flat_map (fun e => match e with EvBmalloc p _ => [p] | _ => [] end) es.

(** The heap of pixel buffers agrees with the queue of a running output:
    the live blocks are the buffers of the queued descriptors together with
    the blocks [extra] a call in progress holds, each once; addresses are
    handed out in increasing order; the delivery thread is in its loop and
    the stop signal is not set; the conversion buffer is null or live. *)
Record consistent (extra : list Z) (w : world) : Prop := {
  live_once :
    NoDup (extra ++ queued_buffers (video_frames (obj w)));
  live_queued :
    forall p, In p (bm_live w) <->
              In p (extra ++ queued_buffers (video_frames (obj w)));
  live_below : forall p, In p (bm_live w) -> 0 < p < next_ptr w;
  next_positive : 0 < next_ptr w;
  sem_nonneg : 0 <= video_send_sem (obj w);
  thread_running : video_send_thread (obj w) = ThreadRunning;
  stop_unset : video_send_stop_event (obj w) = false;
  conv_valid :
    conv_buffer (obj w) = nullptr \/ In (conv_buffer (obj w)) (cxx_live w)
}.

(** Partial correctness of a computation: from a world in [P], a defined
    result is in [Q]. *)
Definition hoare {A} (P : world -> Prop) (m : M A)
    (Q : A -> world -> Prop) : Prop :=
  forall w a w', P w -> m w = Ok (a, w') -> Q a w'.

(** The world [w] after the calls [es]. *)
Definition add_trace (es : list event) (w : world) : world :=
  {| obj := obj w; bm_live := bm_live w; cxx_live := cxx_live w;
     next_ptr := next_ptr w; trace := trace w ++ es; clock := clock w |}.

(** ** Fixtures *)

Definition plain_settings : settings :=
  {| setting_ndi_name := String.EmptyString;
     setting_ndi_async_sending := false |}.

(** A host that negotiates 2x2 BGRA at the given frame rate, 48 kHz stereo,
    and a sink that hands out sender handle 7. *)
Definition bgra_host (num den : Z) : host :=
  {| host_video_info :=
       {| output_format := VIDEO_FORMAT_BGRA; output_width := 2;
          output_height := 2; fps_num := num; fps_den := den |};
     host_audio_info := {| samples_per_sec := 48000; speakers := 2 |};
     send_create_result := 7;
     begin_data_capture_result := true |}.

(** A host that negotiates 2x2 NV12 at 30 frames per second, with a sink
    that fails to create the sender. *)
Definition nv12_host_without_sink : host :=
  {| host_video_info :=
       {| output_format := VIDEO_FORMAT_NV12; output_width := 2;
          output_height := 2; fps_num := 30; fps_den := 1 |};
     host_audio_info := {| samples_per_sec := 48000; speakers := 2 |};
     send_create_result := nullptr;
     begin_data_capture_result := true |}.

(** The world a call leaves behind, the starting world if it has none. *)
Definition after {A} (m : M A) (w : world) : world :=
  match m w with
  | Ok (_, w') => w'
  | Err _ => w
  end.

(** Created, then started against [bgra_host], with two clock readings. *)
Definition started_world (num den : Z) : world :=
  after (ndi_output_start (bgra_host num den))
        (created plain_settings [1000; 2000]).

Definition video_at (timestamp : Z) : video_data :=
  {| vd_data := [100]; vd_linesize := [8]; vd_timestamp := timestamp |}.

Definition audio_at (timestamp : Z) : audio_data :=
  {| ad_data := [200; 300]; ad_frames := 4; ad_timestamp := timestamp |}.

Definition filler_30fps : NDIlib_video_frame_v2_t :=
  {| xres := 2; yres := 2; FourCC := NDIlib_FourCC_type_BGRA;
     frame_rate_N := 30; frame_rate_D := 1; p_data := nullptr;
     line_stride_in_bytes := 8 |}.

(** A world whose queue holds [n] fillers, each with its signal unit. *)
Definition world_with_fillers (n : nat) (w : world) : world :=
  after (repeatM n (push_filler filler_30fps)) w.

(** An audio frame stamped 5000 ns has been forwarded. *)
Definition world_after_audio : world :=
  after (ndi_output_rawaudio (audio_at 5000)) (started_world 30 1).

(** One real frame is queued. *)
Definition world_with_frame : world :=
  after (ndi_output_rawvideo (video_at 5000)) world_after_audio.

(** A short session at 30 frames per second: audio at 5000 ns, a video
    frame at the same instant (enqueued alone), a video frame 80 ms later
    (one filler ahead of it), one delivery pass, and a last video frame
    while the audio is 200 ms behind (fillers again). *)
Definition sample_calls : list call :=
  [ RawAudio (audio_at 5000);
    RawVideo (video_at 5000);
    RawVideo (video_at 80000000);
    ThreadPass;
    RawVideo (video_at 200000000) ].

Definition world_after_calls : world :=
  after (run sample_calls) (started_world 30 1).

(** ** Further vocabulary *)

(** The counting signal holds one unit per queued descriptor. *)
Definition balanced (w : world) : Prop :=
  video_send_sem (obj w) = Z.of_nat (length (video_frames (obj w))).

Definition is_send_audio (e : event) : bool :=
  match e with EvSendAudio _ _ _ => true | _ => false end.

(** A call into the sink. *)
Definition is_send (e : event) : bool :=
  is_send_video e || is_send_audio e.

(** The descriptors with pixel data, fillers left out. *)
Definition real_frames (q : list NDIlib_video_frame_v2_t)
    : list NDIlib_video_frame_v2_t :=
  filter (fun f => negb (p_data f =? nullptr)) q.

(** What dropping the descriptor [f] from the front appends to the trace. *)
Definition drop_events (f : NDIlib_video_frame_v2_t) : list event :=
  EvSemWait :: (if p_data f =? nullptr then [] else [EvBfree (p_data f)]).

(** What delivering the descriptor [f] at clock reading [now] appends. *)
Definition delivery_events (f : NDIlib_video_frame_v2_t) (now d : Z)
    : list event :=
  [EvSemWait] ++
  (if p_data f =? nullptr then [] else [EvSendVideo f; EvBfree (p_data f)]) ++
  [EvSleepTo (to_uint64 (now + d))].

(** Every call a computation makes satisfies [ok]. *)
Definition appends (ok : event -> bool) {A} (m : M A) : Prop :=
  forall w a w',
    m w = Ok (a, w') ->
    exists es, trace w' = trace w ++ es /\ forallb ok es = true.

(** A computation that leaves the object alone. *)
Definition keeps_obj {A} (m : M A) : Prop :=
  forall w a w', m w = Ok (a, w') -> obj w' = obj w.

(** The descriptor a raw-video call enqueues for [frame]. *)
Definition admitted_frame (w : world) (frame : video_data)
    : NDIlib_video_frame_v2_t :=
  with_p_data (described_frame (obj w) frame) (next_ptr w).

(** A host at 30 frames per second whose sink accepts. *)
Definition nv12_host : host :=
  {| host_video_info :=
       {| output_format := VIDEO_FORMAT_NV12; output_width := 2;
          output_height := 2; fps_num := 30; fps_den := 1 |};
     host_audio_info := {| samples_per_sec := 48000; speakers := 2 |};
     send_create_result := 9;
     begin_data_capture_result := true |}.

(** The sample session, then audio catching up to 200 ms and one more
    video frame: the required delay falls to 0 while six descriptors are
    queued. *)
Definition world_before_drop : world :=
  after (ndi_output_rawaudio (audio_at 200000000)) world_after_calls.

(** The sample session, stopped. *)
Definition world_stopped : world :=
  after ndi_output_stop world_after_calls.

(** Three descriptors queued (a frame, a filler, a frame) with four clock
    readings to come. *)
Definition world_three_queued : world :=
  after (run [ RawAudio (audio_at 5000);
               RawVideo (video_at 5000);
               RawVideo (video_at 80000000) ])
        (after (ndi_output_start (bgra_host 30 1))
               (created plain_settings [1000; 2000; 3000; 4000])).

(** Not a call into the sink. *)
Definition is_local (e : event) : bool := negb (is_send e).

End Output.

Module CIntFacts.

Lemma to_uint32_small z : 0 <= z < two32 -> to_uint32 z = z.
Proof. intros H. unfold to_uint32. now apply Z.mod_small. Qed.

Lemma to_uint64_small z : 0 <= z < two64 -> to_uint64 z = z.
Proof. intros H. unfold to_uint64. now apply Z.mod_small. Qed.

Lemma to_int_small z : 0 <= z <= INT_MAX -> to_int z = z.
Proof.
  intros H. unfold to_int, INT_MAX, two32 in *.
  rewrite Z.mod_small by lia.
  destruct (z <? 2147483648) eqn:E; [reflexivity | apply Z.ltb_ge in E; lia].
Qed.

Lemma to_int64_small z : 0 <= z <= INT64_MAX -> to_int64 z = z.
Proof.
  intros H. unfold to_int64, INT64_MAX, two64 in *.
  rewrite Z.mod_small by lia.
  destruct (z <? 9223372036854775808) eqn:E;
    [reflexivity | apply Z.ltb_ge in E; lia].
Qed.

Lemma min_uint32_le_r a b : min_uint32 a b <= b.
Proof. unfold min_uint32. destruct (a <? b) eqn:E; [apply Z.ltb_lt in E|]; lia. Qed.

Lemma min_uint32_le_l a b : min_uint32 a b <= a.
Proof. unfold min_uint32. destruct (a <? b) eqn:E; [|apply Z.ltb_ge in E]; lia. Qed.

End CIntFacts.
Export CIntFacts.

Module ConverterFacts.
Import Converter.

Lemma zseq_length start n : length (zseq start n) = n.
Proof. revert start. induction n as [|n IH]; intros start; simpl; [reflexivity|now rewrite IH]. Qed.

Lemma zseq_In start n z :
  In z (zseq start n) <-> start <= z < start + Z.of_nat n.
Proof.
  revert start. induction n as [|n IH]; intros start; simpl.
  - split; [tauto | lia].
  - rewrite IH. lia.
Qed.

Lemma zseq_app start a b :
  zseq start (a + b) = zseq start a ++ zseq (start + Z.of_nat a) b.
Proof.
  revert start. induction a as [|a IH]; intros start.
  - simpl. f_equal. lia.
  - cbn [Nat.add zseq app]. rewrite IH. do 3 f_equal. lia.
Qed.

Lemma offsets_app ws1 ws2 : offsets (ws1 ++ ws2) = offsets ws1 ++ offsets ws2.
Proof. apply map_app. Qed.

Lemma offsets_length ws : length (offsets ws) = length ws.
Proof. apply length_map. Qed.

Lemma nv12_pair_four_bytes Yp UVp : four_bytes (nv12_pair Yp UVp).
Proof. intros c. split; [|reflexivity]. simpl. repeat (f_equal; try lia). Qed.

Lemma i420_pair_four_bytes Yp Up Vp : four_bytes (i420_pair Yp Up Vp).
Proof. intros c. split; [|reflexivity]. simpl. repeat (f_equal; try lia). Qed.

Lemma i444_pair_four_bytes Yp Up Vp : four_bytes (i444_pair Yp Up Vp).
Proof. intros c. split; [|reflexivity]. simpl. repeat (f_equal; try lia). Qed.

Lemma for_pairs_offsets body :
  four_bytes body ->
  forall (n fuel : nat) (x width : Z) (c : cursors),
    0 <= x <= width + 1 -> width < two32 - 1 ->
    (width - x + 1) / 2 = Z.of_nat n -> (n < fuel)%nat ->
    exists ws, for_pairs fuel x width body c = Some ws /\
               offsets ws = zseq (cOut c) (n * 4).
Proof.
  intros Hbody. induction n as [|n IH]; intros fuel x width c Hx Hw Hn Hfuel.
  - destruct fuel as [|k]; [lia|]. simpl.
    assert (E : (x <? width) = false).
    { apply Z.ltb_ge. change (Z.of_nat 0) with 0 in Hn.
      Z.to_euclidean_division_equations. lia. }
    rewrite E. exists []. split; reflexivity.
  - destruct fuel as [|k]; [lia|]. simpl for_pairs.
    assert (Hlt : x < width).
    { rewrite Nat2Z.inj_succ in Hn. Z.to_euclidean_division_equations. lia. }
    assert (E : (x <? width) = true) by now apply Z.ltb_lt.
    rewrite E.
    destruct (Hbody c) as [Hoff Hout].
    destruct (body c) as [ws c'] eqn:Eb. cbn [fst snd] in Hoff, Hout.
    rewrite to_uint32_small by (unfold two32 in *; lia).
    destruct (IH k (x + 2) width c') as [rest [Hrest Hoffr]].
    + lia.
    + exact Hw.
    + rewrite Nat2Z.inj_succ in Hn. Z.to_euclidean_division_equations. lia.
    + lia.
    + rewrite Hrest. cbn [obind]. eexists. split; [reflexivity|].
      rewrite offsets_app, Hoff, Hoffr, Hout.
      change (S n * 4)%nat with (4 + n * 4)%nat.
      rewrite zseq_app. reflexivity.
Qed.

Lemma pairs_of_spec width :
  0 <= width -> (width - 0 + 1) / 2 = Z.of_nat (pairs_of width).
Proof.
  intros H. unfold pairs_of. rewrite Z2Nat.id.
  - f_equal. lia.
  - Z.to_euclidean_division_equations. lia.
Qed.

Lemma for_rows_offsets (row : Z -> option (list write))
    (row_offsets : Z -> list Z) :
  (forall y, exists ws, row y = Some ws /\ offsets ws = row_offsets y) ->
  forall (n fuel : nat) (y end_y : Z),
    0 <= y -> end_y < two32 -> end_y - y = Z.of_nat n -> (n < fuel)%nat ->
    exists ws, for_rows fuel y end_y row = Some ws /\
               offsets ws = flat_map row_offsets (zseq y n).
Proof.
  intros Hrow. induction n as [|n IH]; intros fuel y end_y Hy He Hn Hfuel.
  - destruct fuel as [|k]; [lia|]. simpl.
    assert (E : (y <? end_y) = false) by (apply Z.ltb_ge; lia).
    rewrite E. exists []. split; reflexivity.
  - destruct fuel as [|k]; [lia|]. simpl for_rows.
    assert (E : (y <? end_y) = true) by (apply Z.ltb_lt; lia).
    rewrite E.
    destruct (Hrow y) as [ws [Hws Hoff]]. rewrite Hws. simpl obind.
    rewrite to_uint32_small by (unfold two32 in *; lia).
    destruct (IH k (y + 1) end_y) as [rest [Hrest Hoffr]]; try lia.
    rewrite Hrest. simpl. eexists. split; [reflexivity|].
    rewrite offsets_app, Hoff, Hoffr. reflexivity.
Qed.

Lemma flat_map_const_length {A} (f : A -> list Z) (l : list A) (k : nat) :
  (forall a, length (f a) = k) -> length (flat_map f l) = (length l * k)%nat.
Proof.
  intros H. induction l as [|a l IH]; simpl; [reflexivity|].
  rewrite length_app, H, IH. reflexivity.
Qed.


Lemma expected_offsets_within start_y end_y out_linesize width :
  0 <= start_y <= end_y ->
  Z.of_nat (pairs_of width * 4) <= out_linesize ->
  end_y * out_linesize <= two32 ->
  Forall (fun off => start_y * out_linesize <= off < end_y * out_linesize)
         (expected_offsets start_y end_y out_linesize width).
Proof.
  intros Hy Hk Hend. apply Forall_forall. intros off Hin.
  unfold expected_offsets in Hin. apply in_flat_map in Hin.
  destruct Hin as [y [Hyin Hoff]].
  apply zseq_In in Hyin. unfold rows_of in Hyin.
  rewrite Z2Nat.id in Hyin by lia.
  apply zseq_In in Hoff.
  assert (Hout : 0 <= out_linesize) by lia.
  rewrite to_uint32_small in Hoff by (unfold two32 in *; nia).
  nia.
Qed.

(** What a routine built from the two loops writes, whatever the body. *)
Lemma rows_of_pairs_offsets (row : Z -> option (list write))
    (fuel : nat) (start_y end_y out_linesize width : Z) :
  (forall y, exists body c,
      four_bytes body /\ cOut c = to_uint32 (y * out_linesize) /\
      row y = for_pairs fuel 0 width body c) ->
  0 <= start_y <= end_y -> end_y < two32 -> 0 <= width < two32 - 1 ->
  (rows_of start_y end_y < fuel)%nat -> (pairs_of width < fuel)%nat ->
  exists ws,
    for_rows fuel start_y end_y row = Some ws /\
    offsets ws = expected_offsets start_y end_y out_linesize width /\
    length ws = (rows_of start_y end_y * (pairs_of width * 4))%nat.
Proof.
  intros Hrow Hy Hend Hw Hrows Hpairs.
  destruct (for_rows_offsets row
              (fun y => zseq (to_uint32 (y * out_linesize)) (pairs_of width * 4)))
    with (n := rows_of start_y end_y) (fuel := fuel)
         (y := start_y) (end_y := end_y) as [ws [Hws Hoff]].
  - intros y. destruct (Hrow y) as [body [c [Hbody [Hc Hr]]]].
    destruct (for_pairs_offsets body Hbody (pairs_of width) fuel 0 width c)
      as [ws [Hws Hoff]]; try lia.
    + apply pairs_of_spec. lia.
    + exists ws. rewrite Hr, <- Hc. split; assumption.
  - lia.
  - exact Hend.
  - unfold rows_of. rewrite Z2Nat.id; lia.
  - exact Hrows.
  - exists ws. split; [exact Hws|]. split; [exact Hoff|].
    rewrite <- offsets_length, Hoff.
    unfold expected_offsets.
    rewrite (flat_map_const_length _ _ (pairs_of width * 4)).
    + now rewrite zseq_length.
    + intros y. apply zseq_length.
Qed.

(** C5, as amended: each routine writes, for every row [y] of
    [start_y .. end_y - 1] in turn, the [4 * ceil(width / 2)] consecutive
    bytes from offset [y * out_linesize] (taken modulo 2^32), where [width]
    is the smaller of [in_linesize[0]] and [out_linesize] and is not
    2^32 - 1; when that many bytes fit in [out_linesize] and
    [end_y * out_linesize] does not pass 2^32, no byte outside
    [[start_y * out_linesize, end_y * out_linesize)] is written. *)
Theorem conversion_writes_pairs_per_row :
  forall convert,
    In convert [convert_nv12_to_uyvy; convert_i420_to_uyvy;
                convert_i444_to_uyvy] ->
  forall (fuel : nat) (input : list plane) (in_linesize : list Z)
         (start_y end_y out_linesize : Z),
    let width := min_uint32 (linesize in_linesize 0) out_linesize in
    0 <= start_y <= end_y -> end_y < two32 -> 0 <= width < two32 - 1 ->
    (rows_of start_y end_y < fuel)%nat -> (pairs_of width < fuel)%nat ->
    exists ws,
      convert fuel input in_linesize start_y end_y out_linesize = Some ws /\
      offsets ws = expected_offsets start_y end_y out_linesize width /\
      length ws = (rows_of start_y end_y * (pairs_of width * 4))%nat /\
      (Z.of_nat (pairs_of width * 4) <= out_linesize ->
       end_y * out_linesize <= two32 ->
       within_rows start_y end_y out_linesize ws).
Proof.
  intros convert Hin fuel input in_linesize start_y end_y out_linesize width
         Hy Hend Hw Hrows Hpairs.
  assert (H : exists ws,
    convert fuel input in_linesize start_y end_y out_linesize = Some ws /\
    offsets ws = expected_offsets start_y end_y out_linesize width /\
    length ws = (rows_of start_y end_y * (pairs_of width * 4))%nat).
  { simpl in Hin. destruct Hin as [<- | [<- | [<- | []]]].
    - unfold convert_nv12_to_uyvy. fold width.
      apply rows_of_pairs_offsets; try assumption.
      intros y. eexists. eexists.
      split; [apply nv12_pair_four_bytes|]. split; [|reflexivity]. reflexivity.
    - unfold convert_i420_to_uyvy. fold width.
      apply rows_of_pairs_offsets; try assumption.
      intros y. eexists. eexists.
      split; [apply i420_pair_four_bytes|]. split; [|reflexivity]. reflexivity.
    - unfold convert_i444_to_uyvy. fold width.
      apply rows_of_pairs_offsets; try assumption.
      intros y. eexists. eexists.
      split; [apply i444_pair_four_bytes|]. split; [|reflexivity]. reflexivity. }
  destruct H as [ws [Hws [Hoff Hlen]]].
  exists ws. repeat split; try assumption.
  intros Hfit Hnowrap. unfold within_rows. rewrite Hoff.
  now apply expected_offsets_within.
Qed.

(** In the raw-video entry point the destination stride is
    [conv_linesize = 2 * output_width] modulo 2^32, an even number, so the
    width never is 2^32 - 1 and the column loop ends. *)
Lemma width_with_even_stride (in_linesize0 output_width : Z) :
  min_uint32 in_linesize0 (to_uint32 (output_width * 2)) < two32 - 1.
Proof.
  pose proof (min_uint32_le_r in_linesize0 (to_uint32 (output_width * 2))).
  unfold to_uint32, two32 in *.
  pose proof (Z.mod_pos_bound (output_width * 2) 4294967296).
  assert ((output_width * 2) mod 4294967296 <> 4294967295).
  { intros E. Z.to_euclidean_division_equations. lia. }
  lia.
Qed.

(** The fixture of a 2x2 all-white luma block with neutral chroma: each
    row becomes chroma, luma, chroma, luma. *)
Lemma nv12_white_block :
  exists ws,
    convert_nv12_to_uyvy 3 [white; neutral] [2; 2] 0 2 4 = Some ws /\
    map (apply_writes (fun _ => 0) ws) [0; 1; 2; 3; 4; 5; 6; 7]
      = [128; 235; 128; 235; 128; 235; 128; 235].
Proof. eexists. split; reflexivity. Qed.

Lemma conversion_writes_pairs_per_row_witness :
  exists ws,
    convert_nv12_to_uyvy 3 [white; neutral] [2; 2] 0 2 4 = Some ws /\
    offsets ws = expected_offsets 0 2 4 (min_uint32 (linesize [2; 2] 0) 4) /\
    length ws = Nat.mul (rows_of 0 2)
                (Nat.mul (pairs_of (min_uint32 (linesize [2; 2] 0) 4)) 4) /\
    (Z.of_nat (pairs_of (min_uint32 (linesize [2; 2] 0) 4) * 4) <= 4 ->
     2 * 4 <= two32 ->
     within_rows 0 2 4 ws).
Proof.
  apply (conversion_writes_pairs_per_row convert_nv12_to_uyvy).
  - simpl. left. reflexivity.
  - lia.
  - reflexivity.
  - vm_compute. split; [discriminate | reflexivity].
  - vm_compute. lia.
  - vm_compute. lia.
Defined.

(** C5, as stated, fails on a row of odd width: with both strides 3 the
    4:2:0 semi-planar routine writes 8 bytes in the row, not
    [4 * floor(3 / 2) = 4], and the byte at offset 7 lies outside
    [[0 * 3, 1 * 3)]. *)
Lemma conversion_odd_width_counterexample :
  exists ws,
    convert_nv12_to_uyvy 3 [white; neutral] [3; 3] 0 1 3 = Some ws /\
    Z.of_nat (length ws) <> 4 * (min_uint32 3 3 / 2) * (1 - 0) /\
    ~ within_rows 0 1 3 ws.
Proof.
  eexists. split; [vm_compute; reflexivity|]. split.
  - vm_compute. discriminate.
  - intros H. unfold within_rows in H. rewrite Forall_forall in H.
    specialize (H 7). simpl in H.
    assert (0 * 3 <= 7 < 1 * 3) by (apply H; tauto). lia.
Qed.

End ConverterFacts.

(* ================================================================== *)
(** * Facts about the output *)
(* ================================================================== *)

Module OutputFacts.
Import Output.

(** Reduction of field reads over field assignments. *)
Ltac fields :=
  cbn [obj bm_live cxx_live next_ptr trace clock
       ndi_name async_sending video_info audio_info started frame_format
       ndi_sender conv_buffer conv_linesize video_frames video_send_thread
       video_send_sem video_send_stop_event last_audio_timestamp
       set_ndi_name set_async_sending set_video_info set_audio_info
       set_started set_frame_format set_ndi_sender set_conv_buffer
       set_conv_linesize set_video_frames set_video_send_thread
       set_video_send_sem set_video_send_stop_event
       set_last_audio_timestamp add_trace] in *.

(** ** Monad laws used below *)

Lemma bind_ok {A B} (m : M A) (k : A -> M B) w a w' :
  m w = Ok (a, w') -> bind m k w = k a w'.
Proof. intros H. unfold bind. now rewrite H. Qed.

Lemma bind_inv {A B} (m : M A) (k : A -> M B) w b w'' :
  bind m k w = Ok (b, w'') ->
  exists a w', m w = Ok (a, w') /\ k a w' = Ok (b, w'').
Proof.
  unfold bind. destruct (m w) as [[a w']|e]; [|discriminate].
  intros H. now exists a, w'.
Qed.

Lemma lift_ok {A} (r : result A) a w : r = Ok a -> lift r w = Ok (a, w).
Proof. intros ->. reflexivity. Qed.

Lemma lift_inv {A} (r : result A) a w w' :
  lift r w = Ok (a, w') -> r = Ok a /\ w' = w.
Proof. unfold lift. destruct r; [|discriminate]. intros H. now inversion H. Qed.

(** ** Queue length *)

Lemma frames_in_queue_length o :
  frames_in_queue o = Z.of_nat (length (video_frames o)).
Proof.
  unfold frames_in_queue, circlebuf_size, sizeof_video_frame.
  rewrite Z.mul_comm. now apply Z.div_mul.
Qed.

(** ** Pacing arithmetic *)

(** X8: for a whole number of frames per second the duration is the exact
    quotient [1e9 * D / N]. *)
Lemma frame_duration_integer_rate (fps D : Z) :
  0 < D -> 0 < fps -> fps * D <= INT_MAX ->
  frame_duration (fps * D) D = Ok (1000000000 * D / (fps * D)).
Proof.
  intros HD Hfps Hmax. unfold frame_duration, int_div.
  assert (E : (D =? 0) = false) by (apply Z.eqb_neq; lia). rewrite E.
  rewrite Z.quot_mul by lia.
  unfold int_checked, in_int, INT_MIN, INT_MAX in *.
  assert (E1 : (-2147483648 <=? fps) = true) by (apply Z.leb_le; lia).
  assert (E2 : (fps <=? 2147483647) = true) by (apply Z.leb_le; nia).
  rewrite E1, E2. cbn [andb rbind].
  rewrite to_uint64_small by (unfold two64; nia).
  unfold uint64_div.
  assert (E3 : (fps =? 0) = false) by (apply Z.eqb_neq; lia). rewrite E3.
  f_equal. rewrite Z.div_mul_cancel_r by lia. reflexivity.
Qed.

(** C2, at frame rate 30000/1001: the code divides the two integers first,
    [30000 / 1001 = 29], so the duration it computes is
    [1e9 / 29 = 34482758] ns, while [1e9 * 1001 / 30000] is 33366666. *)
Theorem frame_duration_ntsc :
  frame_duration 30000 1001 = Ok 34482758 /\
  1000000000 * 1001 / 30000 = 33366666.
Proof. split; reflexivity. Qed.

Lemma frame_duration_range N D d :
  frame_duration N D = Ok d -> 0 <= d <= 1000000000.
Proof.
  unfold frame_duration, rbind. destruct (int_div N D) as [fps|e]; [|discriminate].
  unfold uint64_div.
  destruct (to_uint64 fps =? 0) eqn:E; [discriminate|].
  intros H. inversion H; subst d. apply Z.eqb_neq in E.
  assert (Hpos : 0 < to_uint64 fps).
  { unfold to_uint64, two64 in *.
    pose proof (Z.mod_pos_bound fps 18446744073709551616). lia. }
  split.
  - apply Z.div_pos; lia.
  - apply Z.div_le_upper_bound; nia.
Qed.

Lemma audio_buffering_nonneg t a b : audio_buffering t a = Ok b -> 0 <= b.
Proof.
  unfold audio_buffering, rbind.
  destruct (int64_sub (to_int64 t) (to_int64 a)) as [d|e]; [|discriminate].
  intros H. inversion H. destruct (d <? 0) eqn:E; [lia|].
  apply Z.ltb_ge in E. lia.
Qed.

(** X11: while the buffering fits in an [int], the required delay is the
    integer quotient of the buffering by the frame time. *)
Lemma required_delay_frames_in_range o frame d b :
  frame_duration (to_int (fps_num (video_info o)))
                 (to_int (fps_den (video_info o))) = Ok d ->
  audio_buffering (vd_timestamp frame) (last_audio_timestamp o) = Ok b ->
  0 < d -> b <= INT_MAX ->
  required_delay_frames o frame = Ok (b / d).
Proof.
  intros Hd Hb Hpos Hmax. unfold required_delay_frames.
  rewrite Hd, Hb. cbn [rbind].
  pose proof (frame_duration_range _ _ _ Hd) as Hrange.
  pose proof (audio_buffering_nonneg _ _ _ Hb) as Hnn.
  rewrite (to_int_small b) by lia.
  rewrite (to_int_small d) by (unfold INT_MAX; lia).
  unfold int_div.
  assert (E : (d =? 0) = false) by (apply Z.eqb_neq; lia). rewrite E.
  rewrite Z.quot_div_nonneg by lia.
  unfold int_checked, in_int, INT_MIN, INT_MAX in *.
  assert (0 <= b / d <= b).
  { split; [apply Z.div_pos; lia|]. apply Z.div_le_upper_bound; nia. }
  assert (E1 : (-2147483648 <=? b / d) = true) by (apply Z.leb_le; lia).
  assert (E2 : (b / d <=? 2147483647) = true) by (apply Z.leb_le; lia).
  now rewrite E1, E2.
Qed.

(** C3, at a video frame 2^31 ns ahead of the last audio, 30 frames per
    second: the buffering is 2147483648 and the frame time 33333333, whose
    integer quotient is 64; the code narrows the buffering to [int] before
    dividing and obtains -64. *)
Theorem required_delay_frames_narrows :
  audio_buffering (vd_timestamp (video_at 2147483648))
                  (last_audio_timestamp (obj (started_world 30 1)))
    = Ok 2147483648 /\
  frame_duration 30 1 = Ok 33333333 /\
  2147483648 / 33333333 = 64 /\
  required_delay_frames (obj (started_world 30 1)) (video_at 2147483648)
    = Ok (-64).
Proof. repeat split; reflexivity. Qed.

(** C1, on a started output with an empty queue at 60 frames per second
    and no audio yet: a video frame stamped 2 s is admitted behind 120
    fillers, and the queue holds 121 descriptors. *)
Theorem filler_insertion_passes_bound :
  exists w,
    ndi_output_rawvideo (video_at 2000000000) (started_world 60 1)
      = Ok (tt, w) /\
    frames_in_queue (obj (started_world 60 1)) = 0 /\
    frames_in_queue (obj w) = 121 /\
    MAX_BUFFERING_FRAMES < frames_in_queue (obj w).
Proof.
  eexists. split; [vm_compute; reflexivity|].
  repeat split; vm_compute; reflexivity.
Qed.

(** ** Admission *)

(** C4: a raw-video call that finds 60 or more descriptors queued returns
    with the world as it was: nothing converted, allocated, enqueued or
    posted. *)
Theorem rawvideo_full_queue_is_noop (frame : video_data) (w : world) :
  MAX_BUFFERING_FRAMES <= frames_in_queue (obj w) ->
  ndi_output_rawvideo frame w = Ok (tt, w).
Proof.
  intros Hfull. unfold ndi_output_rawvideo, bind, get_obj.
  destruct (started (obj w)); cbn [negb]; [|reflexivity].
  apply Z.leb_le in Hfull. rewrite Hfull. reflexivity.
Qed.

Lemma rawvideo_full_queue_is_noop_witness :
  ndi_output_rawvideo (video_at 0) (world_with_fillers 60 (started_world 30 1))
    = Ok (tt, world_with_fillers 60 (started_world 30 1)).
Proof.
  apply (rawvideo_full_queue_is_noop (video_at 0)
           (world_with_fillers 60 (started_world 30 1))).
  vm_compute. discriminate.
Defined.

(** C10: while the started flag is false, the raw-video and the raw-audio
    entry points return with the world as it was. *)
Theorem entry_points_idle_when_not_started (w : world) :
  started (obj w) = false ->
  (forall frame, ndi_output_rawvideo frame w = Ok (tt, w)) /\
  (forall frame, ndi_output_rawaudio frame w = Ok (tt, w)).
Proof.
  intros Hs. split; intros frame.
  - unfold ndi_output_rawvideo, bind, get_obj. now rewrite Hs.
  - unfold ndi_output_rawaudio, bind, get_obj. now rewrite Hs.
Qed.

Lemma entry_points_idle_when_not_started_witness :
  (forall frame,
     ndi_output_rawvideo frame (created plain_settings [])
       = Ok (tt, created plain_settings [])) /\
  (forall frame,
     ndi_output_rawaudio frame (created plain_settings [])
       = Ok (tt, created plain_settings [])).
Proof.
  apply (entry_points_idle_when_not_started (created plain_settings [])).
  reflexivity.
Defined.

(** ** Drift correction *)

Lemma convert_frame_trace o frame w :
  exists es,
    convert_frame o frame w = Ok (tt, add_trace es w) /\
    allocated es = [] /\ freed es = [] /\
    filter is_sem_wait es = [] /\ filter is_sem_post es = [].
Proof.
  unfold convert_frame.
  destruct (is_UYVY (frame_format o));
    [destruct (output_format (video_info o))|];
    first [ exists []; unfold ret, add_trace; rewrite app_nil_r;
            destruct w; repeat split; reflexivity
          | eexists [_]; repeat split; reflexivity ].
Qed.

(** C6: when the required delay equals the queue length, an admitted frame
    is enqueued alone: the queue grows by the one descriptor that carries
    the block just allocated, nothing is released, the counting signal is
    never waited on and is posted once. *)
Theorem drift_correction_idle (frame : video_data) (w : world) (bytes : Z) :
  started (obj w) = true ->
  frames_in_queue (obj w) < MAX_BUFFERING_FRAMES ->
  video_bytes (obj w) frame = Ok bytes ->
  required_delay_frames (obj w) frame = Ok (frames_in_queue (obj w)) ->
  exists w' es,
    ndi_output_rawvideo frame w = Ok (tt, w') /\
    trace w' = trace w ++ es /\
    video_frames (obj w') =
      video_frames (obj w) ++
      [with_p_data (described_frame (obj w) frame) (next_ptr w)] /\
    allocated es = [next_ptr w] /\
    freed es = [] /\
    filter is_sem_wait es = [] /\
    filter is_sem_post es = [EvSemPost] /\
    video_send_sem (obj w') = video_send_sem (obj w) + 1.
Proof.
  intros Hs Hq Hb Hr.
  destruct (convert_frame_trace (obj w) frame w)
    as [ces [Hc [Hca [Hcf [Hcw Hcp]]]]].
  assert (Hlen := frames_in_queue_length (obj w)).
  assert (Hsub : int_sub (frames_in_queue (obj w))
                         (to_int (frames_in_queue (obj w))) = Ok 0).
  { rewrite to_int_small by (unfold MAX_BUFFERING_FRAMES, INT_MAX in *; lia).
    unfold int_sub. rewrite Z.sub_diag. reflexivity. }
  unfold ndi_output_rawvideo.
  rewrite (bind_ok get_obj _ w (obj w) w) by reflexivity.
  rewrite Hs. cbn [negb].
  assert (E : (MAX_BUFFERING_FRAMES <=? frames_in_queue (obj w)) = false)
    by (apply Z.leb_gt; exact Hq).
  rewrite E.
  rewrite (bind_ok _ _ _ _ _ Hc).
  rewrite (bind_ok _ _ _ _ _ (lift_ok _ _ _ Hb)).
  unfold bind at 1. cbn [bmalloc].
  unfold bind at 1. cbn [emit].
  rewrite (bind_ok _ _ _ _ _ (lift_ok _ _ _ Hr)).
  rewrite (bind_ok _ _ _ _ _ (lift_ok _ _ _ Hsub)).
  cbn [Z.ltb Z.compare].
  eexists. exists (ces ++ [EvBmalloc (next_ptr w) (to_uint64 bytes);
                           EvMemcpy (next_ptr w)
                             (p_data (described_frame (obj w) frame))
                             (to_uint64 bytes);
                           EvSemPost]).
  split; [reflexivity|].
  cbn. unfold allocated, freed.
  rewrite !flat_map_app, !filter_app.
  fold (allocated ces). fold (freed ces).
  rewrite Hca, Hcf, Hcw, Hcp. cbn.
  rewrite <- !app_assoc. cbn.
  repeat split; reflexivity.
Qed.

Lemma drift_correction_idle_witness :
  exists w' es,
    ndi_output_rawvideo (video_at 5000) world_after_audio = Ok (tt, w') /\
    trace w' = trace world_after_audio ++ es /\
    video_frames (obj w') =
      video_frames (obj world_after_audio) ++
      [with_p_data (described_frame (obj world_after_audio) (video_at 5000))
                   (next_ptr world_after_audio)] /\
    allocated es = [next_ptr world_after_audio] /\
    freed es = [] /\
    filter is_sem_wait es = [] /\
    filter is_sem_post es = [EvSemPost] /\
    video_send_sem (obj w') = video_send_sem (obj world_after_audio) + 1.
Proof.
  apply (drift_correction_idle (video_at 5000) world_after_audio 16);
    vm_compute; reflexivity.
Defined.

(** ** Filler insertion *)

Lemma int_checked_range z r :
  int_checked z = Ok r -> r = z /\ INT_MIN <= r <= INT_MAX.
Proof.
  unfold int_checked, in_int. destruct (INT_MIN <=? z) eqn:E1; [|discriminate].
  destruct (z <=? INT_MAX) eqn:E2; [|discriminate].
  intros H. inversion H; subst. apply Z.leb_le in E1, E2. lia.
Qed.

Lemma required_delay_frames_range o frame r :
  required_delay_frames o frame = Ok r -> INT_MIN <= r <= INT_MAX.
Proof.
  unfold required_delay_frames, rbind.
  destruct (frame_duration _ _); [|discriminate].
  destruct (audio_buffering _ _); [|discriminate].
  unfold int_div. destruct (_ =? 0); [discriminate|].
  intros H. apply int_checked_range in H. tauto.
Qed.

Lemma repeat_push_filler n f :
  forall w, exists w',
    repeatM n (push_filler f) w = Ok (tt, w') /\
    video_frames (obj w') =
      video_frames (obj w) ++ repeat (with_p_data f nullptr) n /\
    video_send_sem (obj w') = video_send_sem (obj w) + Z.of_nat n /\
    bm_live w' = bm_live w.
Proof.
  induction n as [|n IH]; intros w.
  - exists w. cbn. rewrite app_nil_r, Z.add_0_r. repeat split; reflexivity.
  - cbn [repeatM]. unfold bind at 1.
    unfold push_filler at 1, circlebuf_push_back, os_sem_post.
    unfold bind at 1. cbn [modify_obj]. unfold bind at 1.
    cbn [modify_obj emit].
    match goal with
    | |- context [repeatM n _ ?w1] =>
        destruct (IH w1) as [w' [Hrun [Hq [Hsem Hlive]]]]
    end.
    exists w'. split; [exact Hrun|]. fields.
    rewrite Hq, Hsem, Hlive, <- app_assoc. fields. cbn [repeat app].
    repeat split; try reflexivity. lia.
Qed.

(** An admitted frame whose required delay exceeds the queue length leaves
    [required_delay_frames + 1] descriptors queued, whatever that number
    is: the fillers are inserted without a bound. *)
Lemma rawvideo_fills_to_required (frame : video_data) (w : world)
    (bytes required : Z) :
  started (obj w) = true ->
  frames_in_queue (obj w) < MAX_BUFFERING_FRAMES ->
  video_bytes (obj w) frame = Ok bytes ->
  required_delay_frames (obj w) frame = Ok required ->
  frames_in_queue (obj w) < required ->
  exists w',
    ndi_output_rawvideo frame w = Ok (tt, w') /\
    frames_in_queue (obj w') = required + 1.
Proof.
  intros Hs Hq Hb Hr Hgt.
  destruct (convert_frame_trace (obj w) frame w) as [ces [Hc _]].
  pose proof (required_delay_frames_range _ _ _ Hr) as Hrange.
  assert (Hlen := frames_in_queue_length (obj w)).
  assert (Hcur : to_int (frames_in_queue (obj w)) = frames_in_queue (obj w))
    by (apply to_int_small; unfold MAX_BUFFERING_FRAMES, INT_MAX in *; lia).
  assert (Hsub : int_sub required (to_int (frames_in_queue (obj w)))
                 = Ok (required - frames_in_queue (obj w))).
  { rewrite Hcur. unfold int_sub, int_checked, in_int, INT_MIN, INT_MAX in *.
    assert (E1 : (-2147483648 <=? required - frames_in_queue (obj w)) = true)
      by (apply Z.leb_le; lia).
    assert (E2 : (required - frames_in_queue (obj w) <=? 2147483647) = true)
      by (apply Z.leb_le; lia).
    now rewrite E1, E2. }
  unfold ndi_output_rawvideo.
  rewrite (bind_ok get_obj _ w (obj w) w) by reflexivity.
  rewrite Hs. cbn [negb].
  assert (E : (MAX_BUFFERING_FRAMES <=? frames_in_queue (obj w)) = false)
    by (apply Z.leb_gt; exact Hq).
  rewrite E.
  rewrite (bind_ok _ _ _ _ _ Hc).
  rewrite (bind_ok _ _ _ _ _ (lift_ok _ _ _ Hb)).
  unfold bind at 1. cbn [bmalloc].
  unfold bind at 1. cbn [emit].
  rewrite (bind_ok _ _ _ _ _ (lift_ok _ _ _ Hr)).
  rewrite (bind_ok _ _ _ _ _ (lift_ok _ _ _ Hsub)).
  assert (E1 : (required - frames_in_queue (obj w) <? 0) = false)
    by (apply Z.ltb_ge; lia).
  assert (E2 : (0 <? required - frames_in_queue (obj w)) = true)
    by (apply Z.ltb_lt; lia).
  rewrite E1, E2.
  rewrite to_uint64_small by (unfold two64, INT_MAX in *; lia).
  match goal with
  | |- context [bind (repeatM ?n (push_filler ?f)) _ ?w1] =>
      destruct (repeat_push_filler n f w1) as [w2 [Hrun [Hq2 [Hsem2 Hlive2]]]]
  end.
  rewrite (bind_ok _ _ _ _ _ Hrun).
  unfold circlebuf_push_back, os_sem_post.
  unfold bind at 1. cbn [modify_obj]. unfold bind at 1. cbn [modify_obj emit].
  eexists. split; [reflexivity|].
  rewrite frames_in_queue_length. fields. rewrite Hq2. fields.
  rewrite !length_app, repeat_length. cbn [length].
  rewrite Hlen in *. lia.
Qed.

(** ** Delivery thread *)

(** C7: a pass of the delivery thread that dequeues a frame in the RUNNING
    state takes one unit of the counting signal, hands a frame with pixel
    data to the sink once and releases its buffer once, sends and releases
    nothing for a filler, and in both cases sleeps to the clock reading
    plus the frame duration (in 64-bit unsigned arithmetic). *)
Theorem delivery_pass (w : world) (f : NDIlib_video_frame_v2_t)
    (q : list NDIlib_video_frame_v2_t) (now : Z) (readings : list Z) (d : Z) :
  0 < video_send_sem (obj w) ->
  video_send_stop_event (obj w) = false ->
  video_frames (obj w) = f :: q ->
  frame_duration (frame_rate_N f) (frame_rate_D f) = Ok d ->
  clock w = now :: readings ->
  (p_data f <> nullptr -> In (p_data f) (bm_live w)) ->
  exists w',
    thread_iteration w = Ok (true, w') /\
    video_frames (obj w') = q /\
    trace w' =
      trace w ++ [EvSemWait] ++
      (if p_data f =? nullptr then []
       else [EvSendVideo f; EvBfree (p_data f)]) ++
      [EvSleepTo (to_uint64 (now + d))] /\
    bm_live w' =
      (if p_data f =? nullptr then bm_live w
       else remove Z.eq_dec (p_data f) (bm_live w)) /\
    (0 <= now -> now + d < two64 -> to_uint64 (now + d) = now + d).
Proof.
  intros Hsem Hev Hq Hd Hclock Hlive.
  pose proof (frame_duration_range _ _ _ Hd) as Hrange.
  unfold thread_iteration.
  unfold os_sem_wait.
  unfold bind at 1. unfold bind at 1. unfold get_obj at 1.
  apply Z.ltb_lt in Hsem. rewrite Hsem.
  unfold bind at 1. cbn [modify_obj]. cbn [emit].
  unfold os_event_try.
  unfold bind at 1. unfold bind at 1. unfold get_obj at 1.
  cbn [obj video_send_stop_event set_video_send_sem]. rewrite Hev.
  cbn [ret].
  unfold circlebuf_pop_front.
  unfold bind at 1. unfold bind at 1. unfold get_obj at 1.
  cbn [obj video_frames set_video_send_sem]. rewrite Hq.
  unfold bind at 1. cbn [modify_obj ret].
  rewrite (bind_ok _ _ _ _ _ (lift_ok _ _ _ Hd)).
  unfold bind at 1. unfold os_gettime_ns.
  cbn [clock]. rewrite Hclock.
  destruct (p_data f =? nullptr) eqn:Ep.
  - cbn [negb]. eexists. split; [reflexivity|]. cbn.
    rewrite <- app_assoc. repeat split.
    intros Hnow Hsum. apply to_uint64_small. lia.
  - cbn [negb]. apply Z.eqb_neq in Ep. specialize (Hlive Ep).
    assert (Hmem : mem (p_data f) (bm_live w) = true).
    { unfold mem. apply existsb_exists. exists (p_data f).
      split; [exact Hlive | apply Z.eqb_refl]. }
    apply Z.eqb_neq in Ep.
    unfold bind at 1. unfold bind at 1. unfold bind at 1. cbn [emit].
    unfold bfree. cbn [bm_live]. rewrite Ep, Hmem.
    eexists. split; [reflexivity|]. cbn.
    rewrite <- !app_assoc. repeat split.
    intros Hnow Hsum. apply to_uint64_small. lia.
Qed.

Lemma delivery_pass_witness :
  exists w',
    thread_iteration world_with_frame = Ok (true, w') /\
    video_frames (obj w') = [] /\
    trace w' =
      trace world_with_frame ++ [EvSemWait] ++
      [EvSendVideo (with_p_data (described_frame (obj world_after_audio)
                                                 (video_at 5000)) 2);
       EvBfree 2] ++
      [EvSleepTo (to_uint64 (1000 + 33333333))] /\
    bm_live w' = remove Z.eq_dec 2 (bm_live world_with_frame) /\
    (0 <= 1000 -> 1000 + 33333333 < two64 ->
     to_uint64 (1000 + 33333333) = 1000 + 33333333).
Proof.
  apply (delivery_pass world_with_frame
           (with_p_data (described_frame (obj world_after_audio)
                                         (video_at 5000)) 2)
           [] 1000 [2000] 33333333).
  - vm_compute. reflexivity.
  - vm_compute. reflexivity.
  - vm_compute. reflexivity.
  - vm_compute. reflexivity.
  - vm_compute. reflexivity.
  - intros _. vm_compute. left. reflexivity.
Defined.

(** ** Start without a sink *)

Lemma mem_In p l : mem p l = true <-> In p l.
Proof.
  unfold mem. rewrite existsb_exists. split.
  - intros [x [Hin Hx]]. apply Z.eqb_eq in Hx. now subst x.
  - intros Hin. exists p. split; [exact Hin | apply Z.eqb_refl].
Qed.

(** [start] on an output whose conversion-buffer pointer is neither null
    nor a live allocation deletes a block a second time: the call has no
    defined result, whatever the sink answers. *)
Lemma start_with_stale_conv_buffer (h : host) (w : world) :
  conv_buffer (obj w) <> nullptr ->
  ~ In (conv_buffer (obj w)) (cxx_live w) ->
  ndi_output_start h w = Err InvalidFree.
Proof.
  intros Hnull Hstale.
  unfold ndi_output_start, cxx_delete, bind, get_obj, emit, modify_obj, ret.
  cbn [obj bm_live cxx_live next_ptr trace clock].
  apply Z.eqb_neq in Hnull. rewrite Hnull.
  destruct (mem (conv_buffer (obj w)) (cxx_live w)) eqn:Hmem;
    [apply mem_In in Hmem; contradiction | reflexivity].
Qed.

(** C9, as amended: when creation of the sender handle fails, on an output
    whose conversion-buffer pointer is null or a live allocation, [start]
    returns the started flag as it was (false for an output that is not
    started), launches no delivery thread, and leaves the started flag, the
    thread, the queue, the counting signal, the stop signal, the last audio
    timestamp, the name, the async flag and the pixel-buffer heap
    untouched.  The object is nevertheless left half set up: the sender
    handle is null, the negotiated video and audio information is stored,
    the previous conversion buffer is deleted, and by the negotiated format
    - NV12, I420, I444: the frame format is UYVY, the conversion line size
      is [(uint32_t)(output_width * 2)], and a new conversion buffer of
      [output_height * conv_linesize * 2] bytes (32-bit arithmetic) is
      allocated, live and stored;
    - RGBA, BGRA, BGRX: the matching frame format is stored, the line size
      and the conversion-buffer pointer (now deleted) keep their values;
    - any other format: frame format, line size and the conversion-buffer
      pointer keep their values. *)
Theorem start_without_sender (h : host) (w : world) :
  send_create_result h = nullptr ->
  conv_buffer (obj w) = nullptr \/ In (conv_buffer (obj w)) (cxx_live w) ->
  exists w' es,
    ndi_output_start h w = Ok (started (obj w), w') /\
    trace w' = trace w ++ es /\ filter is_thread_create es = [] /\
    started (obj w') = started (obj w) /\
    video_send_thread (obj w') = video_send_thread (obj w) /\
    video_frames (obj w') = video_frames (obj w) /\
    video_send_sem (obj w') = video_send_sem (obj w) /\
    video_send_stop_event (obj w') = video_send_stop_event (obj w) /\
    last_audio_timestamp (obj w') = last_audio_timestamp (obj w) /\
    ndi_name (obj w') = ndi_name (obj w) /\
    async_sending (obj w') = async_sending (obj w) /\
    bm_live w' = bm_live w /\
    ndi_sender (obj w') = nullptr /\
    video_info (obj w') = host_video_info h /\
    audio_info (obj w') = host_audio_info h /\
    let kept :=
      if conv_buffer (obj w) =? nullptr then cxx_live w
      else remove Z.eq_dec (conv_buffer (obj w)) (cxx_live w) in
    match output_format (host_video_info h) with
    | VIDEO_FORMAT_NV12 | VIDEO_FORMAT_I420 | VIDEO_FORMAT_I444 =>
        frame_format (obj w') = NDIlib_FourCC_type_UYVY /\
        conv_linesize (obj w')
          = to_uint32 (output_width (host_video_info h) * 2) /\
        conv_buffer (obj w') = next_ptr w /\
        cxx_live w' = next_ptr w :: kept /\
        In (EvNew (next_ptr w)
                  (to_uint32
                     (to_uint32
                        (output_height (host_video_info h)
                         * to_uint32 (output_width (host_video_info h) * 2))
                      * 2)))
           es
    | VIDEO_FORMAT_RGBA =>
        frame_format (obj w') = NDIlib_FourCC_type_RGBA /\
        conv_linesize (obj w') = conv_linesize (obj w) /\
        conv_buffer (obj w') = conv_buffer (obj w) /\
        cxx_live w' = kept
    | VIDEO_FORMAT_BGRA =>
        frame_format (obj w') = NDIlib_FourCC_type_BGRA /\
        conv_linesize (obj w') = conv_linesize (obj w) /\
        conv_buffer (obj w') = conv_buffer (obj w) /\
        cxx_live w' = kept
    | VIDEO_FORMAT_BGRX =>
        frame_format (obj w') = NDIlib_FourCC_type_BGRX /\
        conv_linesize (obj w') = conv_linesize (obj w) /\
        conv_buffer (obj w') = conv_buffer (obj w) /\
        cxx_live w' = kept
    | _ =>
        frame_format (obj w') = frame_format (obj w) /\
        conv_linesize (obj w') = conv_linesize (obj w) /\
        conv_buffer (obj w') = conv_buffer (obj w) /\
        cxx_live w' = kept
    end.
Proof.
  intros Hfail Hconv.
  assert (Hdel : (conv_buffer (obj w) =? nullptr) = true \/
                 ((conv_buffer (obj w) =? nullptr) = false /\
                  mem (conv_buffer (obj w)) (cxx_live w) = true)).
  { destruct (conv_buffer (obj w) =? nullptr) eqn:Ep; [now left|right].
    split; [reflexivity|]. apply mem_In.
    destruct Hconv as [H|H]; [apply Z.eqb_neq in Ep; contradiction|exact H]. }
  unfold ndi_output_start, select_format, cxx_delete, cxx_new, bind, get_obj,
         emit, modify_obj, ret.
  cbn [obj bm_live cxx_live next_ptr trace clock].
  destruct Hdel as [Ep | [Ep Hmem]]; rewrite Ep; try rewrite Hmem;
    cbn [obj bm_live cxx_live next_ptr trace clock video_info
         set_video_info set_audio_info];
    destruct (output_format (host_video_info h));
    rewrite Hfail; cbn [Z.eqb nullptr negb];
    (eexists; eexists; split; [reflexivity|];
     split; [cbn; rewrite <- ?app_assoc; reflexivity|];
     cbn; repeat split; try reflexivity;
     rewrite ?in_app_iff; cbn; tauto).
Qed.

Lemma start_without_sender_witness :
  exists w' es,
    ndi_output_start nv12_host_without_sink (created plain_settings [])
      = Ok (started (obj (created plain_settings [])), w') /\
    trace w' = trace (created plain_settings []) ++ es /\
    filter is_thread_create es = [] /\
    started (obj w') = started (obj (created plain_settings [])) /\
    video_send_thread (obj w')
      = video_send_thread (obj (created plain_settings [])) /\
    video_frames (obj w') = video_frames (obj (created plain_settings [])) /\
    video_send_sem (obj w')
      = video_send_sem (obj (created plain_settings [])) /\
    video_send_stop_event (obj w')
      = video_send_stop_event (obj (created plain_settings [])) /\
    last_audio_timestamp (obj w')
      = last_audio_timestamp (obj (created plain_settings [])) /\
    ndi_name (obj w') = ndi_name (obj (created plain_settings [])) /\
    async_sending (obj w')
      = async_sending (obj (created plain_settings [])) /\
    bm_live w' = bm_live (created plain_settings []) /\
    ndi_sender (obj w') = nullptr /\
    video_info (obj w') = host_video_info nv12_host_without_sink /\
    audio_info (obj w') = host_audio_info nv12_host_without_sink /\
    frame_format (obj w') = NDIlib_FourCC_type_UYVY /\
    conv_linesize (obj w') = 4 /\
    conv_buffer (obj w') = 1 /\
    cxx_live w' = [1] /\
    In (EvNew 1 16) es.
Proof.
  apply (start_without_sender nv12_host_without_sink
           (created plain_settings [])).
  - reflexivity.
  - left. reflexivity.
Defined.

(** C9, as stated, fails twice.  On a freshly created output whose host
    negotiates NV12 while the sink refuses the sender, [start] returns
    false with no sender and no thread, yet the frame format and the
    conversion line size have been set and a conversion buffer allocated and
    stored in the object.  On an output that is already started, a [start]
    whose sender creation fails returns true, with the sender handle null
    and the earlier delivery thread still running. *)
Lemma start_failure_counterexample :
  (exists w',
     ndi_output_start nv12_host_without_sink (created plain_settings [])
       = Ok (false, w') /\
     ndi_sender (obj w') = nullptr /\
     video_send_thread (obj w') = NoThread /\
     frame_format (obj (created plain_settings [])) = FourCC_type_unset /\
     frame_format (obj w') = NDIlib_FourCC_type_UYVY /\
     conv_linesize (obj (created plain_settings [])) = 0 /\
     conv_linesize (obj w') = 4 /\
     conv_buffer (obj (created plain_settings [])) = nullptr /\
     conv_buffer (obj w') = 1 /\
     cxx_live w' = [1] /\
     obj w' <> obj (created plain_settings [])) /\
  (exists w',
     started (obj (started_world 30 1)) = true /\
     send_create_result nv12_host_without_sink = nullptr /\
     ndi_output_start nv12_host_without_sink (started_world 30 1)
       = Ok (true, w') /\
     ndi_sender (obj w') = nullptr /\
     started (obj w') = true /\
     video_send_thread (obj w') = ThreadRunning).
Proof.
  split.
  - eexists. split; [vm_compute; reflexivity|].
    repeat split; try reflexivity. cbn. discriminate.
  - eexists. split; [vm_compute; reflexivity|].
    split; [reflexivity|]. split; [vm_compute; reflexivity|].
    repeat split; reflexivity.
Qed.

(** ** Hoare rules *)

Lemma hoare_bind {A B} (P : world -> Prop) (Q : A -> world -> Prop)
    (R : B -> world -> Prop) (m : M A) (k : A -> M B) :
  hoare P m Q -> (forall a, hoare (Q a) (k a) R) -> hoare P (bind m k) R.
Proof.
  intros Hm Hk w b w'' HP Hrun.
  apply bind_inv in Hrun. destruct Hrun as [a [w' [H1 H2]]].
  exact (Hk a w' b w'' (Hm w a w' HP H1) H2).
Qed.

Lemma hoare_ret {A} (P : world -> Prop) (Q : A -> world -> Prop) (a : A) :
  (forall w, P w -> Q a w) -> hoare P (ret a) Q.
Proof. intros H w a' w' HP Hrun. inversion Hrun; subst. now apply H. Qed.

Lemma hoare_weaken {A} (P P' : world -> Prop) (Q Q' : A -> world -> Prop)
    (m : M A) :
  hoare P' m Q' -> (forall w, P w -> P' w) ->
  (forall a w, Q' a w -> Q a w) -> hoare P m Q.
Proof. intros Hm HP HQ w a w' H Hrun. eapply HQ, Hm; eauto. Qed.

Lemma hoare_lift {A} (P : world -> Prop) (r : result A) :
  hoare P (lift r) (fun _ => P).
Proof.
  intros w a w' HP Hrun. apply lift_inv in Hrun.
  destruct Hrun as [_ Hw]. now subst w'.
Qed.

Lemma hoare_get_obj (P : world -> Prop) :
  hoare P get_obj (fun o w => P w /\ o = obj w).
Proof. intros w a w' HP Hrun. inversion Hrun; subst. now split. Qed.

Lemma hoare_repeatM (P : world -> Prop) (body : M unit) (n : nat) :
  hoare P body (fun _ => P) -> hoare P (repeatM n body) (fun _ => P).
Proof.
  intros Hbody. induction n as [|n IH]; simpl.
  - apply hoare_ret. auto.
  - eapply hoare_bind; [exact Hbody|]. intros ?. exact IH.
Qed.

Lemma hoare_for_channels (P : world -> Prop) (body : Z -> M unit) (n : nat) :
  (forall i, hoare P (body i) (fun _ => P)) ->
  forall i, hoare P (for_channels n i body) (fun _ => P).
Proof.
  intros Hbody. induction n as [|n IH]; intros i; simpl.
  - apply hoare_ret. auto.
  - eapply hoare_bind; [apply Hbody|]. intros ?. apply IH.
Qed.

(** Read a goal over runs back as a triple. *)
Ltac as_hoare :=
  match goal with
  | |- forall w a w', @?P w -> ?m w = Ok (a, w') -> @?Q a w' =>
      change (hoare P m Q)
  end.

(** ** Steps that keep the heap and the queue in agreement *)

Lemma queued_buffers_app q1 q2 :
  queued_buffers (q1 ++ q2) = queued_buffers q1 ++ queued_buffers q2.
Proof. unfold queued_buffers. now rewrite map_app, filter_app. Qed.

Lemma queued_buffers_filler f :
  p_data f = nullptr -> queued_buffers [f] = [].
Proof. intros H. unfold queued_buffers. simpl. now rewrite H. Qed.

Lemma queued_buffers_real f :
  p_data f <> nullptr -> queued_buffers [f] = [p_data f].
Proof.
  intros H. unfold queued_buffers. simpl.
  apply Z.eqb_neq in H. now rewrite H.
Qed.

Lemma queued_buffers_nonnull q p : In p (queued_buffers q) -> p <> nullptr.
Proof.
  unfold queued_buffers. intros H. apply filter_In in H.
  destruct H as [_ H]. apply negb_true_iff in H. now apply Z.eqb_neq.
Qed.

Lemma emit_consistent extra e :
  hoare (consistent extra) (emit e) (fun _ => consistent extra).
Proof.
  intros w a w' H Hrun. inversion Hrun; subst. destruct H. now constructor.
Qed.

Lemma os_gettime_ns_consistent extra :
  hoare (consistent extra) os_gettime_ns (fun _ => consistent extra).
Proof.
  intros w a w' H Hrun. unfold os_gettime_ns in Hrun.
  destruct (clock w); [discriminate|]. inversion Hrun; subst.
  destruct H. now constructor.
Qed.

Lemma os_sem_post_consistent extra :
  hoare (consistent extra) os_sem_post (fun _ => consistent extra).
Proof.
  intros w a w' H Hrun. inversion Hrun; subst. destruct H.
  constructor; cbn; try assumption. lia.
Qed.

Lemma os_sem_wait_consistent extra :
  hoare (consistent extra) os_sem_wait (fun _ => consistent extra).
Proof.
  intros w a w' H Hrun. unfold os_sem_wait, bind, get_obj in Hrun.
  destruct (0 <? video_send_sem (obj w)) eqn:E; [|discriminate].
  inversion Hrun; subst. apply Z.ltb_lt in E. destruct H.
  constructor; cbn; try assumption. lia.
Qed.

Lemma os_event_try_consistent extra :
  hoare (consistent extra) os_event_try
        (fun stop w => consistent extra w /\ stop = false).
Proof.
  intros w a w' H Hrun. unfold os_event_try, bind, get_obj in Hrun.
  rewrite (stop_unset _ _ H) in Hrun. inversion Hrun; subst. now split.
Qed.

Lemma set_last_audio_timestamp_consistent extra t :
  hoare (consistent extra) (modify_obj (set_last_audio_timestamp t))
        (fun _ => consistent extra).
Proof.
  intros w a w' H Hrun. inversion Hrun; subst. destruct H. now constructor.
Qed.

Lemma push_filler_consistent extra f :
  hoare (consistent extra) (push_filler f) (fun _ => consistent extra).
Proof.
  unfold push_filler. eapply hoare_bind; [|intros ?; apply os_sem_post_consistent].
  intros w a w' H Hrun. inversion Hrun; subst. destruct H.
  constructor; fields; try assumption;
    rewrite queued_buffers_app, (queued_buffers_filler (with_p_data f nullptr)),
            app_nil_r by reflexivity; assumption.
Qed.

Lemma bmalloc_consistent size :
  hoare (consistent []) (bmalloc size) (fun p => consistent [p]).
Proof.
  intros w p w' H Hrun. inversion Hrun; subst. destruct H.
  assert (Hfresh : ~ In (next_ptr w) (bm_live w)).
  { intros Hin. apply live_below0 in Hin. lia. }
  constructor; fields; try assumption.
  - cbn [app] in *. constructor; [|assumption].
    intros Hin. apply Hfresh, live_queued0, Hin.
  - intros p. cbn [In app] in *. rewrite live_queued0. tauto.
  - intros p [<-|Hin]; [lia|]. apply live_below0 in Hin. lia.
  - lia.
Qed.

Lemma circlebuf_pop_front_consistent extra :
  hoare (consistent extra) circlebuf_pop_front
        (fun f => consistent (queued_buffers [f] ++ extra)).
Proof.
  intros w f w' H Hrun. unfold circlebuf_pop_front, bind, get_obj in Hrun.
  destruct (video_frames (obj w)) as [|f0 rest] eqn:Eq; [discriminate|].
  inversion Hrun; subst. destruct H. rewrite Eq in *.
  change (f :: rest) with ([f] ++ rest) in *.
  rewrite queued_buffers_app in *.
  assert (Hperm : Permutation
            (extra ++ queued_buffers [f] ++ queued_buffers rest)
            ((queued_buffers [f] ++ extra) ++ queued_buffers rest)).
  { rewrite <- app_assoc. apply Permutation_app_swap_app. }
  constructor; fields; try assumption.
  - eapply Permutation_NoDup; eassumption.
  - intros p. rewrite live_queued0. split; intros Hin.
    + eapply Permutation_in; eassumption.
    + eapply Permutation_in; [apply Permutation_sym|]; eassumption.
Qed.

Lemma bfree_consistent extra p :
  p <> nullptr ->
  hoare (consistent (p :: extra)) (bfree p) (fun _ => consistent extra).
Proof.
  intros Hp w a w' H Hrun. unfold bfree in Hrun.
  apply Z.eqb_neq in Hp. rewrite Hp in Hrun.
  destruct (mem p (bm_live w)) eqn:Em; [|discriminate].
  inversion Hrun; subst. destruct H. cbn [app] in *.
  inversion live_once0 as [|x l Hnotin Hnodup]; subst.
  constructor; fields; try assumption.
  - intros x. split; intros Hin.
    + apply in_remove in Hin. destruct Hin as [Hin Hne].
      apply live_queued0 in Hin. destruct Hin as [Heq|Hin]; [congruence|exact Hin].
    + apply in_in_remove.
      * intros ->. contradiction.
      * apply live_queued0. now right.
  - intros x Hin. apply in_remove in Hin. apply live_below0, Hin.
Qed.

Lemma release_consistent extra f :
  hoare (consistent (queued_buffers [f] ++ extra)) (bfree (p_data f))
        (fun _ => consistent extra).
Proof.
  destruct (Z.eq_dec (p_data f) nullptr) as [Hnull|Hreal].
  - rewrite (queued_buffers_filler f Hnull), Hnull.
    intros w a w' H Hrun. inversion Hrun; subst. exact H.
  - rewrite (queued_buffers_real f Hreal). now apply bfree_consistent.
Qed.

Lemma push_real_consistent f :
  hoare (consistent [p_data f]) (circlebuf_push_back f)
        (fun _ => consistent []).
Proof.
  intros w a w' H Hrun. inversion Hrun; subst.
  assert (Hreal : p_data f <> nullptr).
  { destruct H. unfold nullptr.
    assert (0 < p_data f < next_ptr w); [|lia].
    apply live_below0, live_queued0. now left. }
  destruct H. cbn [app] in *.
  assert (Hperm : Permutation
            (p_data f :: queued_buffers (video_frames (obj w)))
            (queued_buffers (video_frames (obj w) ++ [f]))).
  { rewrite queued_buffers_app, (queued_buffers_real f Hreal).
    change (p_data f :: queued_buffers (video_frames (obj w)))
      with ([p_data f] ++ queued_buffers (video_frames (obj w))).
    apply Permutation_app_comm. }
  constructor; fields; cbn [app]; try assumption.
  - eapply Permutation_NoDup; eassumption.
  - intros p. rewrite live_queued0. split; intros Hin.
    + eapply Permutation_in; eassumption.
    + eapply Permutation_in; [apply Permutation_sym|]; eassumption.
Qed.

Lemma drop_front_consistent extra :
  hoare (consistent extra) drop_front (fun _ => consistent extra).
Proof.
  unfold drop_front.
  eapply hoare_bind; [apply circlebuf_pop_front_consistent|].
  intros f. eapply hoare_bind; [apply os_sem_wait_consistent|].
  intros ?. apply release_consistent.
Qed.

Lemma convert_frame_consistent extra o frame :
  hoare (consistent extra) (convert_frame o frame) (fun _ => consistent extra).
Proof.
  unfold convert_frame.
  destruct (is_UYVY (frame_format o));
    [destruct (output_format (video_info o))|];
    first [apply emit_consistent | apply hoare_ret; auto].
Qed.

Lemma ndi_output_rawvideo_consistent frame :
  hoare (consistent []) (ndi_output_rawvideo frame) (fun _ => consistent []).
Proof.
  unfold ndi_output_rawvideo.
  eapply hoare_bind; [apply hoare_get_obj|].
  intros o w a w' [H _]. revert w a w' H. as_hoare.
  destruct (negb (started o)); [apply hoare_ret; auto|].
  destruct (MAX_BUFFERING_FRAMES <=? frames_in_queue o);
    [apply hoare_ret; auto|].
  eapply hoare_bind; [apply convert_frame_consistent|]. intros ?.
  eapply hoare_bind; [apply hoare_lift|]. intros bytes.
  eapply hoare_bind; [apply bmalloc_consistent|]. intros p.
  eapply hoare_bind; [apply emit_consistent|]. intros ?.
  eapply hoare_bind; [apply hoare_lift|]. intros required.
  eapply hoare_bind; [apply hoare_lift|]. intros add.
  eapply hoare_bind with (Q := fun _ => consistent [p]).
  - destruct (add <? 0).
    + eapply hoare_bind; [apply hoare_lift|]. intros magnitude.
      apply hoare_repeatM, drop_front_consistent.
    + destruct (0 <? add).
      * apply hoare_repeatM, push_filler_consistent.
      * apply hoare_ret. auto.
  - intros ?.
    eapply hoare_bind; [|intros ?; apply os_sem_post_consistent].
    apply (push_real_consistent (with_p_data (described_frame o frame) p)).
Qed.

Lemma ndi_output_rawaudio_consistent frame :
  hoare (consistent []) (ndi_output_rawaudio frame) (fun _ => consistent []).
Proof.
  unfold ndi_output_rawaudio.
  eapply hoare_bind; [apply hoare_get_obj|].
  intros o w a w' [H _]. revert w a w' H. as_hoare.
  destruct (negb (started o)); [apply hoare_ret; auto|].
  eapply hoare_bind; [apply hoare_lift|]. intros data_size.
  eapply hoare_bind; [apply bmalloc_consistent|]. intros p.
  eapply hoare_bind with (Q := fun _ w => consistent [p] w /\ p <> nullptr).
  - intros w1 u w2 H Hrun. split.
    + revert w1 u w2 H Hrun. apply hoare_for_channels.
      intros i. apply emit_consistent.
    + destruct H. unfold nullptr.
      assert (0 < p < next_ptr w1); [|lia].
      apply live_below0, live_queued0. now left.
  - intros ? w1 u w2 [H Hp]. revert w1 u w2 H. as_hoare.
    eapply hoare_bind; [apply emit_consistent|]. intros ?.
    eapply hoare_bind; [apply (bfree_consistent [] p Hp)|]. intros ?.
    apply set_last_audio_timestamp_consistent.
Qed.

Lemma thread_iteration_consistent :
  hoare (consistent []) thread_iteration
        (fun continue w => consistent [] w /\ continue = true).
Proof.
  unfold thread_iteration.
  eapply hoare_bind; [apply os_sem_wait_consistent|]. intros ?.
  eapply hoare_bind; [apply os_event_try_consistent|].
  intros stop w1 b w2 [H ->]. revert w1 b w2 H. as_hoare.
  eapply hoare_bind; [apply circlebuf_pop_front_consistent|]. intros f.
  eapply hoare_bind; [apply hoare_lift|]. intros duration.
  eapply hoare_bind; [apply os_gettime_ns_consistent|]. intros now.
  eapply hoare_bind with (Q := fun _ => consistent []).
  - destruct (Z.eq_dec (p_data f) nullptr) as [Hnull|Hreal].
    + rewrite (queued_buffers_filler f Hnull), Hnull. apply hoare_ret. auto.
    + rewrite (queued_buffers_real f Hreal).
      apply Z.eqb_neq in Hreal. rewrite Hreal. cbn [negb].
      apply Z.eqb_neq in Hreal.
      eapply hoare_bind; [apply emit_consistent|]. intros ?.
      now apply bfree_consistent.
  - intros ?. eapply hoare_bind; [apply emit_consistent|]. intros ?.
    apply hoare_ret. auto.
Qed.

Lemma thread_pass_consistent :
  hoare (consistent []) thread_pass (fun _ => consistent []).
Proof.
  unfold thread_pass.
  eapply hoare_bind; [apply hoare_get_obj|]. intros o.
  destruct (video_send_thread o);
    try (apply hoare_ret; intros w [H _]; exact H).
  eapply hoare_bind.
  - eapply hoare_weaken; [apply thread_iteration_consistent| |].
    + intros w [H _]. exact H.
    + intros a w H. exact H.
  - intros continue w1 u w2 [H ->] Hrun. inversion Hrun; subst. exact H.
Qed.

Lemma run_consistent cs :
  hoare (consistent []) (run cs) (fun _ => consistent []).
Proof.
  induction cs as [|c cs IH]; simpl.
  - apply hoare_ret. auto.
  - eapply hoare_bind; [|intros ?; exact IH].
    destruct c; simpl.
    + apply ndi_output_rawvideo_consistent.
    + apply ndi_output_rawaudio_consistent.
    + apply thread_pass_consistent.
Qed.

(** ** From start to stop *)

Lemma start_consistent h s readings w0 :
  ndi_output_start h (created s readings) = Ok (true, w0) ->
  consistent [] w0.
Proof.
  unfold ndi_output_start, select_format, cxx_delete, cxx_new, pthread_create,
         bind, get_obj, emit, modify_obj, ret, created, ndi_output_create.
  fields. cbn [Z.eqb nullptr].
  destruct (output_format (host_video_info h));
    destruct (send_create_result h =? nullptr);
    cbn [negb]; fields;
    destruct (begin_data_capture_result h);
    intros Hrun; inversion Hrun; subst;
    (constructor; fields; cbn [app queued_buffers map filter In];
     [ constructor | tauto | intros p [] | lia | lia | reflexivity
     | reflexivity | first [left; reflexivity | right; left; reflexivity] ]).
Qed.

Lemma circlebuf_size_cons f q : (0 <? circlebuf_size (f :: q)) = true.
Proof.
  apply Z.ltb_lt. unfold circlebuf_size, sizeof_video_frame.
  cbn [length]. lia.
Qed.

Lemma set_video_frames_same o :
  video_frames o = [] -> set_video_frames [] o = o.
Proof. destruct o. cbn. now intros ->. Qed.

Lemma flush_frames_ok q :
  forall fuel w,
    video_frames (obj w) = q -> (length q <= fuel)%nat ->
    NoDup (queued_buffers q) ->
    (forall p, In p (queued_buffers q) -> In p (bm_live w)) ->
    exists w',
      flush_frames fuel w = Ok (tt, w') /\
      obj w' = set_video_frames [] (obj w) /\
      (forall x, In x (bm_live w') <->
                 In x (bm_live w) /\ ~ In x (queued_buffers q)) /\
      trace w' = trace w ++ map EvBfree (queued_buffers q) /\
      cxx_live w' = cxx_live w.
Proof.
  induction q as [|f rest IH]; intros fuel w Hq Hfuel Hnodup Hlive.
  - exists w. split.
    + destruct fuel; cbn [flush_frames]; unfold bind, get_obj;
        rewrite Hq; reflexivity.
    + rewrite (set_video_frames_same _ Hq). cbn.
      rewrite app_nil_r. repeat split; try tauto.
  - destruct fuel as [|k]; [cbn in Hfuel; lia|].
    cbn [flush_frames]. unfold bind at 1. unfold get_obj at 1.
    rewrite Hq, circlebuf_size_cons.
    unfold circlebuf_pop_front.
    unfold bind at 1. unfold bind at 1. unfold get_obj at 1. rewrite Hq.
    unfold bind at 1. cbn [modify_obj ret].
    change (f :: rest) with ([f] ++ rest) in Hnodup, Hlive.
    rewrite queued_buffers_app in Hnodup, Hlive.
    change (f :: rest) with ([f] ++ rest). rewrite queued_buffers_app.
    destruct (Z.eq_dec (p_data f) nullptr) as [Hnull|Hreal].
    + rewrite (queued_buffers_filler f Hnull) in *. cbn [app] in *.
      unfold bind at 1. unfold bfree at 1. rewrite Hnull. cbn [Z.eqb nullptr].
      match goal with
      | |- context [flush_frames k ?w1] =>
          destruct (IH k w1) as [w' [Hrun [Hobj [Hl [Htr Hcxx]]]]];
            [reflexivity | cbn in Hfuel; lia | exact Hnodup | exact Hlive |]
      end.
      exists w'. split; [exact Hrun|]. fields.
      split; [exact Hobj|]. split; [exact Hl|]. split; assumption.
    + rewrite (queued_buffers_real f Hreal) in *. cbn [app] in *.
      inversion Hnodup as [|x l Hnotin Hnodup']; subst.
      assert (Hmem : mem (p_data f) (bm_live w) = true)
        by (apply mem_In, Hlive; now left).
      unfold bind at 1. unfold bfree at 1. fields.
      apply Z.eqb_neq in Hreal. rewrite Hreal, Hmem. apply Z.eqb_neq in Hreal.
      match goal with
      | |- context [flush_frames k ?w1] =>
          destruct (IH k w1) as [w' [Hrun [Hobj [Hl [Htr Hcxx]]]]];
            [reflexivity | cbn in Hfuel; lia | exact Hnodup' | |]
      end.
      * intros p Hin. fields. apply in_in_remove.
        -- intros ->. contradiction.
        -- apply Hlive. now right.
      * exists w'. split; [exact Hrun|]. fields.
        split; [exact Hobj|]. split; [|split].
        -- intros x. rewrite Hl. cbn [In]. split.
           ++ intros [Hin Hnot]. apply in_remove in Hin.
              intuition congruence.
           ++ intros [Hin Hnot]. split; [|tauto].
              apply in_in_remove; [intros ->; tauto | exact Hin].
        -- rewrite Htr, <- app_assoc. reflexivity.
        -- exact Hcxx.
Qed.

Lemma freed_bfree l : freed (map EvBfree l) = l.
Proof.
  unfold freed. induction l as [|p l IH]; [reflexivity|].
  cbn. now rewrite IH.
Qed.

Lemma no_send_in_bfree l : filter is_send_video (map EvBfree l) = [].
Proof. induction l as [|p l IH]; [reflexivity|exact IH]. Qed.

Lemma empty_list {A} (l : list A) : (forall x, ~ In x l) -> l = [].
Proof.
  destruct l as [|a l]; [reflexivity|].
  intros H. exfalso. apply (H a). now left.
Qed.

Lemma cxx_delete_ok p w :
  p = nullptr \/ In p (cxx_live w) ->
  exists w' es,
    cxx_delete p w = Ok (tt, w') /\ obj w' = obj w /\
    bm_live w' = bm_live w /\ trace w' = trace w ++ es /\
    filter is_send_video es = [] /\ freed es = [].
Proof.
  intros H. unfold cxx_delete.
  destruct (p =? nullptr) eqn:Ep.
  - exists w, []. rewrite app_nil_r. repeat split; reflexivity.
  - destruct H as [H|H]; [apply Z.eqb_neq in Ep; contradiction|].
    apply mem_In in H. rewrite H.
    eexists. exists [EvDelete p]. repeat split; reflexivity.
Qed.

(** The pass of the delivery thread that finds the stop signal set. *)
Lemma thread_iteration_stopping w :
  video_send_stop_event (obj w) = true -> 0 < video_send_sem (obj w) ->
  thread_iteration w =
    Ok (false,
        {| obj := set_video_send_stop_event false
                    (set_video_send_sem (video_send_sem (obj w) - 1) (obj w));
           bm_live := bm_live w; cxx_live := cxx_live w;
           next_ptr := next_ptr w; trace := trace w ++ [EvSemWait];
           clock := clock w |}).
Proof.
  intros Hev Hsem. unfold thread_iteration, os_sem_wait.
  unfold bind at 1. unfold bind at 1. unfold get_obj at 1.
  apply Z.ltb_lt in Hsem. rewrite Hsem.
  unfold bind at 1. cbn [modify_obj emit].
  unfold os_event_try.
  unfold bind at 1. unfold bind at 1. unfold get_obj at 1.
  fields. rewrite Hev. reflexivity.
Qed.

Lemma stop_drains w :
  consistent [] w ->
  exists w' es,
    ndi_output_stop w = Ok (tt, w') /\
    video_frames (obj w') = [] /\
    bm_live w' = [] /\
    video_send_thread (obj w') = ThreadExited /\
    started (obj w') = false /\
    trace w' = trace w ++ es /\
    filter is_send_video es = [] /\
    freed es = queued_buffers (video_frames (obj w)) /\
    NoDup (freed es).
Proof.
  intros H. destruct H. cbn [app] in *.
  unfold ndi_output_stop, os_event_signal, os_sem_post.
  unfold bind at 1. cbn [modify_obj].
  unfold bind at 1. cbn [emit].
  unfold bind at 1. unfold bind at 1. cbn [modify_obj emit].
  unfold bind at 1. unfold bind at 1. cbn [modify_obj emit].
  fields.
  unfold pthread_join.
  unfold bind at 1. unfold bind at 1. unfold get_obj at 1. fields.
  rewrite thread_running0.
  unfold bind at 1. unfold bind at 1. unfold get_clock at 1. fields.
  cbn [ndi_videosend_thread].
  unfold bind at 1. unfold bind at 1.
  rewrite thread_iteration_stopping by (fields; first [reflexivity | lia]).
  fields.
  unfold flush_queue. unfold bind at 1. unfold get_obj at 1. fields.
  match goal with
  | |- context [flush_frames _ ?w1] =>
      destruct (flush_frames_ok (video_frames (obj w))
                  (length (video_frames (obj w))) w1)
        as [wf [Hrun [Hobj [Hl [Htr Hcxx]]]]];
        [reflexivity | lia | exact live_once0
        | intros p Hp; apply live_queued0, Hp |]
  end.
  rewrite Hrun. cbn [modify_obj]. fields.
  cbn [get_obj]. unfold bind at 1. cbn [emit]. fields.
  match goal with
  | |- context [bind (cxx_delete ?p) _ ?w1] =>
      destruct (cxx_delete_ok p w1)
        as [wd [ed [Hdel [Hobjd [Hbmd [Htrd [Hsendd Hfreed]]]]]]];
        [fields; rewrite Hobj, Hcxx; fields; exact conv_valid0|]
  end.
  rewrite (bind_ok _ _ _ _ _ Hdel). cbn [modify_obj]. fields.
  rewrite Hobj in *. fields.
  eexists.
  exists ([EvEndCapture; EvEventSignal; EvSemPost; EvSemWait] ++
          map EvBfree (queued_buffers (video_frames (obj w))) ++
          [EvSendDestroy (ndi_sender (obj w))] ++ ed).
  split; [reflexivity|]. fields.
  rewrite Hobjd, Hbmd, Htrd. fields. rewrite Htr.
  split; [reflexivity|]. split.
  { apply empty_list. intros x Hin. apply Hl in Hin. fields.
    destruct Hin as [Hin Hnot]. apply Hnot, live_queued0, Hin. }
  split; [reflexivity|]. split; [reflexivity|]. split.
  { rewrite <- !app_assoc. reflexivity. }
  assert (Hfr : freed
            ([EvEndCapture; EvEventSignal; EvSemPost; EvSemWait] ++
             map EvBfree (queued_buffers (video_frames (obj w))) ++
             [EvSendDestroy (ndi_sender (obj w))] ++ ed)
          = queued_buffers (video_frames (obj w))).
  { unfold freed. rewrite !flat_map_app.
    fold (freed (map EvBfree (queued_buffers (video_frames (obj w))))).
    fold (freed ed). rewrite freed_bfree, Hfreed. cbn.
    now rewrite app_nil_r. }
  split; [|split].
  - rewrite !filter_app, no_send_in_bfree, Hsendd. reflexivity.
  - exact Hfr.
  - rewrite Hfr. exact live_once0.
Qed.

(** C8: after [stop] returns, whatever raw-video calls, raw-audio calls and
    delivery passes came between [start] and [stop], the queue is empty, no
    pixel buffer is live, each buffer that was queued has been released
    once, none of the drained frames has been sent, and the delivery thread
    has exited. *)
Theorem stop_releases_queue (h : host) (s : settings) (readings : list Z)
    (cs : list call) (w0 w : world) :
  ndi_output_start h (created s readings) = Ok (true, w0) ->
  run cs w0 = Ok (tt, w) ->
  exists w' es,
    ndi_output_stop w = Ok (tt, w') /\
    video_frames (obj w') = [] /\
    bm_live w' = [] /\
    video_send_thread (obj w') = ThreadExited /\
    started (obj w') = false /\
    trace w' = trace w ++ es /\
    filter is_send_video es = [] /\
    freed es = queued_buffers (video_frames (obj w)) /\
    NoDup (freed es).
Proof.
  intros Hstart Hrun. apply stop_drains.
  apply (run_consistent cs w0 tt w); [|exact Hrun].
  exact (start_consistent h s readings w0 Hstart).
Qed.

Lemma stop_releases_queue_witness :
  exists w' es,
    ndi_output_stop world_after_calls = Ok (tt, w') /\
    video_frames (obj w') = [] /\
    bm_live w' = [] /\
    video_send_thread (obj w') = ThreadExited /\
    started (obj w') = false /\
    trace w' = trace world_after_calls ++ es /\
    filter is_send_video es = [] /\
    freed es = queued_buffers (video_frames (obj world_after_calls)) /\
    NoDup (freed es).
Proof.
  apply (stop_releases_queue (bgra_host 30 1) plain_settings [1000; 2000]
           sample_calls (started_world 30 1) world_after_calls).
  - vm_compute. reflexivity.
  - vm_compute. reflexivity.
Defined.

End OutputFacts.

(* ================================================================== *)
(** * Contents and composition of the conversions *)
(* ================================================================== *)

Module ConverterContents.
Import Converter ConverterFacts.

(** Closed side conditions, by arithmetic or by evaluation. *)
Ltac closed_condition :=
  first [ lia
        | vm_compute;
          first [lia | reflexivity | congruence | split; congruence] ].

(** Equality of write lists up to arithmetic on offsets. *)
Ltac same_writes :=
  repeat first [reflexivity | lia | apply f_equal2 | apply f_equal].

Lemma nv12_pair_body Yp UVp : pair_body Yp UVp UVp 2 (nv12_pair Yp UVp).
Proof.
  intros c. unfold nv12_pair, pair_writes.
  same_writes.
Qed.

Lemma i420_pair_body Yp Up Vp : pair_body Yp Up Vp 1 (i420_pair Yp Up Vp).
Proof.
  intros c. unfold i420_pair, pair_writes.
  same_writes.
Qed.

Lemma i444_pair_body Yp Up Vp : pair_body Yp Up Vp 2 (i444_pair Yp Up Vp).
Proof.
  intros c. unfold i444_pair, pair_writes.
  same_writes.
Qed.

Lemma zseq_succ start n : zseq (start + 1) n = map (fun k => k + 1) (zseq start n).
Proof.
  revert start. induction n as [|n IH]; intros start; [reflexivity|].
  cbn [zseq map]. now rewrite IH.
Qed.

Lemma pair_writes_shift Yp Up Vp step c k :
  pair_writes Yp Up Vp step c (k + 1) =
  pair_writes Yp Up Vp step
    {| cY := cY c + 2; cU := cU c + step; cV := cV c + step;
       cOut := cOut c + 4 |} k.
Proof.
  unfold pair_writes. cbn [cY cU cV cOut].
  same_writes.
Qed.

(** The column loop, in closed form. *)
Lemma for_pairs_closed Yp Up Vp step body :
  pair_body Yp Up Vp step body ->
  forall (n fuel : nat) (x width : Z) (c : cursors),
    0 <= x <= width + 1 -> width < two32 - 1 ->
    (width - x + 1) / 2 = Z.of_nat n -> (n < fuel)%nat ->
    for_pairs fuel x width body c =
      Some (flat_map (pair_writes Yp Up Vp step c) (zseq 0 n)).
Proof.
  intros Hbody. induction n as [|n IH]; intros fuel x width c Hx Hw Hn Hfuel.
  - destruct fuel as [|k]; [lia|]. simpl.
    assert (E : (x <? width) = false).
    { apply Z.ltb_ge. change (Z.of_nat 0) with 0 in Hn.
      Z.to_euclidean_division_equations. lia. }
    now rewrite E.
  - destruct fuel as [|k]; [lia|]. cbn [for_pairs].
    assert (Hlt : x < width).
    { rewrite Nat2Z.inj_succ in Hn. Z.to_euclidean_division_equations. lia. }
    assert (E : (x <? width) = true) by now apply Z.ltb_lt.
    rewrite E, (Hbody c).
    rewrite to_uint32_small by (unfold two32 in *; lia).
    rewrite (IH k (x + 2) width); try lia.
    + cbn [obind zseq flat_map]. f_equal. f_equal.
      rewrite zseq_succ, !flat_map_concat_map, map_map.
      f_equal. apply map_ext.
      intros k0. symmetry. apply pair_writes_shift.
    + rewrite Nat2Z.inj_succ in Hn. Z.to_euclidean_division_equations. lia.
Qed.

(** The row loop over rows that all return, in closed form. *)
Lemma for_rows_closed (row : Z -> option (list write))
    (expected : Z -> list write) :
  (forall y, row y = Some (expected y)) ->
  forall (n fuel : nat) (y end_y : Z),
    0 <= y -> end_y < two32 -> end_y - y = Z.of_nat n -> (n < fuel)%nat ->
    for_rows fuel y end_y row = Some (flat_map expected (zseq y n)).
Proof.
  intros Hrow. induction n as [|n IH]; intros fuel y end_y Hy He Hn Hfuel.
  - destruct fuel as [|k]; [lia|]. simpl.
    assert (E : (y <? end_y) = false) by (apply Z.ltb_ge; lia).
    now rewrite E.
  - destruct fuel as [|k]; [lia|]. cbn [for_rows].
    assert (E : (y <? end_y) = true) by (apply Z.ltb_lt; lia).
    rewrite E, Hrow. cbn [obind].
    rewrite to_uint32_small by (unfold two32 in *; lia).
    rewrite (IH k (y + 1) end_y) by lia. reflexivity.
Qed.

(** A routine made of the two loops around a pair body, in closed form. *)
Lemma rows_of_pairs_closed Yp Up Vp step body (start_of : Z -> cursors)
    (fuel : nat) (start_y end_y width : Z) :
  pair_body Yp Up Vp step body ->
  0 <= start_y <= end_y -> end_y < two32 -> 0 <= width < two32 - 1 ->
  (rows_of start_y end_y < fuel)%nat -> (pairs_of width < fuel)%nat ->
  for_rows fuel start_y end_y
    (fun y => for_pairs fuel 0 width body (start_of y)) =
  Some (flat_map (fun y => row_writes Yp Up Vp step width (start_of y))
                 (zseq start_y (rows_of start_y end_y))).
Proof.
  intros Hbody Hy Hend Hw Hrows Hpairs.
  apply for_rows_closed; try lia.
  - intros y. unfold row_writes.
    apply (for_pairs_closed Yp Up Vp step body Hbody); try lia.
    apply pairs_of_spec. lia.
  - unfold rows_of. rewrite Z2Nat.id; lia.
Qed.

(** X1: the 4:2:0 semi-planar routine stores, for row [y] and pixel pair
    [k], the bytes U, Y0, V, Y1 at [y * out_linesize + 4k ..], taking U and
    V from the interleaved plane at [(y / 2) * in_linesize[1] + 2k] and
    the byte after it, and the two luma bytes from
    [y * in_linesize[0] + 2k] and the byte after it. *)
Theorem convert_nv12_to_uyvy_bytes (fuel : nat) (input : list plane)
    (in_linesize : list Z) (start_y end_y out_linesize : Z) :
  0 <= start_y <= end_y -> end_y < two32 ->
  0 <= min_uint32 (linesize in_linesize 0) out_linesize < two32 - 1 ->
  (rows_of start_y end_y < fuel)%nat ->
  (pairs_of (min_uint32 (linesize in_linesize 0) out_linesize) < fuel)%nat ->
  convert_nv12_to_uyvy fuel input in_linesize start_y end_y out_linesize =
    Some (nv12_expected input in_linesize start_y end_y out_linesize).
Proof.
  intros Hy Hend Hw Hrows Hpairs.
  unfold convert_nv12_to_uyvy, nv12_expected.
  exact (rows_of_pairs_closed _ _ _ 2 _
           (nv12_row_start in_linesize out_linesize) fuel start_y end_y _
           (nv12_pair_body _ _) Hy Hend Hw Hrows Hpairs).
Qed.

Lemma convert_nv12_to_uyvy_bytes_witness :
  convert_nv12_to_uyvy 3 [ramp 16; ramp 100] [4; 4] 0 2 8 =
    Some (nv12_expected [ramp 16; ramp 100] [4; 4] 0 2 8).
Proof.
  apply (convert_nv12_to_uyvy_bytes 3 [ramp 16; ramp 100] [4; 4] 0 2 8);
    closed_condition.
Defined.

(** X2: the 4:2:0 planar routine stores, for row [y] and pixel pair [k],
    U from [input[1]] and V from [input[2]], both at
    [(y / 2) * in_linesize[i] + k], around the two luma bytes of the
    pair. *)
Theorem convert_i420_to_uyvy_bytes (fuel : nat) (input : list plane)
    (in_linesize : list Z) (start_y end_y out_linesize : Z) :
  0 <= start_y <= end_y -> end_y < two32 ->
  0 <= min_uint32 (linesize in_linesize 0) out_linesize < two32 - 1 ->
  (rows_of start_y end_y < fuel)%nat ->
  (pairs_of (min_uint32 (linesize in_linesize 0) out_linesize) < fuel)%nat ->
  convert_i420_to_uyvy fuel input in_linesize start_y end_y out_linesize =
    Some (i420_expected input in_linesize start_y end_y out_linesize).
Proof.
  intros Hy Hend Hw Hrows Hpairs.
  unfold convert_i420_to_uyvy, i420_expected.
  exact (rows_of_pairs_closed _ _ _ 1 _
           (i420_row_start in_linesize out_linesize) fuel start_y end_y _
           (i420_pair_body _ _ _) Hy Hend Hw Hrows Hpairs).
Qed.

Lemma convert_i420_to_uyvy_bytes_witness :
  convert_i420_to_uyvy 3 [ramp 16; ramp 100; ramp 200] [4; 2; 2] 0 2 8 =
    Some (i420_expected [ramp 16; ramp 100; ramp 200] [4; 2; 2] 0 2 8).
Proof.
  apply (convert_i420_to_uyvy_bytes 3 [ramp 16; ramp 100; ramp 200]
           [4; 2; 2] 0 2 8);
    closed_condition.
Defined.

(** X3: the 4:4:4 planar routine stores, for row [y] and pixel pair [k],
    the chroma samples at [y * in_linesize[i] + 2k] only: the samples at
    odd columns are never read. *)
Theorem convert_i444_to_uyvy_bytes (fuel : nat) (input : list plane)
    (in_linesize : list Z) (start_y end_y out_linesize : Z) :
  0 <= start_y <= end_y -> end_y < two32 ->
  0 <= min_uint32 (linesize in_linesize 0) out_linesize < two32 - 1 ->
  (rows_of start_y end_y < fuel)%nat ->
  (pairs_of (min_uint32 (linesize in_linesize 0) out_linesize) < fuel)%nat ->
  convert_i444_to_uyvy fuel input in_linesize start_y end_y out_linesize =
    Some (i444_expected input in_linesize start_y end_y out_linesize).
Proof.
  intros Hy Hend Hw Hrows Hpairs.
  unfold convert_i444_to_uyvy, i444_expected.
  exact (rows_of_pairs_closed _ _ _ 2 _
           (i444_row_start in_linesize out_linesize) fuel start_y end_y _
           (i444_pair_body _ _ _) Hy Hend Hw Hrows Hpairs).
Qed.

Lemma convert_i444_to_uyvy_bytes_witness :
  convert_i444_to_uyvy 3 [ramp 16; ramp 100; ramp 200] [4; 4; 4] 0 2 8 =
    Some (i444_expected [ramp 16; ramp 100; ramp 200] [4; 4; 4] 0 2 8).
Proof.
  apply (convert_i444_to_uyvy_bytes 3 [ramp 16; ramp 100; ramp 200]
           [4; 4; 4] 0 2 8);
    closed_condition.
Defined.

Lemma zseq_split (a b c : Z) :
  a <= b <= c ->
  zseq a (rows_of a c) = zseq a (rows_of a b) ++ zseq b (rows_of b c).
Proof.
  intros H. unfold rows_of.
  replace (Z.to_nat (c - a)) with (Z.to_nat (b - a) + Z.to_nat (c - b))%nat
    by lia.
  rewrite zseq_app. do 2 f_equal. lia.
Qed.

(** X4: converting rows [a .. b - 1] and then rows [b .. c - 1] performs
    the stores of converting rows [a .. c - 1] in one call, in the same
    order, for each of the three routines. *)
Theorem conversion_of_adjacent_ranges :
  forall convert,
    In convert [convert_nv12_to_uyvy; convert_i420_to_uyvy;
                convert_i444_to_uyvy] ->
  forall (fuel : nat) (input : list plane) (in_linesize : list Z)
         (a b c out_linesize : Z),
    0 <= a <= b -> b <= c -> c < two32 ->
    0 <= min_uint32 (linesize in_linesize 0) out_linesize < two32 - 1 ->
    (rows_of a c < fuel)%nat ->
    (pairs_of (min_uint32 (linesize in_linesize 0) out_linesize) < fuel)%nat ->
    exists ws1 ws2,
      convert fuel input in_linesize a b out_linesize = Some ws1 /\
      convert fuel input in_linesize b c out_linesize = Some ws2 /\
      convert fuel input in_linesize a c out_linesize = Some (ws1 ++ ws2).
Proof.
  intros convert Hin fuel input in_linesize a b c out_linesize
         Hab Hbc Hc Hw Hrows Hpairs.
  assert (Hab' : (rows_of a b < fuel)%nat) by (unfold rows_of in *; lia).
  assert (Hbc' : (rows_of b c < fuel)%nat) by (unfold rows_of in *; lia).
  simpl in Hin. destruct Hin as [<- | [<- | [<- | []]]].
  - unfold convert_nv12_to_uyvy.
    rewrite !(rows_of_pairs_closed _ _ _ 2 _
                (nv12_row_start in_linesize out_linesize) fuel _ _ _
                (nv12_pair_body _ _)) by lia.
    eexists. eexists. split; [reflexivity|]. split; [reflexivity|].
    rewrite (zseq_split a b c) by lia. now rewrite flat_map_app.
  - unfold convert_i420_to_uyvy.
    rewrite !(rows_of_pairs_closed _ _ _ 1 _
                (i420_row_start in_linesize out_linesize) fuel _ _ _
                (i420_pair_body _ _ _)) by lia.
    eexists. eexists. split; [reflexivity|]. split; [reflexivity|].
    rewrite (zseq_split a b c) by lia. now rewrite flat_map_app.
  - unfold convert_i444_to_uyvy.
    rewrite !(rows_of_pairs_closed _ _ _ 2 _
                (i444_row_start in_linesize out_linesize) fuel _ _ _
                (i444_pair_body _ _ _)) by lia.
    eexists. eexists. split; [reflexivity|]. split; [reflexivity|].
    rewrite (zseq_split a b c) by lia. now rewrite flat_map_app.
Qed.

Lemma conversion_of_adjacent_ranges_witness :
  exists ws1 ws2,
    convert_i420_to_uyvy 4 [ramp 16; ramp 100; ramp 200] [4; 2; 2] 0 1 8
      = Some ws1 /\
    convert_i420_to_uyvy 4 [ramp 16; ramp 100; ramp 200] [4; 2; 2] 1 3 8
      = Some ws2 /\
    convert_i420_to_uyvy 4 [ramp 16; ramp 100; ramp 200] [4; 2; 2] 0 3 8
      = Some (ws1 ++ ws2).
Proof.
  apply (conversion_of_adjacent_ranges convert_i420_to_uyvy);
    first [ right; left; reflexivity | closed_condition ].
Defined.

(** X5: with an empty row range, or with a width of 0, each routine
    returns without a single store. *)
Theorem conversion_of_nothing :
  forall convert,
    In convert [convert_nv12_to_uyvy; convert_i420_to_uyvy;
                convert_i444_to_uyvy] ->
  forall (fuel : nat) (input : list plane) (in_linesize : list Z)
         (start_y end_y out_linesize : Z),
    (end_y <= start_y -> (0 < fuel)%nat ->
     convert fuel input in_linesize start_y end_y out_linesize = Some []) /\
    (min_uint32 (linesize in_linesize 0) out_linesize = 0 ->
     0 <= start_y <= end_y -> end_y < two32 ->
     (rows_of start_y end_y < fuel)%nat ->
     convert fuel input in_linesize start_y end_y out_linesize = Some []).
Proof.
  intros convert Hin fuel input in_linesize start_y end_y out_linesize.
  assert (Hnil : forall (l : list Z) (f : Z -> list write),
             (forall y, f y = []) -> flat_map f l = []).
  { intros l f Hf. induction l as [|y l IH]; [reflexivity|].
    cbn [flat_map]. now rewrite Hf, IH. }
  split.
  - intros Hempty Hfuel. destruct fuel as [|k]; [lia|].
    assert (E : (start_y <? end_y) = false) by (apply Z.ltb_ge; lia).
    simpl in Hin. destruct Hin as [<- | [<- | [<- | []]]];
      [unfold convert_nv12_to_uyvy | unfold convert_i420_to_uyvy
      | unfold convert_i444_to_uyvy];
      cbn [for_rows]; now rewrite E.
  - intros Hzero Hy Hend Hrows.
    assert (Hfuel : (pairs_of 0 < fuel)%nat)
      by (change (pairs_of 0) with 0%nat; lia).
    simpl in Hin. destruct Hin as [<- | [<- | [<- | []]]].
    + unfold convert_nv12_to_uyvy. rewrite Hzero.
      rewrite (rows_of_pairs_closed _ _ _ 2 _
                 (nv12_row_start in_linesize out_linesize) fuel _ _ _
                 (nv12_pair_body _ _)) by (unfold two32 in *; lia).
      f_equal. apply Hnil. reflexivity.
    + unfold convert_i420_to_uyvy. rewrite Hzero.
      rewrite (rows_of_pairs_closed _ _ _ 1 _
                 (i420_row_start in_linesize out_linesize) fuel _ _ _
                 (i420_pair_body _ _ _)) by (unfold two32 in *; lia).
      f_equal. apply Hnil. reflexivity.
    + unfold convert_i444_to_uyvy. rewrite Hzero.
      rewrite (rows_of_pairs_closed _ _ _ 2 _
                 (i444_row_start in_linesize out_linesize) fuel _ _ _
                 (i444_pair_body _ _ _)) by (unfold two32 in *; lia).
      f_equal. apply Hnil. reflexivity.
Qed.

Lemma conversion_of_nothing_witness :
  convert_nv12_to_uyvy 1 [ramp 16; ramp 100] [4; 4] 2 2 8 = Some [] /\
  convert_nv12_to_uyvy 3 [ramp 16; ramp 100] [0; 0] 0 2 8 = Some [].
Proof.
  split.
  - apply (proj1 (conversion_of_nothing convert_nv12_to_uyvy
                    (or_introl eq_refl) 1 [ramp 16; ramp 100] [4; 4] 2 2 8));
      lia.
  - apply (proj2 (conversion_of_nothing convert_nv12_to_uyvy
                    (or_introl eq_refl) 3 [ramp 16; ramp 100] [0; 0] 0 2 8));
      closed_condition.
Defined.

(** The column counter stays even, so it never reaches a width of
    2^32 - 1: the loop is still running on any fuel. *)
Lemma for_pairs_runs_on body (fuel : nat) :
  forall (x : Z) (c : cursors),
    0 <= x < two32 -> x mod 2 = 0 ->
    for_pairs fuel x (two32 - 1) body c = None.
Proof.
  induction fuel as [|k IH]; intros x c Hx Hev; [reflexivity|].
  cbn [for_pairs].
  assert (E : (x <? two32 - 1) = true).
  { apply Z.ltb_lt. unfold two32 in *.
    Z.to_euclidean_division_equations. lia. }
  rewrite E. destruct (body c) as [ws c'].
  rewrite IH; [reflexivity | |].
  - unfold to_uint32, two32. apply Z.mod_pos_bound. lia.
  - unfold to_uint32, two32 in *. Z.to_euclidean_division_equations. lia.
Qed.

(** X6: when both the luma stride and the destination stride are
    2^32 - 1 or more, so that the width is 2^32 - 1, and the row range is
    not empty, no routine returns: the 32-bit column counter wraps from
    2^32 - 2 to 0 and the column loop goes on. *)
Theorem conversion_runs_on_at_widest :
  forall convert,
    In convert [convert_nv12_to_uyvy; convert_i420_to_uyvy;
                convert_i444_to_uyvy] ->
  forall (fuel : nat) (input : list plane) (in_linesize : list Z)
         (start_y end_y out_linesize : Z),
    min_uint32 (linesize in_linesize 0) out_linesize = two32 - 1 ->
    start_y < end_y ->
    convert fuel input in_linesize start_y end_y out_linesize = None.
Proof.
  intros convert Hin fuel input in_linesize start_y end_y out_linesize
         Hw Hy.
  assert (E : (start_y <? end_y) = true) by now apply Z.ltb_lt.
  assert (H0 : 0 <= 0 < two32) by (unfold two32 in *; lia).
  simpl in Hin. destruct Hin as [<- | [<- | [<- | []]]];
    [unfold convert_nv12_to_uyvy | unfold convert_i420_to_uyvy
    | unfold convert_i444_to_uyvy];
    rewrite Hw; (destruct fuel as [|k]; [reflexivity|]);
    cbn [for_rows]; rewrite E;
    rewrite (for_pairs_runs_on _ (S k) 0 _ H0 eq_refl); reflexivity.
Qed.

Lemma conversion_runs_on_at_widest_witness :
  convert_nv12_to_uyvy 5 [ramp 16; ramp 100] [4294967295; 4] 0 1 4294967295
    = None.
Proof.
  apply (conversion_runs_on_at_widest convert_nv12_to_uyvy
           (or_introl eq_refl) 5 [ramp 16; ramp 100] [4294967295; 4]
           0 1 4294967295).
  - reflexivity.
  - lia.
Defined.

Lemma conversion_offsets :
  forall convert,
    In convert [convert_nv12_to_uyvy; convert_i420_to_uyvy;
                convert_i444_to_uyvy] ->
  forall (fuel : nat) (input : list plane) (in_linesize : list Z)
         (start_y end_y out_linesize : Z),
    0 <= start_y <= end_y -> end_y < two32 ->
    0 <= min_uint32 (linesize in_linesize 0) out_linesize < two32 - 1 ->
    (rows_of start_y end_y < fuel)%nat ->
    (pairs_of (min_uint32 (linesize in_linesize 0) out_linesize) < fuel)%nat ->
    exists ws,
      convert fuel input in_linesize start_y end_y out_linesize = Some ws /\
      offsets ws =
        expected_offsets start_y end_y out_linesize
          (min_uint32 (linesize in_linesize 0) out_linesize).
Proof.
  intros convert Hin fuel input in_linesize start_y end_y out_linesize
         Hy Hend Hw Hrows Hpairs.
  assert (H : exists ws,
    convert fuel input in_linesize start_y end_y out_linesize = Some ws /\
    offsets ws =
      expected_offsets start_y end_y out_linesize
        (min_uint32 (linesize in_linesize 0) out_linesize) /\
    length ws =
      (rows_of start_y end_y *
       (pairs_of (min_uint32 (linesize in_linesize 0) out_linesize) * 4))%nat).
  { simpl in Hin. destruct Hin as [<- | [<- | [<- | []]]];
      [unfold convert_nv12_to_uyvy | unfold convert_i420_to_uyvy
      | unfold convert_i444_to_uyvy];
      (apply rows_of_pairs_offsets; try assumption;
       intros y; eexists; eexists;
       split; [|split; [|reflexivity]; reflexivity];
       first [apply nv12_pair_four_bytes | apply i420_pair_four_bytes
             | apply i444_pair_four_bytes]). }
  destruct H as [ws [Hws [Hoff _]]]. now exists ws.
Qed.

(** X7: in the geometry [start] sets up, a destination stride of
    [2 * output_width] and a buffer of [height * stride * 2] bytes, a
    conversion of rows [0 .. height - 1] stores inside the buffer whatever
    the source stride is, as long as the buffer size does not wrap. *)
Theorem conversion_stays_in_conv_buffer :
  forall convert,
    In convert [convert_nv12_to_uyvy; convert_i420_to_uyvy;
                convert_i444_to_uyvy] ->
  forall (fuel : nat) (input : list plane) (in_linesize : list Z)
         (output_width height : Z),
    0 <= linesize in_linesize 0 ->
    0 <= height < two32 ->
    height * to_uint32 (output_width * 2) * 2 < two32 ->
    (rows_of 0 height < fuel)%nat ->
    (pairs_of (min_uint32 (linesize in_linesize 0)
                          (to_uint32 (output_width * 2))) < fuel)%nat ->
    exists ws,
      convert fuel input in_linesize 0 height (to_uint32 (output_width * 2))
        = Some ws /\
      Forall (fun off =>
                0 <= off <
                to_uint32
                  (to_uint32 (height * to_uint32 (output_width * 2)) * 2))
             (offsets ws).
Proof.
  intros convert Hin fuel input in_linesize output_width height
         Hls Hh Hsize Hrows Hpairs.
  set (stride := to_uint32 (output_width * 2)) in *.
  set (width := min_uint32 (linesize in_linesize 0) stride) in *.
  assert (Hstride : 0 <= stride < two32 /\ stride mod 2 = 0).
  { subst stride. unfold to_uint32, two32.
    split; [apply Z.mod_pos_bound; lia|].
    Z.to_euclidean_division_equations. lia. }
  assert (Hwidth : 0 <= width <= stride).
  { subst width. pose proof (min_uint32_le_r (linesize in_linesize 0) stride).
    unfold min_uint32 in *.
    destruct (linesize in_linesize 0 <? stride); lia. }
  destruct (conversion_offsets convert Hin fuel input in_linesize 0 height
              stride) as [ws [Hws Hoff]]; fold width; try assumption.
  - lia.
  - lia.
  - pose proof (width_with_even_stride (linesize in_linesize 0) output_width).
    fold stride in H. fold width in H. lia.
  - exists ws. split; [exact Hws|]. rewrite Hoff.
    apply Forall_forall. intros off Hin'.
    unfold expected_offsets in Hin'. apply in_flat_map in Hin'.
    destruct Hin' as [y [Hy Hoffy]].
    apply zseq_In in Hy. unfold rows_of in Hy.
    rewrite Z2Nat.id in Hy by lia.
    apply zseq_In in Hoffy.
    assert (Hpairs4 : Z.of_nat (pairs_of width * 4) <= 2 * stride).
    { unfold pairs_of. rewrite Nat2Z.inj_mul, Z2Nat.id.
      - destruct Hstride as [_ Hev].
        Z.to_euclidean_division_equations. lia.
      - Z.to_euclidean_division_equations. lia. }
    rewrite to_uint32_small in Hoffy by (unfold two32 in *; nia).
    rewrite (to_uint32_small (height * stride)) by (unfold two32 in *; nia).
    rewrite to_uint32_small by (unfold two32 in *; nia).
    fold width in Hoffy. destruct Hstride as [Hstride _].
    clearbody width stride.
    assert (y * stride <= (height - 1) * stride) by nia.
    nia.
Qed.

Lemma conversion_stays_in_conv_buffer_witness :
  exists ws,
    convert_nv12_to_uyvy 4 [ramp 16; ramp 100] [32; 32] 0 2 (to_uint32 (2 * 2))
      = Some ws /\
    Forall (fun off =>
              0 <= off < to_uint32 (to_uint32 (2 * to_uint32 (2 * 2)) * 2))
           (offsets ws).
Proof.
  apply (conversion_stays_in_conv_buffer convert_nv12_to_uyvy
           (or_introl eq_refl) 4 [ramp 16; ramp 100] [32; 32] 2 2);
    closed_condition.
Defined.

End ConverterContents.

(* ================================================================== *)
(** * Further facts about the output *)
(* ================================================================== *)

Module OutputRuns.
Import Output OutputFacts.

(** Closed side conditions, by arithmetic or by evaluation. *)
Ltac closed_condition :=
  first [ lia
        | vm_compute;
          first [lia | reflexivity | congruence | split; congruence
                | intuition congruence ] ].

(** The invariant on a closed world [W], field by field, after
    evaluating its queue, heap, next address and signal. *)
Ltac concrete_consistent W :=
  let q := eval vm_compute in (queued_buffers (video_frames (obj W))) in
  let l := eval vm_compute in (bm_live W) in
  let n := eval vm_compute in (next_ptr W) in
  let s := eval vm_compute in (video_send_sem (obj W)) in
  let Eq := fresh "Eq" in
  let El := fresh "El" in
  let En := fresh "En" in
  let Es := fresh "Es" in
  assert (Eq : queued_buffers (video_frames (obj W)) = q)
    by (vm_compute; reflexivity);
  assert (El : bm_live W = l) by (vm_compute; reflexivity);
  assert (En : next_ptr W = n) by (vm_compute; reflexivity);
  assert (Es : video_send_sem (obj W) = s) by (vm_compute; reflexivity);
  constructor; rewrite ?Eq, ?El, ?En, ?Es; cbn [app In];
  first [ lia
        | left; vm_compute; reflexivity
        | vm_compute; reflexivity
        | repeat constructor; cbn [In]; intuition lia
        | intros p; intuition lia ].

(** ** Pacing arithmetic *)

Lemma frame_duration_integer_rate_witness :
  frame_duration (30 * 1) 1 = Ok (1000000000 * 1 / (30 * 1)).
Proof.
  apply (frame_duration_integer_rate 30 1); vm_compute; congruence.
Defined.

Lemma required_delay_frames_in_range_witness :
  required_delay_frames (obj world_after_audio) (video_at 80000000)
    = Ok (79995000 / 33333333).
Proof.
  apply (required_delay_frames_in_range (obj world_after_audio)
           (video_at 80000000) 33333333 79995000); closed_condition.
Defined.

Lemma bind_err {A B} (m : M A) (k : A -> M B) w e :
  m w = Err e -> bind m k w = Err e.
Proof. intros H. unfold bind. now rewrite H. Qed.

Lemma lift_err {A} (r : result A) e w : r = Err e -> lift r w = Err e.
Proof. intros ->. reflexivity. Qed.

Lemma frame_duration_below_one N D :
  Z.abs N < Z.abs D \/ D = 0 -> frame_duration N D = Err DivisionByZero.
Proof.
  intros H. unfold frame_duration, int_div.
  destruct (D =? 0) eqn:E; [reflexivity|].
  apply Z.eqb_neq in E. destruct H as [H|H]; [|contradiction].
  apply Z.quot_small_iff in H; [|exact E]. rewrite H. reflexivity.
Qed.

(** X9: at a frame rate below one frame per second (or with a zero
    denominator) the quotient [frame_rate_N / frame_rate_D] is 0, and an
    admitted raw-video call divides one second by it: the call has no
    defined result. *)
Theorem rawvideo_below_one_frame_per_second (frame : video_data) (w : world)
    (bytes : Z) :
  started (obj w) = true ->
  frames_in_queue (obj w) < MAX_BUFFERING_FRAMES ->
  video_bytes (obj w) frame = Ok bytes ->
  Z.abs (to_int (fps_num (video_info (obj w))))
    < Z.abs (to_int (fps_den (video_info (obj w)))) \/
  to_int (fps_den (video_info (obj w))) = 0 ->
  ndi_output_rawvideo frame w = Err DivisionByZero.
Proof.
  intros Hs Hq Hb Hrate.
  destruct (convert_frame_trace (obj w) frame w) as [ces [Hc _]].
  assert (Hr : required_delay_frames (obj w) frame = Err DivisionByZero).
  { unfold required_delay_frames.
    now rewrite (frame_duration_below_one _ _ Hrate). }
  unfold ndi_output_rawvideo.
  rewrite (bind_ok get_obj _ w (obj w) w) by reflexivity.
  rewrite Hs. cbn [negb].
  assert (E : (MAX_BUFFERING_FRAMES <=? frames_in_queue (obj w)) = false)
    by (apply Z.leb_gt; exact Hq).
  rewrite E.
  rewrite (bind_ok _ _ _ _ _ Hc).
  rewrite (bind_ok _ _ _ _ _ (lift_ok _ _ _ Hb)).
  unfold bind at 1. cbn [bmalloc].
  unfold bind at 1. cbn [emit].
  apply bind_err, lift_err, Hr.
Qed.

Lemma rawvideo_below_one_frame_per_second_witness :
  ndi_output_rawvideo (video_at 5000) (started_world 1 2)
    = Err DivisionByZero.
Proof.
  apply (rawvideo_below_one_frame_per_second (video_at 5000)
           (started_world 1 2) 16); closed_condition.
Defined.

(** X10: for timestamps below 2^63 the buffering is the amount by which
    the video timestamp is ahead of the last audio timestamp, and 0 when
    it is not ahead. *)
Theorem audio_buffering_is_lead (timestamp last_audio : Z) :
  0 <= timestamp <= INT64_MAX -> 0 <= last_audio <= INT64_MAX ->
  audio_buffering timestamp last_audio
    = Ok (Z.max 0 (timestamp - last_audio)).
Proof.
  intros Ht Ha. unfold audio_buffering, int64_sub.
  rewrite !to_int64_small by assumption.
  unfold in_int64, INT64_MIN, INT64_MAX in *.
  assert (E1 : (-9223372036854775808 <=? timestamp - last_audio) = true)
    by (apply Z.leb_le; lia).
  assert (E2 : (timestamp - last_audio <=? 9223372036854775807) = true)
    by (apply Z.leb_le; lia).
  rewrite E1, E2. cbn [andb rbind]. f_equal.
  destruct (timestamp - last_audio <? 0) eqn:E;
    [apply Z.ltb_lt in E | apply Z.ltb_ge in E]; lia.
Qed.

Lemma audio_buffering_is_lead_witness :
  audio_buffering 5000 80000000 = Ok (Z.max 0 (5000 - 80000000)).
Proof.
  apply (audio_buffering_is_lead 5000 80000000); closed_condition.
Defined.

(** ** Raw audio *)

Lemma add_trace_nil w : add_trace [] w = w.
Proof. destruct w. unfold add_trace. cbn. now rewrite app_nil_r. Qed.

Lemma add_trace_app es1 es2 w :
  add_trace es2 (add_trace es1 w) = add_trace (es1 ++ es2) w.
Proof. unfold add_trace. cbn. now rewrite app_assoc. Qed.

Lemma for_channels_emits (e : Z -> event) (n : nat) :
  forall i w,
    exists es,
      for_channels n i (fun i => emit (e i)) w = Ok (tt, add_trace es w) /\
      allocated es = allocated (map e (Converter.zseq i n)) /\
      freed es = freed (map e (Converter.zseq i n)) /\
      filter is_send es = filter is_send (map e (Converter.zseq i n)).
Proof.
  induction n as [|n IH]; intros i w.
  - exists []. rewrite add_trace_nil. repeat split; reflexivity.
  - cbn [for_channels]. unfold bind at 1. cbn [emit].
    change {| obj := obj w; bm_live := bm_live w; cxx_live := cxx_live w;
              next_ptr := next_ptr w; trace := trace w ++ [e i];
              clock := clock w |} with (add_trace [e i] w).
    destruct (IH (i + 1) (add_trace [e i] w)) as [es [Hrun [Ha [Hf Hs]]]].
    exists (e i :: es). rewrite Hrun, add_trace_app.
    split; [reflexivity|].
    cbn [Converter.zseq map]. unfold allocated, freed in *.
    cbn [flat_map filter]. rewrite Ha, Hf, Hs. repeat split; reflexivity.
Qed.

Lemma remove_fresh p l : ~ In p l -> remove Z.eq_dec p (p :: l) = l.
Proof.
  intros H. cbn [remove]. destruct (Z.eq_dec p p) as [_|Hne]; [|congruence].
  now apply notin_remove.
Qed.

Lemma memcpy_is_silent (f g h : Z -> Z) (l : list Z) :
  allocated (map (fun i => EvMemcpy (f i) (g i) (h i)) l) = [] /\
  freed (map (fun i => EvMemcpy (f i) (g i) (h i)) l) = [] /\
  filter is_send (map (fun i => EvMemcpy (f i) (g i) (h i)) l) = [].
Proof.
  induction l as [|i l [IHa [IHf IHs]]]; [repeat split; reflexivity|].
  unfold allocated, freed in *. cbn. now rewrite IHa, IHf, IHs.
Qed.

(** X12: on a started output a raw-audio call hands the frame to the sink
    once, records its timestamp as the last audio timestamp and changes
    nothing else in the object (queue and counting signal included); the
    buffer it allocates for the copy is released before it returns. *)
Theorem rawaudio_forwards (frame : audio_data) (w : world) (size : Z) :
  started (obj w) = true ->
  int_mul (to_int (speakers (audio_info (obj w))))
          (to_int (to_uint32 (ad_frames frame * 4))) = Ok size ->
  ~ In (next_ptr w) (bm_live w) ->
  next_ptr w <> nullptr ->
  exists w' es,
    ndi_output_rawaudio frame w = Ok (tt, w') /\
    obj w' = set_last_audio_timestamp (ad_timestamp frame) (obj w) /\
    bm_live w' = bm_live w /\
    trace w' = trace w ++ es /\
    filter is_send es =
      [EvSendAudio (to_int (samples_per_sec (audio_info (obj w))))
                   (to_int (speakers (audio_info (obj w))))
                   (to_int (ad_frames frame))] /\
    allocated es = [next_ptr w] /\
    freed es = [next_ptr w].
Proof.
  intros Hs Hsize Hfresh Hnonnull.
  unfold ndi_output_rawaudio.
  rewrite (bind_ok get_obj _ w (obj w) w) by reflexivity.
  rewrite Hs. cbn [negb].
  rewrite (bind_ok _ _ _ _ _ (lift_ok _ _ _ Hsize)).
  unfold bind at 1. cbn [bmalloc].
  match goal with
  | |- context [bind (for_channels ?n ?i (fun j => emit (@?e j))) _ ?w1] =>
      destruct (for_channels_emits e n i w1) as [ces [Hrun [Ha [Hf Hsd]]]]
  end.
  rewrite (bind_ok _ _ _ _ _ Hrun).
  unfold bind at 1. cbn [emit].
  unfold bind at 1. unfold bfree at 1. fields.
  apply Z.eqb_neq in Hnonnull. rewrite Hnonnull.
  assert (Hmem : mem (next_ptr w) (next_ptr w :: bm_live w) = true)
    by (apply mem_In; now left).
  rewrite Hmem. cbn [modify_obj]. fields.
  destruct (memcpy_is_silent
              (fun i => next_ptr w
                        + i * to_int (to_uint32 (ad_frames frame * 4)))
              (fun i => nth (Z.to_nat i) (ad_data frame) nullptr)
              (fun _ => to_uint64 (to_int (to_uint32 (ad_frames frame * 4))))
              (Converter.zseq 0
                 (Z.to_nat (to_int (speakers (audio_info (obj w)))))))
    as [Ma [Mf Ms]].
  rewrite Ma in Ha. rewrite Mf in Hf. rewrite Ms in Hsd.
  eexists. eexists. split; [reflexivity|]. fields.
  split; [reflexivity|]. split; [now apply remove_fresh|].
  split; [rewrite <- !app_assoc; reflexivity|].
  unfold allocated, freed in *.
  rewrite !flat_map_app, !filter_app, Ha, Hf, Hsd. cbn.
  repeat split; reflexivity.
Qed.

Lemma rawaudio_forwards_witness :
  exists w' es,
    ndi_output_rawaudio (audio_at 5000) (started_world 30 1) = Ok (tt, w') /\
    obj w' = set_last_audio_timestamp (ad_timestamp (audio_at 5000))
               (obj (started_world 30 1)) /\
    bm_live w' = bm_live (started_world 30 1) /\
    trace w' = trace (started_world 30 1) ++ es /\
    filter is_send es =
      [EvSendAudio
         (to_int (samples_per_sec (audio_info (obj (started_world 30 1)))))
         (to_int (speakers (audio_info (obj (started_world 30 1)))))
         (to_int (ad_frames (audio_at 5000)))] /\
    allocated es = [next_ptr (started_world 30 1)] /\
    freed es = [next_ptr (started_world 30 1)].
Proof.
  apply (rawaudio_forwards (audio_at 5000) (started_world 30 1) 32);
    closed_condition.
Defined.

(** ** The counting signal follows the queue *)

(** Split a run of a bound computation into its two halves. *)
Tactic Notation "split_run" hyp(H) "as" ident(a) ident(w1) ident(H1) :=
  apply bind_inv in H; destruct H as [a [w1 [H1 H]]].

Lemma hoare_conj {A} (P P' : world -> Prop) (Q Q' : A -> world -> Prop)
    (m : M A) :
  hoare P m Q -> hoare P' m Q' ->
  hoare (fun w => P w /\ P' w) m (fun a w => Q a w /\ Q' a w).
Proof.
  intros H H' w a w' [HP HP'] Hrun. split; [eapply H | eapply H']; eauto.
Qed.

Lemma keeps_obj_balanced {A} (m : M A) :
  keeps_obj m -> hoare balanced m (fun _ => balanced).
Proof.
  intros Hm w a w' Hb Hrun. unfold balanced in *.
  now rewrite (Hm w a w' Hrun).
Qed.

Lemma emit_keeps_obj e : keeps_obj (emit e).
Proof. intros w a w' H. now inversion H. Qed.

Lemma lift_keeps_obj {A} (r : result A) : keeps_obj (lift r).
Proof. intros w a w' H. apply lift_inv in H. destruct H as [_ Hw]. now subst. Qed.

Lemma bmalloc_keeps_obj size : keeps_obj (bmalloc size).
Proof. intros w a w' H. now inversion H. Qed.

Lemma bfree_keeps_obj p : keeps_obj (bfree p).
Proof.
  intros w a w' H. unfold bfree in H.
  destruct (p =? nullptr); [now inversion H|].
  destruct (mem p (bm_live w)); [now inversion H | discriminate].
Qed.

Lemma os_gettime_ns_keeps_obj : keeps_obj os_gettime_ns.
Proof.
  intros w a w' H. unfold os_gettime_ns in H.
  destruct (clock w); [discriminate | now inversion H].
Qed.

Lemma convert_frame_keeps_obj o frame : keeps_obj (convert_frame o frame).
Proof.
  intros w a w' H.
  destruct (convert_frame_trace o frame w) as [es [Hc _]].
  rewrite Hc in H. now inversion H.
Qed.

Lemma for_channels_keeps_obj (e : Z -> event) n i :
  keeps_obj (for_channels n i (fun j => emit (e j))).
Proof.
  intros w a w' H.
  destruct (for_channels_emits e n i w) as [es [Hc _]].
  rewrite Hc in H. now inversion H.
Qed.

Lemma push_and_post_balanced f :
  hoare balanced (circlebuf_push_back f ;; os_sem_post) (fun _ => balanced).
Proof.
  intros w a w' Hb Hrun. inversion Hrun; subst.
  unfold balanced in *. fields. rewrite length_app. cbn [length]. lia.
Qed.

Lemma drop_front_balanced :
  hoare balanced drop_front (fun _ => balanced).
Proof.
  intros w a w' Hb Hrun. unfold drop_front in Hrun.
  split_run Hrun as f w1 Hpop.
  unfold circlebuf_pop_front, bind, get_obj in Hpop.
  destruct (video_frames (obj w)) as [|f0 rest] eqn:Eq; [discriminate|].
  inversion Hpop; subst. clear Hpop.
  split_run Hrun as u w2 Hwait. unfold os_sem_wait, bind, get_obj in Hwait.
  fields. destruct (0 <? video_send_sem (obj w)); [|discriminate].
  inversion Hwait; subst. clear Hwait.
  apply bfree_keeps_obj in Hrun. unfold balanced in *.
  rewrite Hrun. fields. rewrite Eq in Hb. cbn [length] in Hb. lia.
Qed.

Lemma ndi_output_rawvideo_balanced frame :
  hoare balanced (ndi_output_rawvideo frame) (fun _ => balanced).
Proof.
  unfold ndi_output_rawvideo.
  eapply hoare_bind; [apply hoare_get_obj|].
  intros o w a w' [H _]. revert w a w' H. as_hoare.
  destruct (negb (started o)); [apply hoare_ret; auto|].
  destruct (MAX_BUFFERING_FRAMES <=? frames_in_queue o);
    [apply hoare_ret; auto|].
  eapply hoare_bind;
    [apply keeps_obj_balanced, convert_frame_keeps_obj|]. intros ?.
  eapply hoare_bind; [apply hoare_lift|]. intros bytes.
  eapply hoare_bind; [apply keeps_obj_balanced, bmalloc_keeps_obj|].
  intros p.
  eapply hoare_bind; [apply keeps_obj_balanced, emit_keeps_obj|]. intros ?.
  eapply hoare_bind; [apply hoare_lift|]. intros required.
  eapply hoare_bind; [apply hoare_lift|]. intros add.
  eapply hoare_bind with (Q := fun _ => balanced).
  - destruct (add <? 0).
    + eapply hoare_bind; [apply hoare_lift|]. intros magnitude.
      apply hoare_repeatM, drop_front_balanced.
    + destruct (0 <? add).
      * apply hoare_repeatM. unfold push_filler. apply push_and_post_balanced.
      * apply hoare_ret. auto.
  - intros ?. apply push_and_post_balanced.
Qed.

Lemma ndi_output_rawaudio_keeps_queue frame w a w' :
  ndi_output_rawaudio frame w = Ok (a, w') ->
  video_frames (obj w') = video_frames (obj w) /\
  video_send_sem (obj w') = video_send_sem (obj w).
Proof.
  unfold ndi_output_rawaudio. intros Hrun.
  split_run Hrun as o w1 Hget. inversion Hget; subst. clear Hget.
  destruct (negb (started (obj w1))); [now inversion Hrun|].
  split_run Hrun as size w2 H2. apply lift_keeps_obj in H2.
  split_run Hrun as p w3 H3. apply bmalloc_keeps_obj in H3.
  split_run Hrun as u4 w4 H4. apply for_channels_keeps_obj in H4.
  split_run Hrun as u5 w5 H5. apply emit_keeps_obj in H5.
  split_run Hrun as u6 w6 H6. apply bfree_keeps_obj in H6.
  inversion Hrun; subst. fields.
  rewrite H6, H5, H4, H3, H2. now split.
Qed.

Lemma ndi_output_rawaudio_balanced frame :
  hoare balanced (ndi_output_rawaudio frame) (fun _ => balanced).
Proof.
  intros w a w' Hb Hrun.
  destruct (ndi_output_rawaudio_keeps_queue frame w a w' Hrun) as [Hq Hs].
  unfold balanced in *. now rewrite Hq, Hs.
Qed.

Lemma thread_iteration_balanced :
  hoare (fun w => balanced w /\ video_send_stop_event (obj w) = false)
        thread_iteration (fun _ => balanced).
Proof.
  intros w b w' [Hb Hev] Hrun. unfold thread_iteration in Hrun.
  split_run Hrun as u1 w1 Hwait. unfold os_sem_wait, bind, get_obj in Hwait.
  destruct (0 <? video_send_sem (obj w)); [|discriminate].
  inversion Hwait; subst. clear Hwait.
  split_run Hrun as stop w2 Htry. unfold os_event_try, bind, get_obj in Htry.
  fields. rewrite Hev in Htry. inversion Htry; subst. clear Htry.
  split_run Hrun as f w3 Hpop.
  unfold circlebuf_pop_front, bind, get_obj in Hpop. fields.
  destruct (video_frames (obj w)) as [|f0 rest] eqn:Eq; [discriminate|].
  inversion Hpop; subst. clear Hpop.
  split_run Hrun as d w4 H4. apply lift_keeps_obj in H4.
  split_run Hrun as now w5 H5. apply os_gettime_ns_keeps_obj in H5.
  split_run Hrun as u6 w6 H6.
  assert (Hobj : obj w6 = obj w5).
  { destruct (negb (p_data f =? nullptr)).
    - split_run H6 as u7 w7 H7. apply emit_keeps_obj in H7.
      apply bfree_keeps_obj in H6. congruence.
    - now inversion H6. }
  split_run Hrun as u8 w8 H8. apply emit_keeps_obj in H8.
  inversion Hrun; subst.
  unfold balanced in *. rewrite H8, Hobj, H5, H4. fields.
  rewrite Eq in Hb. cbn [length] in Hb. lia.
Qed.

Lemma perform_running c :
  hoare (fun w => consistent [] w /\ balanced w) (perform c)
        (fun _ w => consistent [] w /\ balanced w).
Proof.
  destruct c as [frame|frame|]; cbn [perform].
  - apply hoare_conj;
      [apply ndi_output_rawvideo_consistent
      | apply ndi_output_rawvideo_balanced].
  - apply hoare_conj;
      [apply ndi_output_rawaudio_consistent
      | apply ndi_output_rawaudio_balanced].
  - intros w a w' [Hc Hb] Hrun. split.
    + exact (thread_pass_consistent w a w' Hc Hrun).
    + unfold thread_pass in Hrun.
      split_run Hrun as o w1 Hget. inversion Hget; subst. clear Hget.
      rewrite (thread_running _ _ Hc) in Hrun.
      split_run Hrun as continue w2 Hpass.
      pose proof (thread_iteration_consistent _ _ _ Hc Hpass) as [_ ->].
      inversion Hrun; subst.
      apply (thread_iteration_balanced w1 true w'); [|exact Hpass].
      split; [exact Hb | exact (stop_unset _ _ Hc)].
Qed.

Lemma run_running cs :
  hoare (fun w => consistent [] w /\ balanced w) (run cs)
        (fun _ w => consistent [] w /\ balanced w).
Proof.
  induction cs as [|c cs IH]; cbn [run].
  - apply hoare_ret. auto.
  - eapply hoare_bind; [apply perform_running|]. intros ?. exact IH.
Qed.

Lemma start_balanced h s readings w0 :
  ndi_output_start h (created s readings) = Ok (true, w0) -> balanced w0.
Proof.
  unfold ndi_output_start, select_format, cxx_delete, cxx_new, pthread_create,
         bind, get_obj, emit, modify_obj, ret, created, ndi_output_create.
  fields. cbn [Z.eqb nullptr].
  destruct (output_format (host_video_info h));
    destruct (send_create_result h =? nullptr);
    cbn [negb]; fields;
    destruct (begin_data_capture_result h);
    intros Hrun; inversion Hrun; subst; reflexivity.
Qed.

(** X13: between [start] and [stop], after any raw-video calls, raw-audio
    calls and delivery passes, the counting signal holds exactly one unit
    per queued descriptor, fillers included. *)
Theorem signal_counts_queue (h : host) (s : settings) (readings : list Z)
    (cs : list call) (w0 w : world) :
  ndi_output_start h (created s readings) = Ok (true, w0) ->
  run cs w0 = Ok (tt, w) ->
  video_send_sem (obj w) = frames_in_queue (obj w).
Proof.
  intros Hstart Hrun. rewrite frames_in_queue_length.
  apply (run_running cs w0 tt w); [|exact Hrun].
  split; [exact (start_consistent h s readings w0 Hstart)
         | exact (start_balanced h s readings w0 Hstart)].
Qed.

Lemma signal_counts_queue_witness :
  video_send_sem (obj world_after_calls)
    = frames_in_queue (obj world_after_calls).
Proof.
  apply (signal_counts_queue (bgra_host 30 1) plain_settings [1000; 2000]
           sample_calls (started_world 30 1) world_after_calls);
    vm_compute; reflexivity.
Defined.

(** X14: between [start] and [stop], the live pixel buffers are exactly
    the buffers the queued descriptors point to, and no two descriptors
    share a buffer: nothing leaks and nothing is queued after release. *)
Theorem live_buffers_are_queued (h : host) (s : settings) (readings : list Z)
    (cs : list call) (w0 w : world) :
  ndi_output_start h (created s readings) = Ok (true, w0) ->
  run cs w0 = Ok (tt, w) ->
  NoDup (queued_buffers (video_frames (obj w))) /\
  forall p, In p (bm_live w) <-> In p (queued_buffers (video_frames (obj w))).
Proof.
  intros Hstart Hrun.
  assert (Hc : consistent [] w).
  { apply (run_consistent cs w0 tt w); [|exact Hrun].
    exact (start_consistent h s readings w0 Hstart). }
  split; [exact (live_once _ _ Hc) | exact (live_queued _ _ Hc)].
Qed.

Lemma live_buffers_are_queued_witness :
  NoDup (queued_buffers (video_frames (obj world_after_calls))) /\
  forall p, In p (bm_live world_after_calls) <->
            In p (queued_buffers (video_frames (obj world_after_calls))).
Proof.
  apply (live_buffers_are_queued (bgra_host 30 1) plain_settings [1000; 2000]
           sample_calls (started_world 30 1) world_after_calls);
    vm_compute; reflexivity.
Defined.

(** ** Drift correction, all three ways *)

Lemma convert_frame_events o frame w :
  exists es,
    convert_frame o frame w = Ok (tt, add_trace es w) /\
    allocated es = [] /\ freed es = [] /\ filter is_send es = [].
Proof.
  unfold convert_frame.
  destruct (is_UYVY (frame_format o));
    [destruct (output_format (video_info o))|];
    first [ exists []; rewrite add_trace_nil; repeat split; reflexivity
          | eexists [_]; repeat split; reflexivity ].
Qed.

Lemma drop_events_freed l :
  freed (flat_map drop_events l) = queued_buffers l /\
  allocated (flat_map drop_events l) = [] /\
  filter is_send (flat_map drop_events l) = [].
Proof.
  induction l as [|f l [IHf [IHa IHs]]]; [repeat split; reflexivity|].
  unfold freed, allocated, queued_buffers, drop_events in *.
  cbn [flat_map map filter app].
  rewrite !flat_map_app, filter_app, IHf, IHa, IHs.
  destruct (p_data f =? nullptr); cbn; repeat split; reflexivity.
Qed.

Lemma posts_are_silent n :
  freed (repeat EvSemPost n) = [] /\
  allocated (repeat EvSemPost n) = [] /\
  filter is_send (repeat EvSemPost n) = [].
Proof.
  induction n as [|n [IHf [IHa IHs]]]; [repeat split; reflexivity|].
  unfold freed, allocated in *. cbn. now rewrite IHf, IHa, IHs.
Qed.

(** One drop from the front, when the queue is not empty and the signal
    has a unit. *)
Lemma drop_front_run extra w f rest :
  consistent extra w ->
  video_frames (obj w) = f :: rest ->
  0 < video_send_sem (obj w) ->
  exists w',
    drop_front w = Ok (tt, w') /\
    video_frames (obj w') = rest /\
    video_send_sem (obj w') = video_send_sem (obj w) - 1 /\
    trace w' = trace w ++ drop_events f /\
    next_ptr w' = next_ptr w.
Proof.
  intros Hc Hq Hsem. unfold drop_front, circlebuf_pop_front.
  unfold bind at 1. unfold bind at 1. unfold get_obj at 1. rewrite Hq.
  unfold bind at 1. cbn [modify_obj ret].
  unfold os_sem_wait.
  unfold bind at 1. unfold bind at 1. unfold get_obj at 1. fields.
  apply Z.ltb_lt in Hsem. rewrite Hsem.
  unfold bind at 1. cbn [modify_obj emit]. fields.
  unfold bfree, drop_events. fields.
  destruct (p_data f =? nullptr) eqn:Ep.
  - eexists. split; [reflexivity|]. fields. repeat split; reflexivity.
  - assert (Hmem : mem (p_data f) (bm_live w) = true).
    { apply mem_In, (live_queued _ _ Hc), in_or_app. right.
      rewrite Hq. change (f :: rest) with ([f] ++ rest).
      rewrite queued_buffers_app, queued_buffers_real
        by (now apply Z.eqb_neq). now left. }
    rewrite Hmem. eexists. split; [reflexivity|]. fields.
    rewrite <- app_assoc. repeat split; reflexivity.
Qed.

Lemma repeat_drop_front_run extra (n : nat) :
  forall w,
    consistent extra w ->
    (n <= length (video_frames (obj w)))%nat ->
    Z.of_nat n <= video_send_sem (obj w) ->
    exists w',
      repeatM n drop_front w = Ok (tt, w') /\
      video_frames (obj w') = skipn n (video_frames (obj w)) /\
      video_send_sem (obj w') = video_send_sem (obj w) - Z.of_nat n /\
      trace w' =
        trace w ++ flat_map drop_events (firstn n (video_frames (obj w))) /\
      next_ptr w' = next_ptr w.
Proof.
  induction n as [|n IH]; intros w Hc Hlen Hsem.
  - exists w. cbn. rewrite app_nil_r, Z.sub_0_r. repeat split; reflexivity.
  - destruct (video_frames (obj w)) as [|f rest] eqn:Hq;
      [cbn in Hlen; lia|].
    destruct (drop_front_run extra w f rest Hc Hq ltac:(lia))
      as [w1 [Hrun [Hq1 [Hs1 [Ht1 Hn1]]]]].
    pose proof (drop_front_consistent extra w tt w1 Hc Hrun) as Hc1.
    destruct (IH w1 Hc1) as [w' [Hrun' [Hq' [Hs' [Ht' Hn']]]]].
    + rewrite Hq1. cbn in Hlen. lia.
    + rewrite Hs1. lia.
    + exists w'. cbn [repeatM]. rewrite (bind_ok _ _ _ _ _ Hrun).
      split; [exact Hrun'|].
      rewrite Hq', Hs', Ht', Hn', Hq1, Hs1, Ht1, Hn1.
      cbn [skipn firstn flat_map]. rewrite <- app_assoc.
      repeat split; try reflexivity. lia.
Qed.

Lemma repeat_push_filler_run (n : nat) f :
  forall w, exists w',
    repeatM n (push_filler f) w = Ok (tt, w') /\
    video_frames (obj w') =
      video_frames (obj w) ++ repeat (with_p_data f nullptr) n /\
    video_send_sem (obj w') = video_send_sem (obj w) + Z.of_nat n /\
    trace w' = trace w ++ repeat EvSemPost n /\
    next_ptr w' = next_ptr w.
Proof.
  induction n as [|n IH]; intros w.
  - exists w. cbn. rewrite !app_nil_r, Z.add_0_r. repeat split; reflexivity.
  - cbn [repeatM]. unfold bind at 1.
    unfold push_filler at 1, circlebuf_push_back, os_sem_post.
    unfold bind at 1. cbn [modify_obj]. unfold bind at 1.
    cbn [modify_obj emit].
    match goal with
    | |- context [repeatM n _ ?w1] =>
        destruct (IH w1) as [w' [Hrun [Hq [Hsem [Htr Hnext]]]]]
    end.
    exists w'. split; [exact Hrun|]. fields.
    rewrite Hq, Hsem, Htr, Hnext, <- !app_assoc. fields. cbn [repeat app].
    repeat split; try reflexivity. lia.
Qed.

(** X15: an admitted frame whose required delay [r] is not negative
    leaves [r + 1] descriptors queued.  With more than [r] queued, the
    oldest ones in excess are dropped from the front, each with one unit
    of the counting signal, and their buffers released; with fewer, fillers
    carrying the new frame's metadata and a null pixel pointer are
    appended; the new frame, with the buffer just allocated, comes last.
    Nothing is handed to the sink. *)
Theorem drift_correction_reconciles (frame : video_data) (w : world)
    (bytes required : Z) :
  started (obj w) = true ->
  frames_in_queue (obj w) < MAX_BUFFERING_FRAMES ->
  consistent [] w ->
  frames_in_queue (obj w) <= video_send_sem (obj w) ->
  video_bytes (obj w) frame = Ok bytes ->
  required_delay_frames (obj w) frame = Ok required ->
  0 <= required ->
  exists w' es,
    ndi_output_rawvideo frame w = Ok (tt, w') /\
    video_frames (obj w') =
      skipn (Z.to_nat (frames_in_queue (obj w) - required))
            (video_frames (obj w)) ++
      repeat (with_p_data (admitted_frame w frame) nullptr)
             (Z.to_nat (required - frames_in_queue (obj w))) ++
      [admitted_frame w frame] /\
    frames_in_queue (obj w') = required + 1 /\
    video_send_sem (obj w') =
      video_send_sem (obj w)
      - Z.of_nat (Z.to_nat (frames_in_queue (obj w) - required))
      + Z.of_nat (Z.to_nat (required - frames_in_queue (obj w))) + 1 /\
    trace w' = trace w ++ es /\
    filter is_send es = [] /\
    allocated es = [next_ptr w] /\
    freed es =
      queued_buffers
        (firstn (Z.to_nat (frames_in_queue (obj w) - required))
                (video_frames (obj w))).
Proof.
  intros Hs Hq Hc Hsem Hb Hr Hnonneg.
  set (cur := frames_in_queue (obj w)) in *.
  set (dropped := Z.to_nat (cur - required)).
  set (fillers := Z.to_nat (required - cur)).
  destruct (convert_frame_events (obj w) frame w)
    as [ces [Hconv [Hca [Hcf Hcs]]]].
  pose proof (required_delay_frames_range _ _ _ Hr) as Hrange.
  assert (Hlen : cur = Z.of_nat (length (video_frames (obj w))))
    by apply frames_in_queue_length.
  assert (Hcur : to_int cur = cur)
    by (apply to_int_small; unfold MAX_BUFFERING_FRAMES, INT_MAX in *; lia).
  assert (Hsub : int_sub required (to_int cur) = Ok (required - cur)).
  { rewrite Hcur. unfold int_sub, int_checked, in_int, INT_MIN, INT_MAX in *.
    unfold MAX_BUFFERING_FRAMES in *.
    assert (E1 : (-2147483648 <=? required - cur) = true)
      by (apply Z.leb_le; lia).
    assert (E2 : (required - cur <=? 2147483647) = true)
      by (apply Z.leb_le; lia).
    now rewrite E1, E2. }
  unfold ndi_output_rawvideo.
  rewrite (bind_ok get_obj _ w (obj w) w) by reflexivity.
  rewrite Hs. cbn [negb]. fold cur.
  assert (E : (MAX_BUFFERING_FRAMES <=? cur) = false)
    by (apply Z.leb_gt; exact Hq).
  rewrite E.
  rewrite (bind_ok _ _ _ _ _ Hconv).
  rewrite (bind_ok _ _ _ _ _ (lift_ok _ _ _ Hb)).
  unfold bind at 1. cbn [bmalloc].
  unfold bind at 1. cbn [emit]. fields.
  rewrite (bind_ok _ _ _ _ _ (lift_ok _ _ _ Hr)).
  rewrite (bind_ok _ _ _ _ _ (lift_ok _ _ _ Hsub)).
  fold (admitted_frame w frame).
  set (w1 := {| obj := obj w; bm_live := next_ptr w :: bm_live w;
                cxx_live := cxx_live w; next_ptr := next_ptr w + 1;
                trace := (trace w ++ ces) ++
                         [EvBmalloc (next_ptr w) (to_uint64 bytes)] ++
                         [EvMemcpy (next_ptr w)
                            (p_data (described_frame (obj w) frame))
                            (to_uint64 bytes)];
                clock := clock w |}).
  assert (Hc1 : consistent [next_ptr w] w1).
  { assert (H0 : consistent [] (add_trace ces w))
      by exact (convert_frame_consistent [] (obj w) frame w tt _ Hc Hconv).
    pose proof (bmalloc_consistent (to_uint64 bytes) (add_trace ces w)
                  (next_ptr w) _ H0 eq_refl) as H1.
    refine (emit_consistent [next_ptr w] _ _ tt w1 H1 _).
    unfold emit, add_trace, w1. cbn. now rewrite <- !app_assoc. }
  match goal with
  | |- context [bind ?branch _ ?w0] =>
      replace w0 with w1
        by (unfold w1; cbn; now rewrite <- !app_assoc);
      assert (Hbranch : exists w2,
        branch w1 = Ok (tt, w2) /\
        video_frames (obj w2) =
          skipn dropped (video_frames (obj w)) ++
          repeat (with_p_data (admitted_frame w frame) nullptr) fillers /\
        video_send_sem (obj w2) =
          video_send_sem (obj w) - Z.of_nat dropped + Z.of_nat fillers /\
        trace w2 =
          trace w1 ++
          flat_map drop_events (firstn dropped (video_frames (obj w))) ++
          repeat EvSemPost fillers)
  end.
  { destruct (required - cur <? 0) eqn:Eneg.
    - apply Z.ltb_lt in Eneg.
      assert (Habs : int_abs (required - cur) = Ok (cur - required)).
      { unfold int_abs, int_checked, in_int, INT_MIN, INT_MAX in *.
        unfold MAX_BUFFERING_FRAMES in *.
        replace (Z.abs (required - cur)) with (cur - required) by lia.
        assert (E1 : (-2147483648 <=? cur - required) = true)
          by (apply Z.leb_le; lia).
        assert (E2 : (cur - required <=? 2147483647) = true)
          by (apply Z.leb_le; lia).
        now rewrite E1, E2. }
      rewrite (bind_ok _ _ _ _ _ (lift_ok _ _ _ Habs)).
      rewrite Hcur.
      assert (Hmin : to_uint64 (min_int (cur - required) cur)
                     = cur - required).
      { unfold min_int. destruct (cur - required <? cur) eqn:Em.
        - apply to_uint64_small. unfold two64, MAX_BUFFERING_FRAMES in *. lia.
        - apply Z.ltb_ge in Em. replace required with 0 by lia.
          rewrite Z.sub_0_r.
          apply to_uint64_small. unfold two64, MAX_BUFFERING_FRAMES in *. lia. }
      rewrite Hmin. fold dropped.
      destruct (repeat_drop_front_run [next_ptr w] dropped w1 Hc1)
        as [w2 [Hrun [Hq2 [Hs2 [Ht2 _]]]]].
      + unfold w1, dropped. fields. lia.
      + unfold w1, dropped. fields. lia.
      + exists w2. split; [exact Hrun|].
        replace fillers with 0%nat by (unfold fillers; lia).
        cbn [repeat]. rewrite !app_nil_r, Z.add_0_r.
        rewrite Hq2, Hs2, Ht2. unfold w1. fields. repeat split; reflexivity.
    - apply Z.ltb_ge in Eneg.
      replace dropped with 0%nat by (unfold dropped; lia).
      cbn [skipn firstn flat_map app]. rewrite Z.sub_0_r.
      destruct (0 <? required - cur) eqn:Epos.
      + apply Z.ltb_lt in Epos.
        rewrite to_uint64_small by (unfold two64, INT_MAX in *; lia).
        fold fillers.
        destruct (repeat_push_filler_run fillers (admitted_frame w frame) w1)
          as [w2 [Hrun [Hq2 [Hs2 [Ht2 _]]]]].
        exists w2. split; [exact Hrun|].
        rewrite Hq2, Hs2, Ht2. unfold w1. fields.
        repeat split; reflexivity.
      + apply Z.ltb_ge in Epos.
        replace fillers with 0%nat by (unfold fillers; lia).
        exists w1. cbn [repeat]. rewrite !app_nil_r, Z.add_0_r.
        repeat split; reflexivity. }
  destruct Hbranch as [w2 [Hrun [Hq2 [Hs2 Ht2]]]].
  rewrite (bind_ok _ _ _ _ _ Hrun).
  unfold circlebuf_push_back, os_sem_post.
  unfold bind at 1. cbn [modify_obj]. unfold bind at 1. cbn [modify_obj emit].
  eexists.
  exists (ces ++ [EvBmalloc (next_ptr w) (to_uint64 bytes);
                  EvMemcpy (next_ptr w)
                    (p_data (described_frame (obj w) frame))
                    (to_uint64 bytes)] ++
          flat_map drop_events (firstn dropped (video_frames (obj w))) ++
          repeat EvSemPost fillers ++ [EvSemPost]).
  split; [reflexivity|].
  destruct (drop_events_freed (firstn dropped (video_frames (obj w))))
    as [Df [Da Ds]].
  destruct (posts_are_silent fillers) as [Pf [Pa Ps]].
  rewrite frames_in_queue_length. fields. rewrite Hq2, Hs2, Ht2.
  unfold w1. fields.
  split; [now rewrite <- app_assoc|].
  split.
  { rewrite !length_app, repeat_length, length_skipn. cbn [length].
    unfold dropped, fillers. lia. }
  split; [reflexivity|].
  split; [now rewrite <- !app_assoc|].
  unfold allocated, freed in *.
  rewrite !flat_map_app, !filter_app, Hca, Hcf, Hcs, Df, Da, Ds, Pf, Pa, Ps.
  cbn. rewrite !app_nil_r. repeat split; reflexivity.
Qed.

Lemma drift_correction_reconciles_witness :
  exists w' es,
    ndi_output_rawvideo (video_at 200000001) world_before_drop
      = Ok (tt, w') /\
    video_frames (obj w') =
      skipn (Z.to_nat (frames_in_queue (obj world_before_drop) - 0))
            (video_frames (obj world_before_drop)) ++
      repeat (with_p_data
                (admitted_frame world_before_drop (video_at 200000001))
                nullptr)
             (Z.to_nat (0 - frames_in_queue (obj world_before_drop))) ++
      [admitted_frame world_before_drop (video_at 200000001)] /\
    frames_in_queue (obj w') = 0 + 1 /\
    video_send_sem (obj w') =
      video_send_sem (obj world_before_drop)
      - Z.of_nat (Z.to_nat (frames_in_queue (obj world_before_drop) - 0))
      + Z.of_nat (Z.to_nat (0 - frames_in_queue (obj world_before_drop)))
      + 1 /\
    trace w' = trace world_before_drop ++ es /\
    filter is_send es = [] /\
    allocated es = [next_ptr world_before_drop] /\
    freed es =
      queued_buffers
        (firstn (Z.to_nat (frames_in_queue (obj world_before_drop) - 0))
                (video_frames (obj world_before_drop))).
Proof.
  apply (drift_correction_reconciles (video_at 200000001) world_before_drop
           16 0).
  - vm_compute. reflexivity.
  - vm_compute. reflexivity.
  - concrete_consistent world_before_drop.
  - vm_compute. congruence.
  - vm_compute. reflexivity.
  - vm_compute. reflexivity.
  - lia.
Defined.

(** ** Stop, and start again *)

Lemma stop_object w :
  consistent [] w ->
  exists w',
    ndi_output_stop w = Ok (tt, w') /\
    obj w' =
      set_conv_buffer nullptr
        (set_video_send_thread ThreadExited
           (set_video_frames []
              (set_video_send_stop_event false
                 (set_video_send_sem (video_send_sem (obj w) + 1 - 1)
                    (set_video_send_sem (video_send_sem (obj w) + 1)
                       (set_video_send_stop_event true
                          (set_started false (obj w)))))))).
Proof.
  intros H. destruct H. cbn [app] in *.
  unfold ndi_output_stop, os_event_signal, os_sem_post.
  unfold bind at 1. cbn [modify_obj].
  unfold bind at 1. cbn [emit].
  unfold bind at 1. unfold bind at 1. cbn [modify_obj emit].
  unfold bind at 1. unfold bind at 1. cbn [modify_obj emit].
  fields.
  unfold pthread_join.
  unfold bind at 1. unfold bind at 1. unfold get_obj at 1. fields.
  rewrite thread_running0.
  unfold bind at 1. unfold bind at 1. unfold get_clock at 1. fields.
  cbn [ndi_videosend_thread].
  unfold bind at 1. unfold bind at 1.
  rewrite thread_iteration_stopping by (fields; first [reflexivity | lia]).
  fields.
  unfold flush_queue. unfold bind at 1. unfold get_obj at 1. fields.
  match goal with
  | |- context [flush_frames _ ?w1] =>
      destruct (flush_frames_ok (video_frames (obj w))
                  (length (video_frames (obj w))) w1)
        as [wf [Hrun [Hobj [Hl [Htr Hcxx]]]]];
        [reflexivity | lia | exact live_once0
        | intros p Hp; apply live_queued0, Hp |]
  end.
  rewrite Hrun. cbn [modify_obj]. fields.
  cbn [get_obj]. unfold bind at 1. cbn [emit]. fields.
  match goal with
  | |- context [bind (cxx_delete ?p) _ ?w1] =>
      destruct (cxx_delete_ok p w1)
        as [wd [ed [Hdel [Hobjd _]]]];
        [fields; rewrite Hobj, Hcxx; fields; exact conv_valid0|]
  end.
  rewrite (bind_ok _ _ _ _ _ Hdel). cbn [modify_obj]. fields.
  eexists. split; [reflexivity|]. fields.
  rewrite Hobjd. fields. rewrite Hobj. reflexivity.
Qed.

(** X16: [stop] empties the queue without taking back the signal units of
    the descriptors it flushes, and destroys the sender without clearing
    the handle: afterwards the counting signal still holds one unit per
    flushed descriptor, the stop signal is reset, the conversion buffer
    pointer is null and the sender handle is the destroyed one. *)
Theorem stop_keeps_signal_units (h : host) (s : settings) (readings : list Z)
    (cs : list call) (w0 w : world) :
  ndi_output_start h (created s readings) = Ok (true, w0) ->
  run cs w0 = Ok (tt, w) ->
  exists w',
    ndi_output_stop w = Ok (tt, w') /\
    frames_in_queue (obj w') = 0 /\
    video_send_sem (obj w') = frames_in_queue (obj w) /\
    video_send_stop_event (obj w') = false /\
    conv_buffer (obj w') = nullptr /\
    ndi_sender (obj w') = ndi_sender (obj w).
Proof.
  intros Hstart Hrun.
  destruct (run_running cs w0 tt w) as [Hc Hb]; [|exact Hrun|].
  { split; [exact (start_consistent h s readings w0 Hstart)
           | exact (start_balanced h s readings w0 Hstart)]. }
  destruct (stop_object w Hc) as [w' [Hstop Hobj]].
  exists w'. split; [exact Hstop|].
  rewrite !frames_in_queue_length, Hobj. fields. cbn [length].
  unfold balanced in Hb. repeat split; try reflexivity. lia.
Qed.

Lemma stop_keeps_signal_units_witness :
  exists w',
    ndi_output_stop world_after_calls = Ok (tt, w') /\
    frames_in_queue (obj w') = 0 /\
    video_send_sem (obj w') = frames_in_queue (obj world_after_calls) /\
    video_send_stop_event (obj w') = false /\
    conv_buffer (obj w') = nullptr /\
    ndi_sender (obj w') = ndi_sender (obj world_after_calls).
Proof.
  apply (stop_keeps_signal_units (bgra_host 30 1) plain_settings
           [1000; 2000] sample_calls (started_world 30 1) world_after_calls);
    vm_compute; reflexivity.
Defined.

Lemma start_keeps_delivery_state h w b w' :
  conv_buffer (obj w) = nullptr ->
  ndi_output_start h w = Ok (b, w') ->
  video_frames (obj w') = video_frames (obj w) /\
  video_send_sem (obj w') = video_send_sem (obj w) /\
  video_send_stop_event (obj w') = video_send_stop_event (obj w) /\
  exists es, trace w' = trace w ++ EvSendDestroy (ndi_sender (obj w)) :: es.
Proof.
  intros Hconv.
  unfold ndi_output_start, select_format, cxx_delete, cxx_new, pthread_create,
         bind, get_obj, emit, modify_obj, ret.
  fields. rewrite Hconv. cbn [Z.eqb nullptr]. fields.
  destruct (output_format (host_video_info h));
    destruct (send_create_result h =? nullptr);
    cbn [negb]; fields;
    destruct (begin_data_capture_result h);
    intros Hrun; inversion Hrun; subst; fields;
    (split; [reflexivity|]; split; [reflexivity|]; split; [reflexivity|];
     eexists; rewrite <- ?app_assoc; cbn [app]; reflexivity).
Qed.

(** X17: when [stop] has flushed at least one descriptor and the output is
    started again, [start] first destroys the sender handle [stop] had
    already destroyed, and the first pass of the new delivery thread takes
    a left-over signal unit and pops from the empty queue. *)
Theorem restart_pops_empty_queue (h h' : host) (s : settings)
    (readings : list Z) (cs : list call) (w0 w w1 w2 : world) :
  ndi_output_start h (created s readings) = Ok (true, w0) ->
  run cs w0 = Ok (tt, w) ->
  video_frames (obj w) <> [] ->
  ndi_output_stop w = Ok (tt, w1) ->
  ndi_output_start h' w1 = Ok (true, w2) ->
  (exists es,
     trace w2 = trace w1 ++ EvSendDestroy (ndi_sender (obj w)) :: es) /\
  thread_iteration w2 = Err PopFromEmptyQueue.
Proof.
  intros Hstart Hrun Hq Hstop Hrestart.
  destruct (run_running cs w0 tt w) as [Hc Hb]; [|exact Hrun|].
  { split; [exact (start_consistent h s readings w0 Hstart)
           | exact (start_balanced h s readings w0 Hstart)]. }
  destruct (stop_object w Hc) as [w1' [Hstop' Hobj]].
  rewrite Hstop in Hstop'. inversion Hstop'; subst w1'. clear Hstop'.
  destruct (start_keeps_delivery_state h' w1 true w2) as [Hq2 [Hs2 [He2 Ht2]]];
    [rewrite Hobj; reflexivity | exact Hrestart |].
  rewrite Hobj in Hq2, Hs2, He2, Ht2. fields.
  split; [exact Ht2|].
  unfold balanced in Hb.
  assert (Hpos : (0 <? video_send_sem (obj w2)) = true).
  { apply Z.ltb_lt. rewrite Hs2.
    destruct (video_frames (obj w)); [congruence|]. cbn [length] in Hb. lia. }
  unfold thread_iteration, os_sem_wait.
  unfold bind at 1. unfold bind at 1. unfold get_obj at 1. rewrite Hpos.
  unfold bind at 1. cbn [modify_obj emit].
  unfold os_event_try.
  unfold bind at 1. unfold bind at 1. unfold get_obj at 1. fields.
  rewrite He2. cbn [ret].
  unfold circlebuf_pop_front.
  unfold bind at 1. unfold bind at 1. unfold get_obj at 1. fields.
  rewrite Hq2. reflexivity.
Qed.

Lemma restart_pops_empty_queue_witness :
  (exists es,
     trace (after (ndi_output_start nv12_host) world_stopped) =
       trace world_stopped ++
       EvSendDestroy (ndi_sender (obj world_after_calls)) :: es) /\
  thread_iteration (after (ndi_output_start nv12_host) world_stopped)
    = Err PopFromEmptyQueue.
Proof.
  apply (restart_pops_empty_queue (bgra_host 30 1) nv12_host plain_settings
           [1000; 2000] sample_calls (started_world 30 1) world_after_calls
           world_stopped (after (ndi_output_start nv12_host) world_stopped));
    vm_compute; first [reflexivity | congruence].
Defined.

(** ** Start with a sink *)

Lemma cxx_delete_run p w :
  p = nullptr \/ In p (cxx_live w) ->
  exists w' es,
    cxx_delete p w = Ok (tt, w') /\ obj w' = obj w /\
    trace w' = trace w ++ es /\ filter is_thread_create es = [].
Proof.
  intros H. unfold cxx_delete.
  destruct (p =? nullptr) eqn:Ep.
  - exists w, []. rewrite app_nil_r. repeat split; reflexivity.
  - destruct H as [H|H]; [apply Z.eqb_neq in Ep; contradiction|].
    apply mem_In in H. rewrite H.
    eexists. exists [EvDelete p]. repeat split; reflexivity.
Qed.

Lemma select_format_run w :
  exists w' es,
    select_format w = Ok (tt, w') /\
    trace w' = trace w ++ es /\ filter is_thread_create es = [] /\
    started (obj w') = started (obj w) /\
    video_send_thread (obj w') = video_send_thread (obj w) /\
    video_frames (obj w') = video_frames (obj w) /\
    video_send_sem (obj w') = video_send_sem (obj w) /\
    async_sending (obj w') = async_sending (obj w).
Proof.
  unfold select_format, bind, get_obj.
  destruct (output_format (video_info (obj w)));
    first [ exists w, []; rewrite app_nil_r; repeat split; reflexivity
          | eexists; exists []; cbn; rewrite app_nil_r;
            repeat split; reflexivity
          | eexists; eexists [_]; cbn; repeat split; reflexivity ].
Qed.

(** X18: when the sink creates the sender, [start] stores the handle and
    returns what [obs_output_begin_data_capture] answered; the delivery
    thread is launched, once, exactly when that answer is true.  When it
    is false the new sender handle stays in the object and no thread
    runs.  Queue and counting signal are not touched. *)
Theorem start_reports_capture (h : host) (w : world) :
  send_create_result h <> nullptr ->
  conv_buffer (obj w) = nullptr \/ In (conv_buffer (obj w)) (cxx_live w) ->
  exists w' es,
    ndi_output_start h w = Ok (begin_data_capture_result h, w') /\
    started (obj w') = begin_data_capture_result h /\
    ndi_sender (obj w') = send_create_result h /\
    video_send_thread (obj w') =
      (if begin_data_capture_result h then ThreadRunning
       else video_send_thread (obj w)) /\
    video_frames (obj w') = video_frames (obj w) /\
    video_send_sem (obj w') = video_send_sem (obj w) /\
    trace w' = trace w ++ es /\
    filter is_thread_create es =
      (if begin_data_capture_result h then [EvThreadCreate] else []).
Proof.
  intros Hsender Hconv.
  apply Z.eqb_neq in Hsender.
  unfold ndi_output_start.
  rewrite (bind_ok get_obj _ w (obj w) w) by reflexivity.
  unfold bind at 1. cbn [emit].
  match goal with
  | |- context [bind (cxx_delete ?p) _ ?wa] =>
      destruct (cxx_delete_run p wa)
        as [wb [eb [Hdel [Hobjb [Htrb Hthb]]]]]; [exact Hconv|]
  end.
  rewrite (bind_ok _ _ _ _ _ Hdel).
  unfold bind at 1. cbn [modify_obj].
  unfold bind at 1. cbn [modify_obj]. fields.
  match goal with
  | |- context [bind select_format _ ?wc] =>
      destruct (select_format_run wc)
        as [wd [ed [Hsel [Htrd [Hthd [Hsd [Htd [Hqd [Hsemd _]]]]]]]]]
  end.
  rewrite (bind_ok _ _ _ _ _ Hsel). fields.
  rewrite Hsender. cbn [negb].
  rewrite Hobjb in *. fields.
  destruct (begin_data_capture_result h).
  - unfold pthread_create, bind, emit, modify_obj, get_obj, ret. fields.
    eexists. eexists. split; [reflexivity|]. fields.
    rewrite Hqd, Hsemd, Htrd, Htrb. fields.
    split; [reflexivity|]. split; [reflexivity|]. split; [reflexivity|].
    split; [reflexivity|]. split; [reflexivity|].
    split; [rewrite <- !app_assoc; reflexivity|].
    rewrite !filter_app, Hthb, Hthd. reflexivity.
  - unfold bind, emit, modify_obj, get_obj, ret. fields.
    eexists. eexists. split; [reflexivity|]. fields.
    rewrite Hqd, Hsemd, Htd, Htrd, Htrb. fields.
    split; [reflexivity|]. split; [reflexivity|]. split; [reflexivity|].
    split; [reflexivity|]. split; [reflexivity|].
    split; [rewrite <- !app_assoc; reflexivity|].
    rewrite !filter_app, Hthb, Hthd. reflexivity.
Qed.

Lemma start_reports_capture_witness :
  exists w' es,
    ndi_output_start nv12_host (created plain_settings [])
      = Ok (begin_data_capture_result nv12_host, w') /\
    started (obj w') = begin_data_capture_result nv12_host /\
    ndi_sender (obj w') = send_create_result nv12_host /\
    video_send_thread (obj w') =
      (if begin_data_capture_result nv12_host then ThreadRunning
       else video_send_thread (obj (created plain_settings []))) /\
    video_frames (obj w') = video_frames (obj (created plain_settings [])) /\
    video_send_sem (obj w')
      = video_send_sem (obj (created plain_settings [])) /\
    trace w' = trace (created plain_settings []) ++ es /\
    filter is_thread_create es =
      (if begin_data_capture_result nv12_host then [EvThreadCreate] else []).
Proof.
  apply (start_reports_capture nv12_host (created plain_settings [])).
  - vm_compute. congruence.
  - left. reflexivity.
Defined.

(** ** Delivery order *)

Lemma thread_pass_run w f rest now readings d :
  consistent [] w ->
  video_frames (obj w) = f :: rest ->
  0 < video_send_sem (obj w) ->
  clock w = now :: readings ->
  frame_duration (frame_rate_N f) (frame_rate_D f) = Ok d ->
  exists w',
    thread_pass w = Ok (tt, w') /\
    video_frames (obj w') = rest /\
    video_send_sem (obj w') = video_send_sem (obj w) - 1 /\
    clock w' = readings /\
    trace w' = trace w ++ delivery_events f now d.
Proof.
  intros Hc Hq Hsem Hclock Hd.
  unfold thread_pass.
  rewrite (bind_ok get_obj _ w (obj w) w) by reflexivity.
  rewrite (thread_running _ _ Hc).
  unfold thread_iteration, os_sem_wait.
  unfold bind at 1. unfold bind at 1. unfold bind at 1. unfold get_obj at 1.
  apply Z.ltb_lt in Hsem. rewrite Hsem.
  unfold bind at 1. cbn [modify_obj emit].
  unfold os_event_try.
  unfold bind at 1. unfold bind at 1. unfold get_obj at 1. fields.
  rewrite (stop_unset _ _ Hc). cbn [ret].
  unfold circlebuf_pop_front.
  unfold bind at 1. unfold bind at 1. unfold get_obj at 1. fields.
  rewrite Hq.
  unfold bind at 1. cbn [modify_obj ret].
  rewrite (bind_ok _ _ _ _ _ (lift_ok _ _ _ Hd)).
  unfold bind at 1. unfold os_gettime_ns. fields. rewrite Hclock.
  unfold delivery_events.
  destruct (p_data f =? nullptr) eqn:Ep.
  - cbn [negb]. eexists. split; [reflexivity|]. fields.
    rewrite <- app_assoc. repeat split; reflexivity.
  - cbn [negb].
    assert (Hmem : mem (p_data f) (bm_live w) = true).
    { apply mem_In, (live_queued _ _ Hc). cbn [app].
      rewrite Hq. change (f :: rest) with ([f] ++ rest).
      rewrite queued_buffers_app, queued_buffers_real
        by (now apply Z.eqb_neq). now left. }
    unfold bind at 1. unfold bind at 1. unfold bind at 1. cbn [emit].
    unfold bfree. fields. rewrite Ep, Hmem.
    eexists. split; [reflexivity|]. fields.
    rewrite <- !app_assoc. repeat split; reflexivity.
Qed.

Lemma delivery_events_sends f now d :
  filter is_send (delivery_events f now d) = map EvSendVideo (real_frames [f]).
Proof.
  unfold delivery_events, real_frames. cbn [filter map app].
  destruct (p_data f =? nullptr); reflexivity.
Qed.

Lemma deliveries_in_order q :
  forall w,
    consistent [] w ->
    video_frames (obj w) = q ->
    Z.of_nat (length q) <= video_send_sem (obj w) ->
    (length q <= length (clock w))%nat ->
    Forall (fun f => exists d,
              frame_duration (frame_rate_N f) (frame_rate_D f) = Ok d) q ->
    exists w' es,
      run (repeat ThreadPass (length q)) w = Ok (tt, w') /\
      consistent [] w' /\
      video_frames (obj w') = [] /\
      trace w' = trace w ++ es /\
      filter is_send es = map EvSendVideo (real_frames q).
Proof.
  induction q as [|f rest IH]; intros w Hc Hq Hsem Hclock Hrates.
  - exists w, []. rewrite app_nil_r.
    split; [reflexivity|]. split; [exact Hc|]. split; [exact Hq|].
    split; reflexivity.
  - inversion Hrates as [|f0 l [d Hd] Hrest]; subst.
    destruct (clock w) as [|now readings] eqn:Eclock;
      [cbn in Hclock; lia|].
    cbn [length] in Hsem.
    destruct (thread_pass_run w f rest now readings d Hc Hq ltac:(lia)
                Eclock Hd) as [w1 [Hrun [Hq1 [Hs1 [Hc1 Ht1]]]]].
    pose proof (thread_pass_consistent w tt w1 Hc Hrun) as Hcons1.
    destruct (IH w1 Hcons1 Hq1) as [w' [es [Hrun' [Hc' [Hq' [Ht' Hs']]]]]].
    + rewrite Hs1. lia.
    + rewrite Hc1. cbn [length] in Hclock. lia.
    + exact Hrest.
    + exists w', (delivery_events f now d ++ es).
      cbn [length repeat run perform].
      rewrite (bind_ok _ _ _ _ _ Hrun).
      split; [exact Hrun'|]. split; [exact Hc'|]. split; [exact Hq'|].
      split; [rewrite Ht', Ht1, <- app_assoc; reflexivity|].
      rewrite filter_app, delivery_events_sends, Hs'.
      change (f :: rest) with ([f] ++ rest).
      unfold real_frames. now rewrite filter_app, map_app.
Qed.

(** X19: when every queued descriptor has its signal unit, a clock
    reading and a defined frame duration, as many passes of the delivery
    thread as there are descriptors empty the queue, hand the frames with
    pixel data to the sink in queue order, each once, send nothing for the
    fillers, and leave no pixel buffer live. *)
Theorem delivery_in_queue_order (w : world) :
  consistent [] w ->
  frames_in_queue (obj w) <= video_send_sem (obj w) ->
  (length (video_frames (obj w)) <= length (clock w))%nat ->
  Forall (fun f => exists d,
            frame_duration (frame_rate_N f) (frame_rate_D f) = Ok d)
         (video_frames (obj w)) ->
  exists w' es,
    run (repeat ThreadPass (length (video_frames (obj w)))) w = Ok (tt, w') /\
    video_frames (obj w') = [] /\
    bm_live w' = [] /\
    trace w' = trace w ++ es /\
    filter is_send es = map EvSendVideo (real_frames (video_frames (obj w))).
Proof.
  intros Hc Hsem Hclock Hrates.
  rewrite frames_in_queue_length in Hsem.
  destruct (deliveries_in_order (video_frames (obj w)) w Hc eq_refl Hsem
              Hclock Hrates) as [w' [es [Hrun [Hc' [Hq' [Ht' Hs']]]]]].
  exists w', es. split; [exact Hrun|]. split; [exact Hq'|].
  split; [|split; assumption].
  apply empty_list. intros p Hin.
  apply (live_queued _ _ Hc') in Hin. rewrite Hq' in Hin. exact Hin.
Qed.

Lemma delivery_in_queue_order_witness :
  exists w' es,
    run (repeat ThreadPass (length (video_frames (obj world_three_queued))))
        world_three_queued = Ok (tt, w') /\
    video_frames (obj w') = [] /\
    bm_live w' = [] /\
    trace w' = trace world_three_queued ++ es /\
    filter is_send es =
      map EvSendVideo (real_frames (video_frames (obj world_three_queued))).
Proof.
  apply (delivery_in_queue_order world_three_queued).
  - concrete_consistent world_three_queued.
  - vm_compute. congruence.
  - vm_compute. lia.
  - let q := eval vm_compute in (video_frames (obj world_three_queued)) in
    replace (video_frames (obj world_three_queued)) with q
      by (vm_compute; reflexivity).
    repeat constructor; exists 33333333; reflexivity.
Defined.

(** ** What the raw-video entry point never does *)

Lemma appends_ret ok {A} (a : A) : appends ok (ret a).
Proof.
  intros w a' w' H. inversion H; subst. exists [].
  now rewrite app_nil_r.
Qed.

Lemma appends_bind ok {A B} (m : M A) (k : A -> M B) :
  appends ok m -> (forall a, appends ok (k a)) -> appends ok (bind m k).
Proof.
  intros Hm Hk w b w'' Hrun.
  apply bind_inv in Hrun. destruct Hrun as [a [w' [H1 H2]]].
  destruct (Hm w a w' H1) as [es1 [Ht1 Ho1]].
  destruct (Hk a w' b w'' H2) as [es2 [Ht2 Ho2]].
  exists (es1 ++ es2). rewrite Ht2, Ht1, <- app_assoc.
  split; [reflexivity|]. now rewrite forallb_app, Ho1, Ho2.
Qed.

Lemma appends_keeps_trace ok {A} (m : M A) :
  (forall w a w', m w = Ok (a, w') -> trace w' = trace w) -> appends ok m.
Proof.
  intros H w a w' Hrun. exists []. rewrite app_nil_r.
  split; [exact (H w a w' Hrun) | reflexivity].
Qed.

Lemma appends_emit ok e : ok e = true -> appends ok (emit e).
Proof.
  intros He w a w' H. inversion H; subst. exists [e].
  split; [reflexivity|]. cbn. now rewrite He.
Qed.

Lemma appends_lift ok {A} (r : result A) : appends ok (lift r).
Proof.
  apply appends_keeps_trace. intros w a w' H.
  apply lift_inv in H. destruct H as [_ Hw]. now subst.
Qed.

Lemma appends_get_obj ok : appends ok get_obj.
Proof. apply appends_keeps_trace. intros w a w' H. now inversion H. Qed.

Lemma appends_modify_obj ok f : appends ok (modify_obj f).
Proof. apply appends_keeps_trace. intros w a w' H. now inversion H. Qed.

Lemma appends_repeatM ok (body : M unit) (n : nat) :
  appends ok body -> appends ok (repeatM n body).
Proof.
  intros Hbody. induction n as [|n IH]; cbn [repeatM].
  - apply appends_ret.
  - apply appends_bind; [exact Hbody | intros ?; exact IH].
Qed.

Lemma appends_bmalloc size : appends is_local (bmalloc size).
Proof.
  intros w a w' H. inversion H; subst.
  exists [EvBmalloc (next_ptr w) size]. now split.
Qed.

Lemma appends_bfree p : appends is_local (bfree p).
Proof.
  intros w a w' H. unfold bfree in H.
  destruct (p =? nullptr).
  - inversion H; subst. exists []. now rewrite app_nil_r.
  - destruct (mem p (bm_live w)); [|discriminate].
    inversion H; subst. exists [EvBfree p]. now split.
Qed.

Lemma appends_os_sem_post : appends is_local os_sem_post.
Proof.
  unfold os_sem_post. apply appends_bind; [apply appends_modify_obj|].
  intros ?. now apply appends_emit.
Qed.

Lemma appends_os_sem_wait : appends is_local os_sem_wait.
Proof.
  unfold os_sem_wait. apply appends_bind; [apply appends_get_obj|].
  intros o. destruct (0 <? video_send_sem o).
  - apply appends_bind; [apply appends_modify_obj|].
    intros ?. now apply appends_emit.
  - intros w a w' H. discriminate.
Qed.

Lemma appends_circlebuf_pop_front : appends is_local circlebuf_pop_front.
Proof.
  unfold circlebuf_pop_front. apply appends_bind; [apply appends_get_obj|].
  intros o. destruct (video_frames o).
  - intros w a w' H. discriminate.
  - apply appends_bind; [apply appends_modify_obj|].
    intros ?. apply appends_ret.
Qed.

Lemma appends_convert_frame o frame : appends is_local (convert_frame o frame).
Proof.
  unfold convert_frame.
  destruct (is_UYVY (frame_format o));
    [destruct (output_format (video_info o))|];
    first [now apply appends_emit | apply appends_ret].
Qed.

Lemma local_calls_are_not_sends es :
  forallb is_local es = true -> filter is_send es = [].
Proof.
  induction es as [|e es IH]; [reflexivity|].
  cbn [forallb filter]. unfold is_local at 1.
  destruct (is_send e); cbn [negb andb]; [discriminate|exact IH].
Qed.

(** X20: whatever the raw-video entry point does on a call that returns
    (drop the incoming frame, drop queued frames, insert fillers,
    enqueue), it never calls the sink: the frames it drops are released
    without having been sent. *)
Theorem rawvideo_never_sends (frame : video_data) (w w' : world) :
  ndi_output_rawvideo frame w = Ok (tt, w') ->
  exists es, trace w' = trace w ++ es /\ filter is_send es = [].
Proof.
  intros Hrun.
  assert (H : appends is_local (ndi_output_rawvideo frame)).
  { unfold ndi_output_rawvideo.
    apply appends_bind; [apply appends_get_obj|]. intros o.
    destruct (negb (started o)); [apply appends_ret|].
    destruct (MAX_BUFFERING_FRAMES <=? frames_in_queue o);
      [apply appends_ret|].
    apply appends_bind; [apply appends_convert_frame|]. intros ?.
    apply appends_bind; [apply appends_lift|]. intros bytes.
    apply appends_bind; [apply appends_bmalloc|]. intros p.
    apply appends_bind; [now apply appends_emit|]. intros ?.
    apply appends_bind; [apply appends_lift|]. intros required.
    apply appends_bind; [apply appends_lift|]. intros add.
    apply appends_bind.
    - destruct (add <? 0).
      + apply appends_bind; [apply appends_lift|]. intros magnitude.
        apply appends_repeatM. unfold drop_front.
        apply appends_bind; [apply appends_circlebuf_pop_front|]. intros f.
        apply appends_bind; [apply appends_os_sem_wait|]. intros ?.
        apply appends_bfree.
      + destruct (0 <? add); [|apply appends_ret].
        apply appends_repeatM. unfold push_filler.
        apply appends_bind; [apply appends_modify_obj|]. intros ?.
        apply appends_os_sem_post.
    - intros ?.
      apply appends_bind; [apply appends_modify_obj|]. intros ?.
      apply appends_os_sem_post. }
  destruct (H w tt w' Hrun) as [es [Ht Ho]].
  exists es. split; [exact Ht | now apply local_calls_are_not_sends].
Qed.

Lemma rawvideo_never_sends_witness :
  exists es,
    trace (after (ndi_output_rawvideo (video_at 200000001)) world_before_drop)
      = trace world_before_drop ++ es /\
    filter is_send es = [].
Proof.
  apply (rawvideo_never_sends (video_at 200000001) world_before_drop
           (after (ndi_output_rawvideo (video_at 200000001))
                  world_before_drop)).
  vm_compute. reflexivity.
Defined.

End OutputRuns.
